(** * Feature Store workshop notebooks: a shallow embedding

    The notebooks of the workshop are sequences of SDK calls glued together
    with a little Python: a polling loop, string comparisons on version
    numbers, an f-string that builds an Athena query, and pandas reshaping.
    This file embeds those pieces as Rocq functions and proves what the
    specification says about them.

    Conventions.
    - Python [str] is [string]; [==] on strings is [String.eqb]; [<] on
      strings is the lexicographic order on code points.
    - A call that may raise returns [exn + A] ([inl] is the exception).
    - A value read from the outside world (a describe() answer, a random
      number, the clock) is an explicit oracle argument. *)

From Stdlib Require Import List String Ascii ZArith Lia Bool Arith.
Import ListNotations.
Open Scope string_scope.

(** ** Python exceptions that the embedded code can raise *)

Inductive exn : Type :=
| SystemExit (msg : string)
| IndexError
| KeyError (label : string)
| ValueError (msg : string)
| AttributeError (attr : string).

(** * m2_nb3_offline_iceberg_compaction.ipynb: the creation polling loop *)

Module Polling.

(** [feature_group.describe().get('FeatureGroupStatus')]: [dict.get] gives
    [None] when the key is missing. *)
Definition status : Type := option string.

(** What the function does to the outside world, in order. *)
Inductive event : Type :=
| Describe
| Print (msg : string)
| LogInfo (msg : string)
| Sleep (seconds : Z).

(** The world threaded through the function: how many describe() calls were
    made so far, and the events issued so far (oldest first). *)
Record world : Type := mkWorld { calls : nat; trace : list event }.

Definition M (A : Type) : Type := world -> A * world.

Definition ret {A} (a : A) : M A := fun w => (a, w).
Definition bind {A B} (m : M A) (k : A -> M B) : M B :=
  fun w => let (a, w') := m w in k a w'.
Definition emit (e : event) : M unit :=
  fun w => (tt, mkWorld (calls w) (trace w ++ [e])).

Notation "x <- m ;; k" := (bind m (fun x => k))
  (at level 61, m at next level, right associativity).
Notation "m ;;; k" := (bind m (fun _ => k))
  (at level 61, right associativity).

(** [str(status)] inside an f-string. *)
Definition fmt_status (s : status) : string :=
  match s with Some x => x | None => "None" end.

(** [status == 'Creating'], [status != 'Created']. *)
Definition status_is (s : status) (lit : string) : bool :=
  match s with Some x => String.eqb x lit | None => false end.

Section Loop.

(** The answers of the service: [describe_status n] is the
    FeatureGroupStatus of the [n]-th describe() call (from 0). *)
Variable describe_status : nat -> status.

(** [feature_group.name] *)
Variable name : string.

Definition describe : M status :=
  fun w => (describe_status (calls w),
            mkWorld (S (calls w)) (trace w ++ [Describe])).

(** One pass through the body of the [while]. *)
Definition loop_body : M status :=
  emit (LogInfo ("Waiting for feature group: " ++ name ++ " to be created ...")) ;;;
  emit (Sleep 5) ;;;
  describe.

(** [while status == 'Creating': body].  [fuel] bounds the number of
    passes through the body; [None] is "fuel exhausted, still looping". *)
Fixpoint while_creating (fuel : nat) (st : status) (w : world)
  : option (status * world) :=
  if status_is st "Creating" then
    match fuel with
    | O => None
    | S fuel' => let (st', w') := loop_body w in while_creating fuel' st' w'
    end
  else Some (st, w).

(** The part after the loop. *)
Definition finish (st : status) : M (exn + unit) :=
  if negb (status_is st "Created") then
    ret (inl (SystemExit ("Failed to create feature group " ++ name ++ ": "
                          ++ fmt_status st)))
  else
    emit (LogInfo ("FeatureGroup " ++ name ++ " was successfully created.")) ;;;
    ret (inr tt).

Definition wait_for_feature_group_creation_complete (fuel : nat) (w : world)
  : option ((exn + unit) * world) :=
  let (st, w1) := describe w in
  let (_, w2) := emit (Print ("Initial status: " ++ fmt_status st)) w1 in
  match while_creating fuel st w2 with
  | None => None
  | Some (st', w3) => Some (finish st' w3)
  end.

(** The events of [k] passes through the loop body. *)
Fixpoint passes (k : nat) : list event :=
  match k with
  | O => []
  | S k' =>
      [LogInfo ("Waiting for feature group: " ++ name ++ " to be created ...");
       Sleep 5; Describe] ++ passes k'
  end.

(** The answer to call [i] is 'Creating'. *)
Definition creating (i : nat) : bool := status_is (describe_status i) "Creating".

(** [k] is the first call whose answer is not 'Creating'. *)
Definition first_settled (k : nat) : Prop :=
  creating k = false /\ forall i, i < k -> creating i = true.

End Loop.

Definition init : world := mkWorld 0 [].

(** Two sample services: one answers 'Creating' twice and then 'Created',
    the other answers 'Creating' for ever. *)
Definition created_at_third_call (n : nat) : status :=
  if (n <? 2)%nat then Some "Creating" else Some "Created".

Definition always_creating (n : nat) : status := Some "Creating".

End Polling.

(** * Python built-ins used by the notebooks *)

Module Py.

(** [a < b] on [str]: lexicographic on code points, a proper prefix is
    smaller. *)
Fixpoint str_lt (a b : string) : bool :=
  match a, b with
  | EmptyString, EmptyString => false
  | EmptyString, String _ _ => true
  | String _ _, EmptyString => false
  | String x a', String y b' =>
      if (nat_of_ascii x <? nat_of_ascii y)%nat then true
      else if (nat_of_ascii y <? nat_of_ascii x)%nat then false
      else str_lt a' b'
  end.

(** [s.split(sep)] for a one-character separator: one more piece than there
    are separators, never the empty list. *)
Fixpoint split (sep : ascii) (s : string) : list string :=
  match s with
  | EmptyString => [EmptyString]
  | String c s' =>
      if Ascii.eqb c sep then EmptyString :: split sep s'
      else match split sep s' with
           | h :: t => String c h :: t
           | [] => [String c EmptyString]
           end
  end.

(** [sep.join(parts)] *)
Fixpoint join (sep : string) (parts : list string) : string :=
  match parts with
  | [] => EmptyString
  | [p] => p
  | p :: rest => p ++ sep ++ join sep rest
  end.

(** [l[i]] for [i >= 0]. *)
Definition index {A} (l : list A) (i : nat) : exn + A :=
  match nth_error l i with
  | Some x => inr x
  | None => inl IndexError
  end.

(** [c.isspace()] on an ASCII character: the space, tab to carriage return,
    and the four separators from 28 to 31. *)
Definition is_space (c : ascii) : bool :=
  let n := nat_of_ascii c in
  (n =? 32)%nat || ((9 <=? n)%nat && (n <=? 13)%nat)
  || ((28 <=? n)%nat && (n <=? 31)%nat).

Definition is_digit (c : ascii) : bool :=
  let n := nat_of_ascii c in (48 <=? n)%nat && (n <=? 57)%nat.

Definition digit_value (c : ascii) : Z := Z.of_nat (nat_of_ascii c - 48).

Fixpoint lstrip (s : string) : string :=
  match s with
  | String c s' => if is_space c then lstrip s' else s
  | EmptyString => EmptyString
  end.

Definition rev_string (s : string) : string :=
  string_of_list_ascii (rev (list_ascii_of_string s)).

Definition strip (s : string) : string :=
  rev_string (lstrip (rev_string (lstrip s))).

(** The digit part of an integer literal: decimal digits, a single
    underscore allowed between two digits. *)
Fixpoint digits (acc : Z) (after_digit : bool) (s : string) : option Z :=
  match s with
  | EmptyString => if after_digit then Some acc else None
  | String c s' =>
      if is_digit c then digits (10 * acc + digit_value c) true s'
      else if Ascii.eqb c "_" && after_digit then digits acc false s'
      else None
  end.

(** [int(s)] in base 10 on an ASCII string: surrounding whitespace is
    ignored, one sign is allowed; anything else is a ValueError. *)
Definition int (s : string) : exn + Z :=
  let bad := inl (ValueError ("invalid literal for int() with base 10: " ++ s)) in
  match strip s with
  | String "-" d => match digits 0 false d with Some z => inr (- z)%Z | None => bad end
  | String "+" d => match digits 0 false d with Some z => inr z | None => bad end
  | d => match digits 0 false d with Some z => inr z | None => bad end
  end.

(** [sub in s] *)
Fixpoint contains (sub s : string) : bool :=
  String.prefix sub s ||
  match s with
  | EmptyString => false
  | String _ s' => contains sub s'
  end.

(** [s.replace(old, new)] for a non-empty [old]: occurrences are replaced
    left to right without overlap.  [skip] counts the characters of a
    matched occurrence that are still to be dropped. *)
Fixpoint replace_from (old new : string) (skip : nat) (s : string) : string :=
  match s with
  | EmptyString => EmptyString
  | String c s' =>
      match skip with
      | S k => replace_from old new k s'
      | O =>
          if String.prefix old s
          then new ++ replace_from old new (String.length old - 1) s'
          else String c (replace_from old new 0 s')
      end
  end.

Definition replace (old new s : string) : string := replace_from old new 0 s.

(** [x in l] for a list of strings. *)
Definition mem (x : string) (l : list string) : bool :=
  existsb (String.eqb x) l.

End Py.

(** * The version gates at the top of the notebooks *)

Module Versions.

(** What a gate cell does. *)
Inductive action : Type :=
| Keep
| PipInstall (requirement : string).

(** [if sagemaker.__version__ < '2.48.1': pip install sagemaker==2.48.1]
    (feature-metadata, update-feature-group and lineage notebooks). *)
Definition sagemaker_gate (version : string) : action :=
  if Py.str_lt version "2.48.1" then PipInstall "sagemaker==2.48.1" else Keep.

(** [if boto3.__version__ < '1.24.23': pip install boto3==1.24.23] *)
Definition boto3_gate (version : string) : action :=
  if Py.str_lt version "1.24.23" then PipInstall "boto3==1.24.23" else Keep.

(** Iceberg notebook:
    [major, minor, patch = sm_version.split('.')]
    [if int(major) < 2 or int(minor) < 125: pip install sagemaker==2.125.0]
    Unpacking needs exactly three pieces; [or] does not evaluate its right
    operand when the left one holds. *)
Definition iceberg_gate (sm_version : string) : exn + action :=
  match Py.split "." sm_version with
  | [major; minor; patch] =>
      match Py.int major with
      | inl e => inl e
      | inr ma =>
          if (ma <? 2)%Z then inr (PipInstall "sagemaker==2.125.0")
          else
            match Py.int minor with
            | inl e => inl e
            | inr mi =>
                if (mi <? 125)%Z then inr (PipInstall "sagemaker==2.125.0")
                else inr Keep
            end
      end
  | l => inl (ValueError
                (if (List.length l <? 3)%nat
                 then "not enough values to unpack"
                 else "too many values to unpack"))
  end.

(** The numeric reading of a version: its dot-separated components as
    integers, compared component by component. *)
Definition components (version : string) : option (list Z) :=
  fold_right
    (fun piece acc =>
       match Py.int piece, acc with
       | inr z, Some l => Some (z :: l)
       | _, _ => None
       end)
    (Some []) (Py.split "." version).

Fixpoint numerically_lt (a b : list Z) : bool :=
  match a, b with
  | [], [] => false
  | [], _ :: _ => true
  | _ :: _, [] => false
  | x :: a', y :: b' =>
      if (x <? y)%Z then true else if (y <? x)%Z then false else numerically_lt a' b'
  end.

(** [a] is a numerically newer version than [b]. *)
Definition newer (a b : string) : Prop :=
  match components a, components b with
  | Some ca, Some cb => numerically_lt cb ca = true
  | _, _ => False
  end.

End Versions.

(** * Batch-scoring notebook: the Athena query text *)

Module Athena.

(** The double-quote character and the line feed of the f-string. *)
Definition dq : string := String (ascii_of_nat 34) EmptyString.
Definition nl : string := String (ascii_of_nat 10) EmptyString.

(** An f-string is the concatenation of its literal and substituted pieces. *)
Definition fstring (pieces : list string) : string :=
  fold_right String.append EmptyString pieces.

(** [",\n    ".join(f'"{c}"' for c in features_names)] *)
Definition batch_transform_columns_string (features_names : list string) : string :=
  Py.join ("," ++ nl ++ "    ") (map (fun c => fstring [dq; c; dq]) features_names).

Section Query.

Variables customer_uid product_uid order_uid : string.
Variables customer_et product_et order_et : string.
Variables customers_table products_table orders_table : string.
Variable features_names : list string.

(** The f-string of the notebook, line by line. *)
Definition query_string : string :=
  fstring
    [ "WITH customer_table AS ("; nl;
      "    SELECT *,"; nl;
      "        dense_rank() OVER ("; nl;
      "            PARTITION BY "; dq; customer_uid; dq; nl;
      "            ORDER BY "; dq; customer_et; dq; " DESC,"; nl;
      "                "; dq; "api_invocation_time"; dq; " DESC,"; nl;
      "                "; dq; "write_time"; dq; " DESC"; nl;
      "        ) AS "; dq; "rank"; dq; nl;
      "    FROM "; dq; customers_table; dq; nl;
      "    WHERE NOT "; dq; "is_deleted"; dq; nl;
      "),"; nl;
      "product_table AS ("; nl;
      "    SELECT *,"; nl;
      "        dense_rank() OVER ("; nl;
      "            PARTITION BY "; dq; product_uid; dq; nl;
      "            ORDER BY "; dq; product_et; dq; " DESC,"; nl;
      "                "; dq; "api_invocation_time"; dq; " DESC,"; nl;
      "                "; dq; "write_time"; dq; " DESC"; nl;
      "        ) AS "; dq; "rank"; dq; nl;
      "    FROM "; dq; products_table; dq; nl;
      "    WHERE NOT "; dq; "is_deleted"; dq; nl;
      "),"; nl;
      "order_table AS ("; nl;
      "    SELECT *,"; nl;
      "        dense_rank() OVER ("; nl;
      "            PARTITION BY "; dq; order_uid; dq; nl;
      "            ORDER BY "; dq; order_et; dq; " DESC,"; nl;
      "                "; dq; "api_invocation_time"; dq; " DESC,"; nl;
      "                "; dq; "write_time"; dq; " DESC"; nl;
      "        ) AS "; dq; "rank"; dq; nl;
      "    FROM "; dq; orders_table; dq; nl;
      "    WHERE NOT "; dq; "is_deleted"; dq; nl;
      ")"; nl;
      "SELECT DISTINCT"; nl;
      "    "; dq; order_uid; dq; ","; nl;
      "    "; batch_transform_columns_string features_names; nl;
      "FROM customer_table,"; nl;
      "    product_table,"; nl;
      "    order_table"; nl;
      "WHERE order_table."; dq; "customer_id"; dq; " = customer_table.";
             dq; "customer_id"; dq; nl;
      "    AND order_table."; dq; "product_id"; dq; " = product_table.";
             dq; "product_id"; dq; nl;
      "    AND customer_table."; dq; "rank"; dq; " = 1"; nl;
      "    AND product_table."; dq; "rank"; dq; " = 1"; nl;
      "    AND order_table."; dq; "rank"; dq; " = 1"; nl ].

End Query.

(** ** The query the specification describes

    A small abstract syntax for the shape of query the specification talks
    about, and its layout as text.  [batch_query] is written from the
    specification's words; the theorems compare its text with
    [query_string]. *)

(** A view over one offline-store table that ranks the rows of every record
    identifier, newest first, among the rows that are not deleted. *)
Record ranked_view : Type := mkView {
  view_name : string;
  source_table : string;
  excluded_flag : string;      (* WHERE NOT <flag> *)
  partition_by : string;
  order_by_desc : list string  (* all descending, most significant first *)
}.

Inductive condition : Type :=
| SameValue (view1 column1 view2 column2 : string)  (* v1."c1" = v2."c2" *)
| RankIs (view : string) (n : nat).                 (* v."rank" = n *)

Record select_query : Type := mkQuery {
  views : list ranked_view;
  select_distinct : list string;   (* output columns, in order *)
  from_views : list string;
  conditions : list condition      (* conjunction *)
}.

Definition quoted (identifier : string) : string := dq ++ identifier ++ dq.

Definition render_view (v : ranked_view) : string :=
  view_name v ++ " AS (" ++ nl ++
  "    SELECT *," ++ nl ++
  "        dense_rank() OVER (" ++ nl ++
  "            PARTITION BY " ++ quoted (partition_by v) ++ nl ++
  "            ORDER BY " ++
  Py.join ("," ++ nl ++ "                ")
          (map (fun c => quoted c ++ " DESC") (order_by_desc v)) ++ nl ++
  "        ) AS " ++ quoted "rank" ++ nl ++
  "    FROM " ++ quoted (source_table v) ++ nl ++
  "    WHERE NOT " ++ quoted (excluded_flag v) ++ nl ++
  ")".

Definition render_nat (n : nat) : string :=
  match n with
  | 0 => "0" | 1 => "1" | 2 => "2" | 3 => "3" | 4 => "4"
  | 5 => "5" | 6 => "6" | 7 => "7" | 8 => "8" | 9 => "9"
  | _ => "?"
  end.

Definition render_condition (c : condition) : string :=
  match c with
  | SameValue v1 c1 v2 c2 => v1 ++ "." ++ quoted c1 ++ " = " ++ v2 ++ "." ++ quoted c2
  | RankIs v n => v ++ "." ++ quoted "rank" ++ " = " ++ render_nat n
  end.

(** A comma-separated list has no comma after its last item. *)
Definition render (q : select_query) : string :=
  "WITH " ++ Py.join ("," ++ nl) (map render_view (views q)) ++ nl ++
  "SELECT DISTINCT" ++ nl ++
  "    " ++ Py.join ("," ++ nl ++ "    ") (map quoted (select_distinct q)) ++ nl ++
  "FROM " ++ Py.join ("," ++ nl ++ "    ") (from_views q) ++ nl ++
  "WHERE " ++ Py.join (nl ++ "    AND ") (map render_condition (conditions q)) ++ nl.

(** The newest non-deleted row of every record identifier of a table. *)
Definition latest_rows (name table uid event_time : string) : ranked_view :=
  mkView name table "is_deleted" uid
         [event_time; "api_invocation_time"; "write_time"].

Definition batch_query
    (customer_uid product_uid order_uid customer_et product_et order_et
     customers_table products_table orders_table : string)
    (features_names : list string) : select_query :=
  mkQuery
    [ latest_rows "customer_table" customers_table customer_uid customer_et;
      latest_rows "product_table" products_table product_uid product_et;
      latest_rows "order_table" orders_table order_uid order_et ]
    (order_uid :: features_names)
    [ "customer_table"; "product_table"; "order_table" ]
    [ SameValue "order_table" "customer_id" "customer_table" "customer_id";
      SameValue "order_table" "product_id" "product_table" "product_id";
      RankIs "customer_table" 1;
      RankIs "product_table" 1;
      RankIs "order_table" 1 ].

End Athena.

(** * The pandas operations the notebooks call

    pandas is a library, not part of the repository; what follows models the
    documented behaviour of the handful of calls the notebooks make, on
    frames with string column labels and a default integer index. *)

Module Pandas.
#[local] Open Scope list_scope.

(** JSON-like Python values. *)
#[local] Unset Elimination Schemes.
Inductive json : Type :=
| JNull
| JBool (b : bool)
| JNum (z : Z)
| JStr (s : string)
| JList (l : list json)
| JDict (d : list (string * json)).
#[local] Set Elimination Schemes.

(** A Python [dict] with string keys, in insertion order (keys distinct). *)
Definition dict : Type := list (string * json).

Fixpoint dict_get (k : string) (d : dict) : option json :=
  match d with
  | [] => None
  | (k', v) :: d' => if String.eqb k k' then Some v else dict_get k d'
  end.

Definition dict_has (k : string) (d : dict) : bool :=
  match dict_get k d with Some _ => true | None => false end.

(** [d.pop(k)] (the remaining dict). *)
Definition dict_pop (k : string) (d : dict) : dict :=
  filter (fun kv => negb (String.eqb k (fst kv))) d.

(** [d[k] = v]: in place when the key exists, at the end otherwise. *)
Fixpoint dict_set (k : string) (v : json) (d : dict) : dict :=
  match d with
  | [] => [(k, v)]
  | (k', v') :: d' =>
      if String.eqb k k' then (k', v) :: d' else (k', v') :: dict_set k v d'
  end.

(** [d.update(other)] *)
Definition dict_update (d other : dict) : dict :=
  fold_left (fun acc kv => dict_set (fst kv) (snd kv) acc) other d.

(** A cell of a frame: a value, or [None] for a missing value (NaN). *)
Definition cell : Type := option json.

(** A frame, row by row; every row has one cell per column label. *)
Record DataFrame : Type := mkFrame {
  columns : list string;
  rows : list (list cell)
}.

(** [len(df)], [df.shape[0]] *)
Definition nrows (df : DataFrame) : nat := List.length (rows df).

(** [pd.DataFrame()] *)
Definition empty_frame : DataFrame := mkFrame [] [].

(** Column labels of a list of records: the keys, in order of first
    appearance. *)
Definition add_keys (cols : list string) (d : dict) : list string :=
  fold_left (fun acc kv => if Py.mem (fst kv) acc then acc else acc ++ [fst kv])
            d cols.

Definition record_columns (records : list dict) : list string :=
  fold_left add_keys records [].

(** [pd.DataFrame(records)] for a list of dicts: a key that a record lacks
    gives a missing cell. *)
Definition from_records (records : list dict) : DataFrame :=
  let cols := record_columns records in
  mkFrame cols (map (fun d => map (fun c => dict_get c d) cols) records).

(** [df.to_dict('records')]: every row as the list of its labelled cells. *)
Definition to_dict_records (df : DataFrame) : list (list (string * cell)) :=
  map (fun row => combine (columns df) row) (rows df).

(** Flattening of one record by [json_normalize(..., max_level=1)]: a
    top-level key whose value is a dict is replaced by one key
    [key.subkey] per entry of that dict (appended after the keys that
    stay); deeper dicts are left as values. *)
Definition flatten_nested (prefix : string) (sub : dict) : dict :=
  map (fun kv => ((prefix ++ "." ++ fst kv)%string, snd kv)) sub.

Definition nested_to_record (d : dict) : dict :=
  fold_left
    (fun new_d kv =>
       match snd kv with
       | JDict sub => dict_update (dict_pop (fst kv) new_d)
                                  (flatten_nested (fst kv) sub)
       | _ => new_d
       end)
    d d.

(** [pd.json_normalize(data, max_level=1)] on a list of dicts. *)
Definition json_normalize (data : list dict) : DataFrame :=
  match data with
  | [] => empty_frame
  | _ => from_records (map nested_to_record data)
  end.

(** Sequencing of calls that may raise. *)
Definition bind {A B} (m : exn + A) (k : A -> exn + B) : exn + B :=
  match m with inl e => inl e | inr a => k a end.

Notation "x <- m ;; k" := (bind m (fun x => k))
  (at level 61, m at next level, right associativity).

(** A Python loop that builds a list and stops at the first exception. *)
Fixpoint for_each {A B} (f : A -> exn + B) (l : list A) : exn + list B :=
  match l with
  | [] => inr []
  | a :: l' => b <- f a ;; bs <- for_each f l' ;; inr (b :: bs)
  end.

(** [df.columns = df.columns.map(f)] *)
Definition rename_columns (f : string -> exn + string) (df : DataFrame)
  : exn + DataFrame :=
  cols <- for_each f (columns df) ;;
  inr (mkFrame cols (rows df)).

(** Keeps the items whose flag is set: boolean indexing. *)
Fixpoint select_by {A} (mask : list bool) (l : list A) : list A :=
  match mask, l with
  | b :: mask', x :: l' =>
      if b then x :: select_by mask' l' else select_by mask' l'
  | _, _ => []
  end.

(** [df.drop(labels, axis=1)]: every label must be a column; all the columns
    carrying a dropped label go. *)
Definition drop (labels : list string) (df : DataFrame) : exn + DataFrame :=
  match filter (fun l => negb (Py.mem l (columns df))) labels with
  | missing :: _ => inl (KeyError missing)
  | [] =>
      let keep := map (fun c => negb (Py.mem c labels)) (columns df) in
      inr (mkFrame (select_by keep (columns df))
                   (map (select_by keep) (rows df)))
  end.

(** Position of a label among the columns. *)
Fixpoint position (label : string) (cols : list string) : option nat :=
  match cols with
  | [] => None
  | c :: cols' =>
      if String.eqb label c then Some 0
      else option_map S (position label cols')
  end.

(** The cells of a column, top to bottom. *)
Definition column_values (label : string) (df : DataFrame) : option (list cell) :=
  match position label (columns df) with
  | Some i => Some (map (fun row => nth i row None) (rows df))
  | None => None
  end.

(** [df.label] *)
Definition getattr (label : string) (df : DataFrame) : exn + list cell :=
  match column_values label df with
  | Some vs => inr vs
  | None => inl (AttributeError label)
  end.

(** [series.isin(values)] on one cell. *)
Definition isin (values : list string) (c : cell) : bool :=
  match c with
  | Some (JStr s) => Py.mem s values
  | _ => false
  end.

(** [df[mask]] *)
Definition filter_rows (mask : list bool) (df : DataFrame) : DataFrame :=
  mkFrame (columns df) (select_by mask (rows df)).

(** Stores [v] in the cells of a row that stand under [label]. *)
Fixpoint store (cols : list string) (label : string) (v : cell) (row : list cell)
  : list cell :=
  match cols, row with
  | c :: cols', x :: row' =>
      (if String.eqb label c then v else x) :: store cols' label v row'
  | _, _ => row
  end.

(** [df[label] = values] for a list of values: the list must be as long as
    the index, except that a frame without rows takes its index from the
    list; an existing column is overwritten in place, a new one is appended
    on the right. *)
Definition setitem (label : string) (values : list cell) (df : DataFrame)
  : exn + DataFrame :=
  let base :=
    if (nrows df =? 0)%nat
    then map (fun _ => map (fun _ => @None json) (columns df)) values
    else rows df in
  if negb (List.length values =? List.length base)%nat
  then inl (ValueError "Length of values does not match length of index")
  else if Py.mem label (columns df)
  then inr (mkFrame (columns df)
                    (map (fun rv => store (columns df) label (snd rv) (fst rv))
                         (combine base values)))
  else inr (mkFrame (columns df ++ [label])
                    (map (fun rv => fst rv ++ [snd rv]) (combine base values))).

(** Union of the column labels of several frames, in order of first
    appearance. *)
Definition union_columns (objs : list DataFrame) : list string :=
  fold_left
    (fun acc df =>
       fold_left (fun acc c => if Py.mem c acc then acc else acc ++ [c])
                 (columns df) acc)
    objs [].

(** The cell of a row under a label, missing when the frame has no such
    column. *)
Definition cell_at (cols : list string) (row : list cell) (label : string) : cell :=
  match position label cols with
  | Some i => nth i row None
  | None => None
  end.

(** [pd.concat(objs, ignore_index=True)]: rows stacked in order over the
    union of the columns. *)
Definition concat (objs : list DataFrame) : exn + DataFrame :=
  match objs with
  | [] => inl (ValueError "No objects to concatenate")
  | _ =>
      let cols := union_columns objs in
      inr (mkFrame cols
             (flat_map (fun df => map (fun row => map (cell_at (columns df) row) cols)
                                      (rows df))
                       objs))
  end.

(** [np.random.randint(low, high, size)]: [size] integers of the half-open
    interval from [low] to [high]; [raw n] is the generator's [n]-th draw. *)
Definition randint (raw : nat -> Z) (low high : Z) (size : nat) : list Z :=
  map (fun i => (low + raw i mod (high - low))%Z) (seq 0 size).

End Pandas.

(** * Feature-metadata notebook: search_features_using_string *)

Module Search.
Import Pandas.

(** One entry of [SearchExpression.Filters]. *)
Record search_filter : Type := mkFilter {
  Name : string;
  Operator : string;
  Value : string
}.

Record search_expression : Type := mkExpression {
  Filters : list search_filter;
  ExprOperator : string          (* the expression's "Operator" key *)
}.

(** The keyword arguments of [sagemaker_client.search]. *)
Record search_request : Type := mkRequest {
  Resource : string;
  SearchExpression : search_expression
}.

(** The request the function sends. *)
Definition search_request_for (search_string : string) : search_request :=
  mkRequest "FeatureMetadata"
    (mkExpression
       [ mkFilter "FeatureName" "Contains" search_string;
         mkFilter "Description" "Contains" search_string;
         mkFilter "AllParameters" "Contains" search_string ]
       "Or").

(** [lambda col: col.split(".")[1]] *)
Definition second_component (col : string) : exn + string :=
  Py.index (Py.split "." col) 1.

Section Function.

(** [sagemaker_client.search]: the ['Results'] list of the response to a
    request. *)
Variable search : search_request -> list dict.

Definition search_features_using_string (search_string : string)
  : exn + DataFrame :=
  let results := search (search_request_for search_string) in
  let df := json_normalize results in
  df <- rename_columns second_component df ;;
  df <- drop ["FeatureGroupArn"] df ;;
  inr df.

End Function.

(** ** How the service reads a search expression

    The Search API keeps a resource when its filters hold, all of them under
    "And", at least one under "Or"; a "Contains" filter holds when the named
    property contains the value.  The properties of a feature are given as
    (name, text) pairs. *)
Definition feature : Type := list (string * string).

Fixpoint property (name : string) (f : feature) : option string :=
  match f with
  | [] => None
  | (n, text) :: f' => if String.eqb name n then Some text else property name f'
  end.

Definition filter_holds (f : feature) (flt : search_filter) : bool :=
  match property (Name flt) f with
  | Some text =>
      if String.eqb (Operator flt) "Contains" then Py.contains (Value flt) text
      else if String.eqb (Operator flt) "Equals" then String.eqb text (Value flt)
      else false
  | None => false
  end.

Definition expression_holds (f : feature) (e : search_expression) : bool :=
  if String.eqb (ExprOperator e) "Or" then existsb (filter_holds f) (Filters e)
  else forallb (filter_holds f) (Filters e).

(** A column label without a dot. *)
Definition dotless (k : string) : bool :=
  match Py.split "." k with [_] => true | _ => false end.

(** The label that follows the first dot of a column label. *)
Definition after_first_dot (col : string) : string :=
  nth 1 (Py.split "." col) "".

(** A result of the shape the API returns for this resource: the single key
    FeatureMetadata, whose value is a dict that has a FeatureGroupArn and
    whose keys contain no dot. *)
Definition metadata_result (r : dict) : bool :=
  match r with
  | [(top, JDict meta)] =>
      String.eqb top "FeatureMetadata" &&
      dict_has "FeatureGroupArn" meta &&
      forallb (fun kv => dotless (fst kv)) meta
  | _ => false
  end.

(** A sample response: two features of one group. *)
Definition sample_results : list dict :=
  [ [("FeatureMetadata",
      JDict [("FeatureGroupArn", JStr "arn:aws:sagemaker:feature-group/customers");
             ("FeatureGroupName", JStr "customers");
             ("FeatureName", JStr "is_married");
             ("FeatureType", JStr "Integral");
             ("Description", JStr "boolean value whether the customer is married or not");
             ("Parameters", JList [JDict [("Key", JStr "team"); ("Value", JStr "mlops")]])])];
    [("FeatureMetadata",
      JDict [("FeatureGroupArn", JStr "arn:aws:sagemaker:feature-group/customers");
             ("FeatureGroupName", JStr "customers");
             ("FeatureName", JStr "married_since");
             ("FeatureType", JStr "String")])] ].

End Search.

(** * Batch-scoring notebook: the transform job *)

Module Transform.

(** The keyword arguments of [Transformer.transform] that the data
    processing depends on; [None] is "not passed". *)
Record transform_args : Type := mkTransform {
  data : string;
  content_type : option string;
  split_type : option string;
  input_filter : option string;
  output_filter : option string;
  join_source : option string
}.

(** [xgb_transformer.transform(destination_s3_path, content_type="text/csv",
      split_type="Line", input_filter="$[2:]", join_source="Input")] *)
Definition xgb_transform_call (destination_s3_path : string) : transform_args :=
  mkTransform destination_s3_path (Some "text/csv") (Some "Line")
              (Some "$[2:]") None (Some "Input").

(** The two JSONPath forms the notebook's text speaks of: the whole record,
    and the record from a column on. *)
Inductive jsonpath : Type :=
| Whole                 (* $ *)
| From (start : nat).   (* $[start:] *)

Fixpoint nat_digits (acc : nat) (seen : bool) (s : string) : option (nat * string) :=
  match s with
  | String c s' =>
      if Py.is_digit c
      then nat_digits (10 * acc + (nat_of_ascii c - 48)) true s'
      else if seen then Some (acc, s) else None
  | EmptyString => if seen then Some (acc, s) else None
  end.

Definition parse_jsonpath (s : string) : option jsonpath :=
  match s with
  | String "$" EmptyString => Some Whole
  | String "$" (String "[" rest) =>
      match nat_digits 0 false rest with
      | Some (n, String ":" (String "]" EmptyString)) => Some (From n)
      | _ => None
      end
  | _ => None
  end.

(** A filter that is not passed is the service's default, "$". *)
Definition effective_filter (f : option string) : string :=
  match f with Some s => s | None => "$" end.

Definition apply_path {A} (p : jsonpath) (record : list A) : list A :=
  match p with
  | Whole => record
  | From n => skipn n record
  end.

(** What the job does with one CSV line, as the notebook describes it: the
    input filter selects what the model sees, the prediction is joined to
    the whole input line when the join source is "Input", and the output
    filter selects what is saved.  [predict] is the model. *)
Definition process_line (args : transform_args) (predict : list string -> list string)
    (line : list string) : option (list string * list string) :=
  match parse_jsonpath (effective_filter (input_filter args)),
        parse_jsonpath (effective_filter (output_filter args)) with
  | Some pin, Some pout =>
      let model_input := apply_path pin line in
      let prediction := predict model_input in
      let joined :=
        match join_source args with
        | Some "Input" => (line ++ prediction)%list
        | _ => prediction
        end in
      Some (model_input, apply_path pout joined)
  | _, _ => None
  end.

End Transform.

(** * Update-feature-group notebook: preparing the customers frame *)

Module UpdateFeatureGroup.
Import Pandas.

(** The last two lines of [generate_event_timestamp]; [iso] is
    [utc_dt.isoformat(timespec='milliseconds')] for the current time. *)
Definition generate_event_timestamp (iso : string) : string :=
  Py.replace "+00:00" "Z" iso.

Section Prepare.

(** The draws of NumPy's generator and the successive readings of the
    clock (as ISO-8601 text in UTC). *)
Variable raw : nat -> Z.
Variable clock : nat -> string.

(** The cells from [customers_df['has_kids'] = ...] to
    [customers_df['event_time'] = event_timestamps], on the frame read
    from the CSV file. *)
Definition prepare_customers (customers_df : DataFrame) : exn + DataFrame :=
  customers_df <-
    setitem "has_kids"
            (map (fun z => Some (JNum z)) (randint raw 0 2 (nrows customers_df)))
            customers_df ;;
  customers_df <- drop ["event_time"] customers_df ;;
  let event_timestamps :=
    map (fun i => generate_event_timestamp (clock i))
        (seq 0 (nrows customers_df)) in
  setitem "event_time" (map (fun s => Some (JStr s)) event_timestamps)
          customers_df.

End Prepare.

(** What the cells amount to, piece by piece: the test that keeps a column
    at the drop, the columns between the drop and the last assignment, a row
    after the three cells have run, the two new columns, and the frame the
    cells leave. *)
Definition keep (x : string) : bool := negb (String.eqb x "event_time").

Definition kept_columns (df : DataFrame) : list string :=
  filter keep (columns df ++ ["has_kids"])%list.

Definition final_row (df : DataFrame) (row : list cell) (k t : cell) : list cell :=
  (select_by (map keep (columns df ++ ["has_kids"])) (row ++ [k]) ++ [t])%list.

Definition kids (raw : nat -> Z) (df : DataFrame) : list cell :=
  map (fun z => Some (JNum z)) (randint raw 0 2 (nrows df)).

Definition stamps (clock : nat -> string) (df : DataFrame) : list cell :=
  map (fun s => Some (JStr s))
      (map (fun i => generate_event_timestamp (clock i)) (seq 0 (nrows df))).

Definition prepared (raw : nat -> Z) (clock : nat -> string) (df : DataFrame)
  : DataFrame :=
  mkFrame (kept_columns df ++ ["event_time"])%list
          (map (fun x => final_row df (fst (fst x)) (snd (fst x)) (snd x))
               (combine (combine (rows df) (kids raw df)) (stamps clock df))).

(** A sample of the customers file, of the generator and of the clock. *)
Definition sample_customers : DataFrame :=
  mkFrame ["customer_id"; "is_married"; "event_time"]
          [ [Some (JStr "C1"); Some (JNum 1); Some (JStr "2020-02-01T08:30:00.000Z")];
            [Some (JStr "C2"); Some (JNum 0); Some (JStr "2020-02-01T08:30:01.000Z")];
            [Some (JStr "C3"); None; Some (JStr "2020-02-01T08:30:02.000Z")] ].

Definition sample_raw (n : nat) : Z := (7 * Z.of_nat n + 3)%Z.

Definition sample_clock (n : nat) : string := "2023-05-04T12:00:00.123+00:00".

(** The [FeatureAdditions] of the [update_feature_group] call. *)
Definition feature_additions : list (string * string) :=
  [("has_kids", "Integral")].

End UpdateFeatureGroup.

(** * Iceberg notebook: creating the orders feature group *)

Module Iceberg.

Inductive TableFormatEnum : Type := GLUE | ICEBERG.

(** The keyword arguments of [FeatureGroup.create]. *)
Record create_args : Type := mkCreate {
  s3_uri : string;
  record_identifier_name : string;
  event_time_feature_name : string;
  role_arn : string;
  enable_online_store : bool;
  table_format : option TableFormatEnum
}.

Definition prefix : string := "sagemaker-feature-store".
Definition record_identifier_order_feature_name : string := "order_id".

(** [orders_feature_group_iceberg.create(...)] *)
Definition orders_create_call (s3_bucket_name role : string) : create_args :=
  mkCreate ("s3://" ++ s3_bucket_name ++ "/" ++ prefix)
           record_identifier_order_feature_name
           "event_time"
           role
           true
           (Some ICEBERG).

(** The store configuration of the CreateFeatureGroup request that the SDK
    derives from the arguments: an online store block when the flag is set,
    an offline store block when an S3 URI is given; the table format is a
    field of the offline block. *)
Record offline_store_config : Type := mkOffline {
  S3Uri : string;
  TableFormat : option TableFormatEnum
}.

Record store_config : Type := mkStores {
  OnlineStoreConfig : option bool;            (* EnableOnlineStore *)
  OfflineStoreConfig : option offline_store_config
}.

Definition stores_of (a : create_args) : store_config :=
  mkStores
    (if enable_online_store a then Some true else None)
    (if String.eqb (s3_uri a) "" then None
     else Some (mkOffline (s3_uri a) (table_format a))).

End Iceberg.

(** * Batch-scoring notebook: generate_fsets *)

Module FeatureSets.
Import Pandas.

Record FeatureDefinition : Type := mkFeature {
  FeatureName : string;
  FeatureType : string
}.

(** The part of a DescribeFeatureGroup response that the function reads. *)
Record FeatureGroupDescription : Type := mkGroup {
  FeatureGroupName : string;
  FeatureDefinitions : list FeatureDefinition
}.

(** A feature definition as the dict of the response. *)
Definition definition_dict (fd : FeatureDefinition) : dict :=
  [("FeatureName", JStr (FeatureName fd)); ("FeatureType", JStr (FeatureType fd))].

(** The same, as a row of a frame. *)
Definition definition_record (fd : FeatureDefinition) : list (string * cell) :=
  [("FeatureName", Some (JStr (FeatureName fd)));
   ("FeatureType", Some (JStr (FeatureType fd)))].

(** [if exclude_fsets:] holds for a non-empty list only. *)
Definition truthy (exclude_fsets : option (list string)) : bool :=
  match exclude_fsets with
  | Some (_ :: _) => true
  | _ => false
  end.

Definition excluded (exclude_fsets : option (list string)) (fd : FeatureDefinition)
  : bool :=
  match exclude_fsets with
  | Some l => Py.mem (FeatureName fd) l
  | None => false
  end.

Definition kept (exclude_fsets : option (list string)) (fd : FeatureDefinition)
  : bool :=
  negb (excluded exclude_fsets fd).

Section Function.

(** [Utils.describe_feature_group], by feature group name. *)
Variable describe_feature_group : string -> FeatureGroupDescription.

(** The frame built for one group by the body of the loop. *)
Definition group_frame (exclude_fsets : option (list string))
    (_fg : FeatureGroupDescription) : exn + DataFrame :=
  let _fg_tmp :=
    from_records
      (map definition_dict
           (FeatureDefinitions (describe_feature_group (FeatureGroupName _fg)))) in
  match exclude_fsets with
  | Some (x :: l) =>
      names <- getattr "FeatureName" _fg_tmp ;;
      inr (filter_rows (map (fun c => negb (isin (x :: l) c)) names) _fg_tmp)
  | _ => inr _fg_tmp
  end.

Definition generate_fsets (fg_list : list FeatureGroupDescription)
    (exclude_fsets : option (list string)) : exn + DataFrame :=
  _fg_lst <- for_each (group_frame exclude_fsets) fg_list ;;
  concat _fg_lst.

(** The definitions of one group, as the service describes it by name. *)
Definition definitions_of (fg : FeatureGroupDescription) : list FeatureDefinition :=
  FeatureDefinitions (describe_feature_group (FeatureGroupName fg)).

(** The definitions of the groups, in the order the groups are given. *)
Definition all_definitions (fg_list : list FeatureGroupDescription)
  : list FeatureDefinition :=
  flat_map definitions_of fg_list.

End Function.

(** The same, as the cells of a frame row. *)
Definition definition_row (fd : FeatureDefinition) : list cell :=
  [Some (JStr (FeatureName fd)); Some (JStr (FeatureType fd))].

Definition definition_columns : list string := ["FeatureName"; "FeatureType"].

(** A frame that holds the definitions [l]: the frame without columns when
    it was built from no definition at all, the two-column frame of their
    rows otherwise. *)
Definition holds (df : DataFrame) (l : list FeatureDefinition) : Prop :=
  (df = empty_frame /\ l = []) \/
  df = mkFrame definition_columns (map definition_row l).

(** A sample service with three feature groups, and one without features. *)
Definition sample_describe (name : string) : FeatureGroupDescription :=
  mkGroup name
    (if String.eqb name "orders" then
       [mkFeature "order_id" "String"; mkFeature "is_reordered" "Integral";
        mkFeature "event_time" "String"]
     else if String.eqb name "customers" then
       [mkFeature "customer_id" "String"; mkFeature "age_18-29" "Integral"]
     else if String.eqb name "products" then
       [mkFeature "product_id" "String"; mkFeature "category_baby" "Integral"]
     else []).

End FeatureSets.

(** * Decimal numerals *)

Module Decimal.

(** Every character is a decimal digit. *)
Fixpoint all_digits (s : string) : bool :=
  match s with
  | EmptyString => true
  | String c s' => Py.is_digit c && all_digits s'
  end.

(** The number a digit string denotes, continuing from [acc]. *)
Fixpoint value_from (acc : Z) (s : string) : Z :=
  match s with
  | EmptyString => acc
  | String c s' => value_from (10 * acc + Py.digit_value c) s'
  end.

Definition value (s : string) : Z := value_from 0 s.


(** The digit character of a number below ten. *)
Definition digit_char (n : nat) : ascii := ascii_of_nat (48 + n).

(** [%02d] for a number below one hundred. *)
Definition two_digits (n : nat) : string :=
  String (digit_char (n / 10)) (String (digit_char (n mod 10)) EmptyString).

End Decimal.

(** * What a run of the polling function costs *)

Module PollingCost.
Import Polling.

(** Number of describe() calls among some events. *)
Fixpoint describes (events : list event) : nat :=
  match events with
  | [] => 0
  | Describe :: rest => S (describes rest)
  | _ :: rest => describes rest
  end.

(** Seconds slept among some events. *)
Fixpoint slept (events : list event) : Z :=
  match events with
  | [] => 0
  | Sleep seconds :: rest => (seconds + slept rest)%Z
  | _ :: rest => slept rest
  end.

End PollingCost.

(** * Iceberg notebook: the name of the feature group *)

Module GroupName.

(** The fields of [gmtime()] that matter to a name. *)
Record struct_time : Type := mkTime {
  tm_year : nat;
  tm_mon : nat;
  tm_mday : nat;
  tm_hour : nat;
  tm_min : nat;
  tm_sec : nat
}.

(** [strftime("%d-%H-%M-%S", t)] *)
Definition strftime_d_H_M_S (t : struct_time) : string :=
  Decimal.two_digits (tm_mday t) ++ "-" ++ Decimal.two_digits (tm_hour t) ++ "-" ++
  Decimal.two_digits (tm_min t) ++ "-" ++ Decimal.two_digits (tm_sec t).

(** ["orders-feature-group-iceberg-" + strftime("%d-%H-%M-%S", gmtime())] *)
Definition orders_feature_group_iceberg_name (now : struct_time) : string :=
  "orders-feature-group-iceberg-" ++ strftime_d_H_M_S now.

(** A time [gmtime()] can return. *)
Definition valid_time (t : struct_time) : Prop :=
  1 <= tm_mon t <= 12 /\ 1 <= tm_mday t <= 31 /\ tm_hour t <= 23 /\
  tm_min t <= 59 /\ tm_sec t <= 61.

(** A character allowed in a feature group name: a letter, a digit or a
    hyphen. *)
Definition name_char (c : ascii) : bool :=
  let n := nat_of_ascii c in
  ((48 <=? n)%nat && (n <=? 57)%nat) || ((65 <=? n)%nat && (n <=? 90)%nat) ||
  ((97 <=? n)%nat && (n <=? 122)%nat) || (n =? 45)%nat.

Fixpoint all_name_chars (s : string) : bool :=
  match s with
  | EmptyString => true
  | String c s' => name_char c && all_name_chars s'
  end.

End GroupName.

(** * Update-feature-group notebook: the frame for retraining *)

Module Retrain.
Import Pandas.
#[local] Open Scope list_scope.

(** The labels of [joined_df.drop([...], axis=1)]. *)
Definition dropped_columns : list string :=
  [ "order_id"; "customer_id"; "product_id"; "event_time"; "write_time";
    "api_invocation_time"; "is_deleted"; "product_id.1"; "event_time.1";
    "write_time.1"; "api_invocation_time.1"; "is_deleted.1"; "customer_id.1";
    "purchase_amount"; "event_time.2"; "n_days_since_last_purchase";
    "write_time.2"; "api_invocation_time.2"; "is_deleted.2" ]%string.

(** Positions of a label among the columns, counted from [i]. *)
Fixpoint positions_from (i : nat) (label : string) (cols : list string) : list nat :=
  match cols with
  | [] => []
  | c :: cols' =>
      if String.eqb label c then i :: positions_from (S i) label cols'
      else positions_from (S i) label cols'
  end.

(** [df[label]]: the columns that carry the label, left to right, each one
    top to bottom (a Series when there is one, a frame when several). *)
Definition columns_named (label : string) (df : DataFrame) : list (list cell) :=
  map (fun i => map (fun row => nth i row None) (rows df))
      (positions_from 0 label (columns df)).

(** [df.pop(label)]: the columns under the label, and the frame without
    them; KeyError when there is none. *)
Definition pop (label : string) (df : DataFrame)
  : exn + (list (list cell) * DataFrame) :=
  match columns_named label df with
  | [] => inl (KeyError label)
  | result =>
      let keep := map (fun c => negb (String.eqb c label)) (columns df) in
      inr (result,
           mkFrame (select_by keep (columns df)) (map (select_by keep) (rows df)))
  end.

(** [df.insert(loc, column, value)]: the label must be new, the value one
    column as long as the index (a frame without rows takes its index from
    the value), and [loc] at most the number of columns. *)
Definition insert (loc : nat) (column : string) (value : list (list cell))
    (df : DataFrame) : exn + DataFrame :=
  if Py.mem column (columns df)
  then inl (ValueError ("cannot insert " ++ column ++ ", already exists"))
  else
    match value with
    | [v] =>
        let base :=
          if (nrows df =? 0)%nat
          then map (fun _ => map (fun _ => @None json) (columns df)) v
          else rows df in
        if negb (List.length v =? List.length base)%nat
        then inl (ValueError "Length of values does not match length of index")
        else if (List.length (columns df) <? loc)%nat
        then inl IndexError
        else inr (mkFrame
                    (firstn loc (columns df) ++ [column] ++ skipn loc (columns df))
                    (map (fun rv => firstn loc (fst rv) ++ [snd rv] ++ skipn loc (fst rv))
                         (combine base v)))
    | _ => inl (ValueError "Expected a one-dimensional object")
    end.

(** From [model_df = joined_df.drop(...)] to
    [model_df.insert(0, 'is_reordered', first_column)]. *)
Definition model_df_of (joined_df : DataFrame) : exn + DataFrame :=
  model_df <- drop dropped_columns joined_df ;;
  popped <- pop "is_reordered" model_df ;;
  insert 0 "is_reordered" (fst popped) (snd popped).

(** A column that stays as a feature: not dropped, and not the target. *)
Definition feature_column (c : string) : bool :=
  negb (Py.mem c dropped_columns) && negb (String.eqb c "is_reordered").

(** A row of the joined frame after the cells have run: the target cell,
    then the feature cells in their old order. *)
Definition model_row (cols : list string) (row : list cell) : list cell :=
  cell_at cols row "is_reordered" :: select_by (map feature_column cols) row.

(** [X = record.values[0]; payload = X[1:]] *)
Definition payload (record : DataFrame) : exn + list cell :=
  X <- Py.index (rows record) 0 ;;
  inr (skipn 1 X).

(** A sample of the joined frame: the nineteen columns to drop, the target
    and two features. *)
Definition sample_joined : DataFrame :=
  mkFrame (dropped_columns ++ ["age_18-29"; "is_reordered"; "has_kids"]%string)
          [ map (fun _ => Some (JNum 0)) dropped_columns
              ++ [Some (JNum 1); Some (JNum 0); Some (JNum 1)];
            map (fun _ => Some (JNum 0)) dropped_columns
              ++ [Some (JNum 0); Some (JNum 1); None] ].

End Retrain.

(** * Batch-scoring notebook: from the feature groups to the query *)

Module Pipeline.
Import Pandas FeatureSets.

(** The keys of a DescribeFeatureGroup response that the cells read. *)
Record feature_group : Type := mkFeatureGroup {
  description : FeatureGroupDescription;
  RecordIdentifierFeatureName : string;
  EventTimeFeatureName : string;
  TableName : string      (* OfflineStoreConfig.DataCatalogConfig.TableName *)
}.

Section Notebook.

Variable describe_feature_group : string -> FeatureGroupDescription.

(** The text an f-string puts for a list element, [str(c)]. *)
Variable str : cell -> string.

(** [fsets_df = generate_fsets([orders_fg, customers_fg, products_fg],
                               exclude_fsets)]
    [features_names = fsets_df.FeatureName.tolist()] *)
Definition features_names (customers_fg products_fg orders_fg : feature_group)
    (exclude_fsets : option (list string)) : exn + list cell :=
  fsets_df <-
    generate_fsets describe_feature_group
      [description orders_fg; description customers_fg; description products_fg]
      exclude_fsets ;;
  getattr "FeatureName" fsets_df.

(** The cells from [fsets_df = ...] to [query_string = ...]. *)
Definition notebook_query (customers_fg products_fg orders_fg : feature_group)
    (exclude_fsets : option (list string)) : exn + string :=
  names <- features_names customers_fg products_fg orders_fg exclude_fsets ;;
  inr (Athena.query_string
         (RecordIdentifierFeatureName customers_fg)
         (RecordIdentifierFeatureName products_fg)
         (RecordIdentifierFeatureName orders_fg)
         (EventTimeFeatureName customers_fg)
         (EventTimeFeatureName products_fg)
         (EventTimeFeatureName orders_fg)
         (TableName customers_fg) (TableName products_fg) (TableName orders_fg)
         (map str names)).

End Notebook.

(** The frame the loop of [generate_fsets] builds for a group with the
    given definitions: without columns when there is no definition, the
    rows of the definitions that are kept otherwise. *)
Definition frame_of_definitions (exclude_fsets : option (list string))
    (definitions : list FeatureDefinition) : DataFrame :=
  match definitions with
  | [] => empty_frame
  | _ => mkFrame definition_columns
                 (map definition_row (filter (kept exclude_fsets) definitions))
  end.

(** [str] of a cell that holds a string is the string; the text of
    other cells does not matter here. *)
Definition sample_str (c : cell) : string :=
  match c with Some (JStr s) => s | _ => "nan" end.

Definition sample_group (name uid table : string) : feature_group :=
  mkFeatureGroup (sample_describe name) uid "event_time" table.

End Pipeline.

(** * Batch-scoring notebook: list_s3_files *)

Module S3Listing.

(** The two attributes of [urlparse(s3uri)] that the function reads. *)
Record parse_result : Type := mkParsed { netloc : string; path : string }.

(** [dict(bucket_name=..., key=...)] *)
Record s3_file : Type := mkFile { bucket_name : string; key : string }.

(** [s[1:]] *)
Definition from_second (s : string) : string :=
  match s with
  | EmptyString => EmptyString
  | String _ s' => s'
  end.

Section Listing.

(** [urllib.parse.urlparse]. *)
Variable urlparse : string -> parse_result.

(** The keys of the objects of a bucket, in listing order. *)
Variable bucket_keys : string -> list string.

(** [bucket.objects.filter(Prefix=prefix)]: the objects whose key starts
    with the prefix; each one knows the name of its bucket. *)
Definition objects_filter (bucket Prefix : string) : list s3_file :=
  map (mkFile bucket) (filter (String.prefix Prefix) (bucket_keys bucket)).

Definition list_s3_files (s3uri : string) : list s3_file :=
  let parsed_url := urlparse s3uri in
  let bucket := netloc parsed_url in
  let prefix := from_second (path parsed_url) in
  map (fun k => mkFile (bucket_name k) (key k)) (objects_filter bucket prefix).

(** [output_file_list[0]], the file the next cell opens. *)
Definition first_output_file (s3uri : string) : exn + s3_file :=
  Py.index (list_s3_files s3uri) 0.

End Listing.

(** A parser for the plain case [s3://bucket/key...], and a sample
    bucket. *)
Definition sample_urlparse (s3uri : string) : parse_result :=
  match Py.split "/" s3uri with
  | _ :: _ :: bucket :: rest =>
      mkParsed bucket (match rest with
                       | [] => EmptyString
                       | _ => "/" ++ Py.join "/" rest
                       end)
  | _ => mkParsed EmptyString s3uri
  end.

Definition sample_bucket_keys (bucket : string) : list string :=
  if String.eqb bucket "workshop"
  then ["batch-1/dataset-a.csv.out"; "batch-10/dataset-b.csv.out"; "train/train.csv"]
  else [].

End S3Listing.

(** * Iceberg notebook: the string columns of the orders frame *)

Module OrderData.
Import Pandas.

(** The four columns converted with [astype('string')]. *)
Definition string_columns : list string :=
  ["order_id"; "event_time"; "customer_id"; "product_id"].

Section Convert.

(** What [astype('string')] makes of one cell. *)
Variable as_string : cell -> cell.

(** [df[label]] for a label that occurs once. *)
Definition getitem (label : string) (df : DataFrame) : exn + list cell :=
  match column_values label df with
  | Some vs => inr vs
  | None => inl (KeyError label)
  end.

(** [df[label] = df[label].astype('string')], on a frame with distinct
    labels. *)
Definition convert_column (label : string) (df : DataFrame) : exn + DataFrame :=
  vs <- getitem label df ;;
  setitem label (map as_string vs) df.

(** The cell with the four conversions. *)
Definition convert_order_data (order_data : DataFrame) : exn + DataFrame :=
  order_data <- convert_column "order_id" order_data ;;
  order_data <- convert_column "event_time" order_data ;;
  order_data <- convert_column "customer_id" order_data ;;
  convert_column "product_id" order_data.

(** The same conversions, for any list of labels, one after the other. *)
Fixpoint convert_columns (labels : list string) (df : DataFrame) : exn + DataFrame :=
  match labels with
  | [] => inr df
  | label :: rest => df' <- convert_column label df ;; convert_columns rest df'
  end.

(** A row after the conversion of one column, and of several. *)
Definition converted_row (cols : list string) (label : string) (row : list cell)
  : list cell :=
  store cols label (as_string (cell_at cols row label)) row.

Definition converted_rows (cols : list string) (labels : list string)
    (row : list cell) : list cell :=
  fold_left (fun r label => converted_row cols label r) labels row.

End Convert.

(** A conversion that turns numbers into text and leaves the rest, and a
    sample of the orders file. *)
Definition sample_as_string (c : cell) : cell :=
  match c with
  | Some (JNum z) => Some (JStr (if (z =? 1)%Z then "1" else "0"))
  | other => other
  end.

Definition sample_orders : DataFrame :=
  mkFrame ["order_id"; "customer_id"; "product_id"; "purchase_amount"; "event_time"]
          [ [Some (JStr "O1"); Some (JStr "C1"); Some (JStr "P1"); Some (JNum 1);
             Some (JStr "2020-02-01T08:30:00.000Z")];
            [Some (JStr "O2"); Some (JStr "C2"); Some (JStr "P7"); Some (JNum 0);
             Some (JStr "2020-02-01T08:31:00.000Z")] ].

End OrderData.

(** * Feature-metadata notebook: the table of a search *)

Module SearchTable.
Import Pandas.

(** The metadata dict of a result of the API's shape. *)
Definition metadata_of (r : dict) : dict :=
  match r with
  | [(_, JDict meta)] => meta
  | _ => []
  end.

End SearchTable.

(** * The customers cells on a frame that already has a has_kids column *)

Module UpdateAgain.
Import Pandas UpdateFeatureGroup.
#[local] Open Scope list_scope.

(** A row after the three cells have run on such a frame: the has_kids cell
    is stored where the column stands, the event_time cell is taken out and
    the new one put at the end. *)
Definition overwritten_row (cols : list string) (row : list cell) (k t : cell)
  : list cell :=
  select_by (map keep cols) (store cols "has_kids" k row) ++ [t].

(** The frame the cells leave. *)
Definition overwritten (raw : nat -> Z) (clock : nat -> string) (df : DataFrame)
  : DataFrame :=
  mkFrame (filter keep (columns df) ++ ["event_time"%string])
          (map (fun x => overwritten_row (columns df) (fst (fst x)) (snd (fst x)) (snd x))
               (combine (combine (rows df) (kids raw df)) (stamps clock df))).

(** A customers frame written by an earlier run of the notebook. *)
Definition sample_ingested : DataFrame :=
  mkFrame ["has_kids"; "event_time"; "customer_id"]%string
          [ [Some (JNum 5); Some (JStr "old"); Some (JStr "C1")] ].

End UpdateAgain.

(** * Facts about the polling loop *)

Module PollingFacts.
Import Polling.
#[local] Open Scope list_scope.

Section Loop.

Variable describe_status : nat -> status.
Variable name : string.

Lemma loop_body_run (c : nat) (tr : list event) :
  loop_body describe_status name (mkWorld c tr) =
  (describe_status c, mkWorld (S c) (tr ++ passes name 1)).
Proof.
  unfold loop_body, bind, emit, describe; simpl.
  rewrite <- !app_assoc. reflexivity.
Qed.

(** Starting after call [c], with [k] more answers to go before the first
    one that is not 'Creating', the loop makes exactly [k] passes. *)
Lemma while_creating_run (k : nat) :
  forall fuel c tr,
    (forall i, i < k -> creating describe_status (c + i) = true) ->
    creating describe_status (c + k) = false ->
    k <= fuel ->
    while_creating describe_status name fuel (describe_status c) (mkWorld (S c) tr) =
    Some (describe_status (c + k), mkWorld (S (c + k)) (tr ++ passes name k)).
Proof.
  induction k as [|k IH]; intros fuel c tr Hlt Hk Hfuel.
  - rewrite Nat.add_0_r in *. unfold creating in Hk.
    destruct fuel; simpl; rewrite Hk, app_nil_r; reflexivity.
  - destruct fuel as [|fuel]; [lia|].
    assert (H0 : creating describe_status c = true)
      by (specialize (Hlt 0); rewrite Nat.add_0_r in Hlt; apply Hlt; lia).
    unfold creating in H0. cbn [while_creating]. rewrite H0.
    rewrite loop_body_run.
    rewrite (IH fuel (S c) (tr ++ passes name 1)).
    + replace (S c + k) with (c + S k) by lia.
      rewrite <- app_assoc. reflexivity.
    + intros i Hi. replace (S c + i) with (c + S i) by lia. apply Hlt. lia.
    + replace (S c + k) with (c + S k) by lia. exact Hk.
    + lia.
Qed.

(** As long as the answers are 'Creating', fuel is all that stops it. *)
Lemma while_creating_starved (fuel : nat) :
  forall c tr,
    (forall i, i <= fuel -> creating describe_status (c + i) = true) ->
    while_creating describe_status name fuel (describe_status c) (mkWorld (S c) tr) = None.
Proof.
  induction fuel as [|fuel IH]; intros c tr Hall.
  - assert (H0 : creating describe_status c = true)
      by (specialize (Hall 0); rewrite Nat.add_0_r in Hall; apply Hall; lia).
    unfold creating in H0. simpl. rewrite H0. reflexivity.
  - assert (H0 : creating describe_status c = true)
      by (specialize (Hall 0); rewrite Nat.add_0_r in Hall; apply Hall; lia).
    unfold creating in H0. cbn [while_creating]. rewrite H0.
    rewrite loop_body_run. apply IH.
    intros i Hi. replace (S c + i) with (c + S i) by lia. apply Hall. lia.
Qed.

(** Among the first [n + 1] answers either all are 'Creating' or there is
    a first one that is not. *)
Lemma settles_or_not (n : nat) :
  (exists k, k <= n /\ first_settled describe_status k) \/
  (forall i, i <= n -> creating describe_status i = true).
Proof.
  induction n as [|n [[k [Hk Hf]]|Hall]].
  - destruct (creating describe_status 0) eqn:E.
    + right. intros i Hi. replace i with 0 by lia. exact E.
    + left. exists 0. split; [lia|]. split; [exact E|]. intros i Hi. lia.
  - left. exists k. split; [lia | exact Hf].
  - destruct (creating describe_status (S n)) eqn:E.
    + right. intros i Hi.
      destruct (Nat.eq_dec i (S n)) as [->|Hne]; [exact E | apply Hall; lia].
    + left. exists (S n). split; [lia|]. split; [exact E|].
      intros i Hi. apply Hall. lia.
Qed.

Lemma wait_unfold (fuel : nat) :
  wait_for_feature_group_creation_complete describe_status name fuel init =
  match while_creating describe_status name fuel (describe_status 0)
          (mkWorld 1 [Describe;
                      Print ("Initial status: " ++ fmt_status (describe_status 0))%string])
  with
  | None => None
  | Some (st', w3) => Some (finish name st' w3)
  end.
Proof. reflexivity. Qed.

(** With enough fuel the function reaches the part after the loop with the
    first status that is not 'Creating'. *)
Lemma wait_settles (k fuel : nat) :
  first_settled describe_status k ->
  k <= fuel ->
  wait_for_feature_group_creation_complete describe_status name fuel init =
  Some (finish name (describe_status k)
          (mkWorld (S k)
             ([Describe;
               Print ("Initial status: " ++ fmt_status (describe_status 0))%string]
              ++ passes name k))).
Proof.
  intros [Hk Hbefore] Hfuel. rewrite wait_unfold.
  rewrite (while_creating_run k fuel 0); auto.
Qed.

Lemma wait_starved (fuel : nat) :
  (forall i, i <= fuel -> creating describe_status i = true) ->
  wait_for_feature_group_creation_complete describe_status name fuel init = None.
Proof.
  intros Hall. rewrite wait_unfold, while_creating_starved; [reflexivity|].
  intros i Hi. apply Hall. exact Hi.
Qed.

End Loop.

(** C1.  Whatever the service answers, if call number [k] is the first whose
    status is not 'Creating', the function makes exactly [k] passes through
    the loop (log, sleep 5 seconds, describe), so [k + 1] describe() calls in
    all; with less fuel than [k] it is still polling.  It then returns
    normally when that status is 'Created' and raises SystemExit otherwise.
    The world it leaves is the one it started from plus exactly these
    events: the first describe, the print of the initial status, the [k]
    passes, and the closing log line on success. *)
Theorem wait_for_creation_polls_while_creating :
  forall (describe_status : nat -> status) (name : string) (k : nat),
    first_settled describe_status k ->
    (forall fuel, fuel < k ->
       wait_for_feature_group_creation_complete describe_status name fuel init = None) /\
    (forall fuel, k <= fuel ->
       wait_for_feature_group_creation_complete describe_status name fuel init =
       Some
         (if status_is (describe_status k) "Created"
          then (inr tt,
                mkWorld (S k)
                  ([Describe;
                    Print ("Initial status: " ++ fmt_status (describe_status 0))%string]
                   ++ passes name k
                   ++ [LogInfo ("FeatureGroup " ++ name
                                ++ " was successfully created.")%string]))
          else (inl (SystemExit ("Failed to create feature group " ++ name ++ ": "
                                 ++ fmt_status (describe_status k))%string),
                mkWorld (S k)
                  ([Describe;
                    Print ("Initial status: " ++ fmt_status (describe_status 0))%string]
                   ++ passes name k)))).
Proof.
  intros ds name k Hs. split; intros fuel Hfuel.
  - apply wait_starved. intros i Hi. apply (proj2 Hs). lia.
  - rewrite (wait_settles ds name k fuel Hs Hfuel).
    unfold finish. destruct (status_is (ds k) "Created"); reflexivity.
Qed.

(** The theorem at a service that answers 'Creating' twice and then
    'Created'. *)
Lemma wait_for_creation_polls_while_creating_witness :
  first_settled created_at_third_call 2 /\
  wait_for_feature_group_creation_complete created_at_third_call "orders" 5 init =
  Some (inr tt,
        mkWorld 3
          ([Describe; Print "Initial status: Creating"] ++ passes "orders" 2
           ++ [LogInfo "FeatureGroup orders was successfully created."])).
Proof.
  assert (Hs : first_settled created_at_third_call 2).
  { split; [reflexivity|]. intros i Hi.
    destruct i as [|[|i]]; [reflexivity | reflexivity | lia]. }
  split; [exact Hs|].
  apply (proj2 (wait_for_creation_polls_while_creating
                  created_at_third_call "orders" 2 Hs) 5).
  lia.
Defined.

(** C2.  The function terminates (some amount of fuel lets it finish)
    exactly when some describe() answer differs from 'Creating'; and when
    every answer is 'Creating' no amount of fuel is enough: nothing bounds
    the number of retries. *)
Theorem wait_for_creation_terminates_iff :
  forall (describe_status : nat -> status) (name : string),
    ((exists fuel r,
        wait_for_feature_group_creation_complete describe_status name fuel init = Some r)
     <-> (exists n, status_is (describe_status n) "Creating" = false)) /\
    ((forall n, status_is (describe_status n) "Creating" = true) ->
     forall fuel,
       wait_for_feature_group_creation_complete describe_status name fuel init = None).
Proof.
  intros ds name. split; [split|].
  - intros [fuel [r Hr]].
    destruct (settles_or_not ds fuel) as [[k [_ [Hk _]]]|Hall].
    + exists k. exact Hk.
    + rewrite (wait_starved ds name fuel Hall) in Hr. discriminate.
  - intros [n Hn].
    destruct (settles_or_not ds n) as [[k [_ Hf]]|Hall].
    + exists k. eexists. apply (wait_settles ds name k k Hf). lia.
    + unfold creating in Hall. rewrite Hall in Hn; [discriminate | lia].
  - intros Hall fuel. apply wait_starved. intros i _. apply Hall.
Qed.

(** The theorem at the service that answers 'Creating' for ever. *)
Lemma wait_for_creation_terminates_iff_witness :
  (forall n, status_is (always_creating n) "Creating" = true) /\
  wait_for_feature_group_creation_complete always_creating "orders" 1000 init = None.
Proof.
  assert (H : forall n, status_is (always_creating n) "Creating" = true)
    by (intro n; reflexivity).
  split; [exact H|].
  apply (proj2 (wait_for_creation_terminates_iff always_creating "orders") H).
Defined.

End PollingFacts.

(** * Facts about the version gates *)

Module VersionFacts.
Import Versions.

(** Text comparison decides on the first character that differs: every
    version that starts with "2.1" is below "2.48.1". *)
Lemma sagemaker_gate_two_one (rest : string) :
  sagemaker_gate ("2.1" ++ rest) = PipInstall "sagemaker==2.48.1".
Proof. reflexivity. Qed.

(** C9.  The gates take some newer versions for too old.  The text
    comparison [sagemaker.__version__ < '2.48.1'] holds for 2.125.0, which
    is numerically newer than 2.48.1, so sagemaker==2.48.1 is installed over
    it.  The Iceberg notebook's test [int(major) < 2 or int(minor) < 125]
    installs sagemaker==2.125.0 for every three-part version whose minor
    component is below 125, whatever the major component, for instance for
    3.0.0, which is newer than 2.125.0. *)
Theorem version_gates_misclassify_newer_versions :
  (newer "2.125.0" "2.48.1" /\
   sagemaker_gate "2.125.0" = PipInstall "sagemaker==2.48.1") /\
  (forall sm_version major minor patch (ma mi : Z),
     Py.split "." sm_version = [major; minor; patch] ->
     Py.int major = inr ma ->
     Py.int minor = inr mi ->
     (mi < 125)%Z ->
     iceberg_gate sm_version = inr (PipInstall "sagemaker==2.125.0")) /\
  (newer "3.0.0" "2.125.0" /\
   iceberg_gate "3.0.0" = inr (PipInstall "sagemaker==2.125.0")).
Proof.
  repeat split; try reflexivity.
  intros v major minor patch ma mi Hsplit Hma Hmi Hlt.
  unfold iceberg_gate. rewrite Hsplit, Hma, Hmi.
  destruct (ma <? 2)%Z; [reflexivity|].
  apply Z.ltb_lt in Hlt. rewrite Hlt. reflexivity.
Qed.

(** The Iceberg gate at version 4.17.2. *)
Lemma version_gates_misclassify_newer_versions_witness :
  Py.split "." "4.17.2" = ["4"; "17"; "2"] /\
  Py.int "4" = inr 4%Z /\ Py.int "17" = inr 17%Z /\ (17 < 125)%Z /\
  iceberg_gate "4.17.2" = inr (PipInstall "sagemaker==2.125.0").
Proof.
  do 4 (split; [reflexivity|]).
  apply (proj1 (proj2 version_gates_misclassify_newer_versions)
           "4.17.2" "4" "17" "2" 4%Z 17%Z); reflexivity.
Defined.

End VersionFacts.

(** * Facts about strings *)

Module StringFacts.

Lemma append_assoc (a b c : string) : (a ++ b) ++ c = a ++ (b ++ c).
Proof. induction a as [|x a IH]; simpl; [reflexivity | rewrite IH; reflexivity]. Qed.

Lemma append_empty_r (a : string) : a ++ "" = a.
Proof. induction a as [|x a IH]; simpl; [reflexivity | rewrite IH; reflexivity]. Qed.

Lemma prefix_refl (s : string) : String.prefix s s = true.
Proof.
  induction s as [|c s IH]; [reflexivity|]. simpl.
  destruct (ascii_dec c c) as [_|Hne]; [exact IH | contradiction].
Qed.

(** Skipping as many characters as are left leaves nothing. *)
Lemma replace_from_skip_all (old new s : string) :
  Py.replace_from old new (String.length s) s = "".
Proof. induction s as [|c s IH]; [reflexivity | exact IH]. Qed.

(** [(body + old).replace(old, new)] is [body + new] when the first
    character of [old] does not occur in [body]. *)
Lemma replace_suffix (c : ascii) (old' new body : string) :
  ~ In c (list_ascii_of_string body) ->
  Py.replace (String c old') new (body ++ String c old') = body ++ new.
Proof.
  unfold Py.replace. induction body as [|a body IH]; intros Hnot.
  - cbn [append Py.replace_from]. rewrite prefix_refl.
    cbn [String.length Nat.sub]. rewrite Nat.sub_0_r, replace_from_skip_all.
    apply append_empty_r.
  - cbn [append Py.replace_from].
    assert (Hp : String.prefix (String c old') (String a (body ++ String c old')) = false).
    { cbn [String.prefix]. destruct (ascii_dec c a) as [E|E]; [|reflexivity].
      exfalso. apply Hnot. left. symmetry. exact E. }
    rewrite Hp. f_equal. apply IH. intros H. apply Hnot. right. exact H.
Qed.

End StringFacts.

(** * Facts about the Athena query text *)

Module AthenaFacts.
Import Athena StringFacts.

Lemma fstring_quoted (c : string) : fstring [dq; c; dq] = quoted c.
Proof. reflexivity. Qed.

Lemma columns_string_quoted (features_names : list string) :
  batch_transform_columns_string features_names =
  Py.join ("," ++ nl ++ "    ") (map quoted features_names).
Proof. reflexivity. Qed.

(** Brings both texts to the same shape: appends nested to the right, with
    the literal pieces spelled out. *)
Ltac flatten_text :=
  repeat rewrite append_assoc; repeat rewrite append_empty_r; cbn [append].

Lemma query_string_render_cons
    (customer_uid product_uid order_uid customer_et product_et order_et
     customers_table products_table orders_table f : string) (rest : list string) :
  query_string customer_uid product_uid order_uid customer_et product_et order_et
               customers_table products_table orders_table (f :: rest) =
  render (batch_query customer_uid product_uid order_uid
                      customer_et product_et order_et
                      customers_table products_table orders_table (f :: rest)).
Proof.
  unfold query_string. rewrite columns_string_quoted.
  unfold render, batch_query, latest_rows.
  cbn [views select_distinct from_views conditions map Py.join].
  generalize (Py.join ("," ++ nl ++ "    ") (map quoted (f :: rest))). intro cols.
  unfold render_view, render_condition, render_nat, quoted, fstring, dq, nl.
  cbn [view_name source_table excluded_flag partition_by order_by_desc
       map Py.join fold_right].
  flatten_text. reflexivity.
Qed.

(** C3, as amended.  For every choice of table names, record identifiers and
    event-time names, and every feature-name list that is not empty, the
    text built by the notebook is the text of the query that keeps, of each
    of the three tables, the rows that are not deleted and rank first by
    event time, API invocation time and write time (all descending) within
    their record identifier, joins orders to customers and to products on
    the two identifiers, and selects, with DISTINCT, the orders record
    identifier followed by the feature names in the order of the list. *)
Theorem query_string_is_batch_query :
  forall customer_uid product_uid order_uid customer_et product_et order_et
         customers_table products_table orders_table (features_names : list string),
    features_names <> [] ->
    let q := batch_query customer_uid product_uid order_uid
                         customer_et product_et order_et
                         customers_table products_table orders_table features_names in
    query_string customer_uid product_uid order_uid customer_et product_et order_et
                 customers_table products_table orders_table features_names
    = render q /\
    select_distinct q = order_uid :: features_names /\
    views q =
      [ mkView "customer_table" customers_table "is_deleted" customer_uid
               [customer_et; "api_invocation_time"; "write_time"];
        mkView "product_table" products_table "is_deleted" product_uid
               [product_et; "api_invocation_time"; "write_time"];
        mkView "order_table" orders_table "is_deleted" order_uid
               [order_et; "api_invocation_time"; "write_time"] ] /\
    conditions q =
      [ SameValue "order_table" "customer_id" "customer_table" "customer_id";
        SameValue "order_table" "product_id" "product_table" "product_id";
        RankIs "customer_table" 1; RankIs "product_table" 1; RankIs "order_table" 1 ].
Proof.
  intros cu pu ou ce pe oe ct pt ot features Hne q. subst q.
  destruct features as [|f rest]; [contradiction|].
  split; [apply query_string_render_cons|].
  repeat split.
Qed.

(** The theorem at the names the notebook works with. *)
Lemma query_string_is_batch_query_witness :
  ["is_reordered"; "age_18-29"] <> [] /\
  query_string "customer_id" "product_id" "order_id" "event_time" "event_time"
               "event_time" "customers" "products" "orders"
               ["is_reordered"; "age_18-29"]
  = render (batch_query "customer_id" "product_id" "order_id" "event_time"
                        "event_time" "event_time" "customers" "products" "orders"
                        ["is_reordered"; "age_18-29"]).
Proof.
  assert (H : ["is_reordered"; "age_18-29"] <> []) by discriminate.
  split; [exact H|].
  apply (query_string_is_batch_query
           "customer_id" "product_id" "order_id" "event_time" "event_time"
           "event_time" "customers" "products" "orders"
           ["is_reordered"; "age_18-29"] H).
Defined.

(** C3 as stated fails for the empty feature list: the text then has a comma
    after the record identifier with no column behind it (the select list
    runs straight into FROM), which is not the text of the query that
    selects the record identifier alone. *)
Lemma query_string_empty_features :
  query_string "customer_id" "product_id" "order_id" "event_time" "event_time"
               "event_time" "customers" "products" "orders" []
  <> render (batch_query "customer_id" "product_id" "order_id" "event_time"
                         "event_time" "event_time" "customers" "products" "orders"
                         []) /\
  Py.contains (quoted "order_id" ++ "," ++ nl ++ "    " ++ nl ++ "FROM")
              (query_string "customer_id" "product_id" "order_id" "event_time"
                            "event_time" "event_time" "customers" "products"
                            "orders" [])
  = true.
Proof.
  split; [apply String.eqb_neq|]; vm_compute; reflexivity.
Qed.

End AthenaFacts.

(** * Facts about the Python built-ins and the frame operations *)

Module PandasFacts.
Import Pandas.
#[local] Open Scope list_scope.

Lemma mem_In (x : string) (l : list string) : Py.mem x l = true <-> In x l.
Proof.
  unfold Py.mem. rewrite existsb_exists. split.
  - intros [y [Hy Heq]]. apply String.eqb_eq in Heq. subst. exact Hy.
  - intros H. exists x. split; [exact H | apply String.eqb_refl].
Qed.

Lemma mem_not_In (x : string) (l : list string) : Py.mem x l = false <-> ~ In x l.
Proof.
  rewrite <- mem_In. destruct (Py.mem x l); split; intros; congruence.
Qed.

Lemma split_not_nil (sep : ascii) (s : string) : Py.split sep s <> [].
Proof.
  destruct s as [|c s]; simpl; [discriminate|].
  destruct (Ascii.eqb c sep); [discriminate|].
  destruct (Py.split sep s); discriminate.
Qed.

Lemma select_by_map {A} (f : A -> bool) (l : list A) :
  select_by (map f l) l = filter f l.
Proof.
  induction l as [|x l IH]; simpl; [reflexivity|].
  destruct (f x); rewrite IH; reflexivity.
Qed.

Lemma for_each_inr {A B} (f : A -> exn + B) (g : A -> B) (l : list A) :
  (forall a, In a l -> f a = inr (g a)) ->
  for_each f l = inr (map g l).
Proof.
  induction l as [|a l IH]; intros H; simpl; [reflexivity|].
  rewrite (H a (or_introl eq_refl)). simpl.
  rewrite IH; [reflexivity|]. intros b Hb. apply H. right. exact Hb.
Qed.

(** Dropping one label. *)
Lemma drop_one (label : string) (df : DataFrame) :
  drop [label] df =
  if Py.mem label (columns df)
  then inr (mkFrame (filter (fun c => negb (String.eqb c label)) (columns df))
                    (map (select_by (map (fun c => negb (String.eqb c label))
                                         (columns df)))
                         (rows df)))
  else inl (KeyError label).
Proof.
  unfold drop. cbn [filter]. destruct (Py.mem label (columns df)); cbn [negb];
    [|reflexivity].
  assert (E : map (fun c => negb (Py.mem c [label])) (columns df) =
              map (fun c => negb (String.eqb c label)) (columns df)).
  { apply map_ext. intro c. unfold Py.mem. simpl. rewrite orb_false_r. reflexivity. }
  rewrite E, select_by_map. reflexivity.
Qed.

Lemma dict_get_In (k : string) (d : dict) :
  dict_has k d = true -> In k (map fst d).
Proof.
  unfold dict_has. induction d as [|[k' v] d IH]; simpl; [discriminate|].
  destruct (String.eqb_spec k k') as [->|Hne]; [left; reflexivity|].
  intros H. right. apply IH. exact H.
Qed.

Lemma dict_set_keys (k : string) (v : json) (d : dict) (x : string) :
  In x (map fst (dict_set k v d)) <-> x = k \/ In x (map fst d).
Proof.
  induction d as [|[k' v'] d IH]; simpl.
  - split; [intros [H|[]]; left; congruence | intros [H|[]]; left; congruence].
  - destruct (String.eqb_spec k k') as [->|Hne]; simpl.
    + split; [intros [H|H]; right; [left|right]; assumption |
              intros [H|[H|H]]; [left; congruence | left; assumption | right; assumption]].
    + rewrite IH. split.
      * intros [H|[H|H]]; [right; left | left | right; right]; assumption.
      * intros [H|[H|H]]; [right; left | left | right; right]; assumption.
Qed.

Lemma dict_update_keys (other d : dict) (x : string) :
  In x (map fst (dict_update d other)) <-> In x (map fst d) \/ In x (map fst other).
Proof.
  unfold dict_update. revert d.
  induction other as [|[k v] other IH]; intros d; simpl.
  - split; [left; assumption | intros [H|[]]; assumption].
  - rewrite IH, dict_set_keys. split.
    + intros [[H|H]|H]; [right; left; congruence | left; assumption | right; right; assumption].
    + intros [H|[H|H]]; [left; right; assumption | left; left; congruence | right; assumption].
Qed.

Lemma add_keys_In (d : dict) (cols : list string) (x : string) :
  In x (add_keys cols d) <-> In x cols \/ In x (map fst d).
Proof.
  unfold add_keys. revert cols.
  induction d as [|[k v] d IH]; intros cols; simpl.
  - split; [left; assumption | intros [H|[]]; assumption].
  - rewrite IH. destruct (Py.mem k cols) eqn:E.
    + apply mem_In in E. split.
      * intros [H|H]; [left | right; right]; assumption.
      * intros [H|[H|H]]; [left; assumption | left; congruence | right; assumption].
    + rewrite in_app_iff. simpl. split.
      * intros [[H|[H|[]]]|H]; [left | right; left | right; right]; assumption.
      * intros [H|[H|H]]; [left; left | left; right; left | right]; assumption.
Qed.

Lemma record_columns_In (records : list dict) (x : string) :
  In x (record_columns records) <->
  exists d, In d records /\ In x (map fst d).
Proof.
  unfold record_columns.
  assert (G : forall acc,
             In x (fold_left add_keys records acc) <->
             In x acc \/ exists d, In d records /\ In x (map fst d)).
  { induction records as [|d records IH]; intros acc; simpl.
    - split; [left; assumption | intros [H|[d [[] _]]]; assumption].
    - rewrite IH, add_keys_In. split.
      + intros [[H|H]|[d' [Hd Hx]]].
        * left; assumption.
        * right. exists d. split; [left; reflexivity | assumption].
        * right. exists d'. split; [right; assumption | assumption].
      + intros [H|[d' [[->|Hd] Hx]]].
        * left; left; assumption.
        * left; right; assumption.
        * right. exists d'. split; assumption. }
  rewrite G. simpl. split; [intros [[]|H]; assumption | right; assumption].
Qed.

End PandasFacts.

(** * Facts about search_features_using_string *)

Module SearchFacts.
Import Pandas PandasFacts Search.
#[local] Open Scope list_scope.

Lemma second_component_spec (col : string) :
  second_component col =
  if dotless col then inl IndexError else inr (after_first_dot col).
Proof.
  unfold second_component, dotless, after_first_dot, Py.index.
  pose proof (split_not_nil "." col) as Hne.
  destruct (Py.split "." col) as [|a [|b l]]; [contradiction | reflexivity | reflexivity].
Qed.

Lemma rename_all_dotted (cols : list string) :
  existsb dotless cols = false ->
  for_each second_component cols = inr (map after_first_dot cols).
Proof.
  intros H. apply for_each_inr. intros c Hc.
  rewrite second_component_spec.
  destruct (dotless c) eqn:E; [|reflexivity].
  assert (existsb dotless cols = true) by (apply existsb_exists; exists c; auto).
  congruence.
Qed.

Lemma rename_some_dotless (cols : list string) :
  existsb dotless cols = true ->
  for_each second_component cols = inl IndexError.
Proof.
  induction cols as [|c cols IH]; simpl; [discriminate|].
  rewrite second_component_spec. destruct (dotless c); simpl; [reflexivity|].
  intros H. rewrite (IH H). reflexivity.
Qed.

(** The function, step by step, on the normalized response. *)
Lemma search_outcome (search : search_request -> list dict) (s : string) :
  search_features_using_string search s =
  let norm := json_normalize (search (search_request_for s)) in
  if existsb dotless (columns norm) then inl IndexError
  else if Py.mem "FeatureGroupArn" (map after_first_dot (columns norm))
  then inr (mkFrame
              (filter (fun c => negb (String.eqb c "FeatureGroupArn"))
                      (map after_first_dot (columns norm)))
              (map (select_by (map (fun c => negb (String.eqb c "FeatureGroupArn"))
                                   (map after_first_dot (columns norm))))
                   (rows norm)))
  else inl (KeyError "FeatureGroupArn").
Proof.
  unfold search_features_using_string, rename_columns.
  cbv zeta. set (norm := json_normalize _).
  destruct (existsb dotless (columns norm)) eqn:E.
  - rewrite (rename_some_dotless _ E). reflexivity.
  - rewrite (rename_all_dotted _ E). cbn [bind].
    rewrite drop_one. cbn [columns rows].
    destruct (Py.mem "FeatureGroupArn" (map after_first_dot (columns norm)));
      reflexivity.
Qed.

Lemma dotless_split (k : string) : dotless k = true -> Py.split "." k = [k].
Proof.
  unfold dotless. induction k as [|c k IH]; simpl; [reflexivity|].
  destruct (Ascii.eqb c "."); simpl.
  - pose proof (split_not_nil "." k). destruct (Py.split "." k); [contradiction|discriminate].
  - pose proof (split_not_nil "." k) as Hne.
    destruct (Py.split "." k) as [|h [|h' t]]; [contradiction| |discriminate].
    intros _. specialize (IH eq_refl). injection IH as ->. reflexivity.
Qed.

Lemma metadata_record_keys (r : dict) :
  metadata_result r = true ->
  exists meta,
    dict_has "FeatureGroupArn" meta = true /\
    forallb (fun kv => dotless (fst kv)) meta = true /\
    forall c, In c (map fst (nested_to_record r)) <->
              In c (map (fun kv => ("FeatureMetadata." ++ fst kv)%string) meta).
Proof.
  unfold metadata_result.
  destruct r as [|[top v] r']; try discriminate.
  destruct v; try discriminate.
  destruct r'; try discriminate.
  intros H. apply andb_prop in H as [H Hdot]. apply andb_prop in H as [Htop Harn].
  apply String.eqb_eq in Htop. subst top.
  exists d. split; [exact Harn|]. split; [exact Hdot|].
  intros c. unfold nested_to_record. cbn [fold_left snd fst].
  rewrite dict_update_keys. unfold flatten_nested. rewrite map_map. cbn.
  split; [intros [[]|H]; exact H | intros H; right; exact H].
Qed.

Lemma metadata_column_split (k : string) :
  dotless k = true ->
  Py.split "." ("FeatureMetadata." ++ k) = ["FeatureMetadata"%string; k].
Proof.
  intros H. cbn. rewrite (dotless_split k H). reflexivity.
Qed.

(** Every column of a normalized API-shaped response is
    [FeatureMetadata.<key>] for a key without a dot, and
    [FeatureMetadata.FeatureGroupArn] is among them when there is a result. *)
Lemma metadata_columns (results : list dict) :
  forallb metadata_result results = true ->
  (forall c, In c (columns (json_normalize results)) ->
             exists k, dotless k = true /\ c = ("FeatureMetadata." ++ k)%string) /\
  (results <> [] ->
   In "FeatureMetadata.FeatureGroupArn"%string (columns (json_normalize results))).
Proof.
  intros Hall. rewrite forallb_forall in Hall.
  assert (Hcols : forall c, In c (columns (json_normalize results)) <->
                            exists r, In r results /\ In c (map fst (nested_to_record r))).
  { intro c. destruct results as [|r0 rs].
    - simpl. split; [intros [] | intros [r [[] _]]].
    - unfold json_normalize, from_records. cbn [columns].
      rewrite record_columns_In. split.
      + intros [d [Hd Hc]]. apply in_map_iff in Hd as [r [<- Hr]]. exists r. auto.
      + intros [r [Hr Hc]]. exists (nested_to_record r). split; [apply in_map; exact Hr | exact Hc]. }
  split.
  - intros c Hc. apply Hcols in Hc as [r [Hr Hc]].
    destruct (metadata_record_keys r (Hall r Hr)) as [meta [_ [Hdot Hkeys]]].
    apply Hkeys in Hc. apply in_map_iff in Hc as [[k v] [<- Hkv]].
    exists k. split; [|reflexivity].
    rewrite forallb_forall in Hdot. apply (Hdot (k, v) Hkv).
  - intros Hne. destruct results as [|r0 rs]; [contradiction|].
    apply Hcols. exists r0. split; [left; reflexivity|].
    destruct (metadata_record_keys r0 (Hall r0 (or_introl eq_refl)))
      as [meta [Harn [_ Hkeys]]].
    apply Hkeys. apply dict_get_In in Harn.
    apply in_map_iff in Harn as [[k v] [Hk Hkv]]. simpl in Hk. subst k.
    apply in_map_iff. exists ("FeatureGroupArn"%string, v). split; [reflexivity | exact Hkv].
Qed.

(** An "Or" of three "Contains" filters holds exactly when one of the three
    properties contains the value. *)
Lemma request_holds (s : string) (f : feature) :
  expression_holds f (SearchExpression (search_request_for s)) =
  (match property "FeatureName" f with Some t => Py.contains s t | None => false end
   || match property "Description" f with Some t => Py.contains s t | None => false end
   || match property "AllParameters" f with Some t => Py.contains s t | None => false end).
Proof.
  unfold expression_holds, filter_holds. cbn.
  destruct (property "FeatureName" f), (property "Description" f),
    (property "AllParameters" f); cbn; rewrite ?orb_false_r; try reflexivity;
    rewrite ?orb_assoc; reflexivity.
Qed.

Lemma normalized_rows (results : list dict) :
  nrows (json_normalize results) = List.length results.
Proof.
  destruct results as [|r rs]; [reflexivity|].
  unfold json_normalize, from_records, nrows. cbn [rows].
  rewrite !length_map. reflexivity.
Qed.

(** C8.  The function raises on some responses.  A normalized column
    without a dot makes the renaming raise IndexError; when every column has
    a dot but none is named FeatureGroupArn after the renaming, the drop
    raises KeyError; an empty result list is such a case, so the function
    raises instead of returning an empty frame. *)
Theorem search_features_raises :
  forall (search : search_request -> list dict) (s : string),
    let norm := json_normalize (search (search_request_for s)) in
    ((exists c, In c (columns norm) /\ dotless c = true) ->
     search_features_using_string search s = inl IndexError) /\
    ((forall c, In c (columns norm) -> dotless c = false) ->
     ~ In "FeatureGroupArn"%string (map after_first_dot (columns norm)) ->
     search_features_using_string search s = inl (KeyError "FeatureGroupArn")) /\
    (search (search_request_for s) = [] ->
     search_features_using_string search s = inl (KeyError "FeatureGroupArn")).
Proof.
  intros search s norm. repeat split.
  - intros Hex. rewrite search_outcome. cbv zeta. fold norm.
    assert (E : existsb dotless (columns norm) = true)
      by (apply existsb_exists; exact Hex).
    rewrite E. reflexivity.
  - intros Hdots Hnone. rewrite search_outcome. cbv zeta. fold norm.
    assert (E : existsb dotless (columns norm) = false).
    { destruct (existsb dotless (columns norm)) eqn:E; [|reflexivity].
      apply existsb_exists in E as [c [Hc Hd]]. rewrite (Hdots c Hc) in Hd.
      discriminate. }
    rewrite E. apply mem_not_In in Hnone. rewrite Hnone. reflexivity.
  - intros Hempty. rewrite search_outcome. cbv zeta. rewrite Hempty. reflexivity.
Qed.

(** The theorem at three services: one whose result has a top-level
    scalar, one whose result has no FeatureGroupArn, one without results. *)
Lemma search_features_raises_witness :
  search_features_using_string (fun _ => [[("Score"%string, JNum 1)]]) "married"
    = inl IndexError /\
  search_features_using_string
    (fun _ => [[("FeatureMetadata"%string, JDict [("FeatureName"%string, JStr "is_married")])]])
    "married" = inl (KeyError "FeatureGroupArn") /\
  search_features_using_string (fun _ => []) "married" = inl (KeyError "FeatureGroupArn").
Proof.
  split; [|split].
  - apply (proj1 (search_features_raises (fun _ => [[("Score"%string, JNum 1)]]) "married")).
    exists "Score"%string. split; [left; reflexivity | reflexivity].
  - apply (proj1 (proj2 (search_features_raises
             (fun _ => [[("FeatureMetadata"%string,
                          JDict [("FeatureName"%string, JStr "is_married")])]])
             "married"))).
    + intros c [<-|[]]. reflexivity.
    + intros [H|[]]. discriminate H.
  - apply (proj2 (proj2 (search_features_raises (fun _ => []) "married"))).
    reflexivity.
Defined.

End SearchFacts.

(** * Facts about the transform job and the create call *)

Module CallFacts.
#[local] Open Scope list_scope.

(** C5.  The transform job is started with input filter "$[2:]", join
    source "Input", split type "Line" and content type "text/csv"; no output
    filter is passed, which leaves the default "$".  With these settings the
    model sees every input line without its columns 0 and 1 (column [i] of
    the model input is column [i + 2] of the line), and every saved line is
    the whole input line followed by the prediction.  On the columns of the
    batch query, column 0 is the orders record identifier and what the model
    sees are the generated features but the first. *)
Theorem xgb_transform_settings :
  forall (destination_s3_path : string) (predict : list string -> list string),
    let args := Transform.xgb_transform_call destination_s3_path in
    Transform.input_filter args = Some "$[2:]"%string /\
    Transform.join_source args = Some "Input"%string /\
    Transform.split_type args = Some "Line"%string /\
    Transform.content_type args = Some "text/csv"%string /\
    Transform.output_filter args = None /\
    Transform.effective_filter (Transform.output_filter args) = "$"%string /\
    (forall line,
       exists model_input saved,
         Transform.process_line args predict line = Some (model_input, saved) /\
         (forall i, nth_error model_input i = nth_error line (2 + i)) /\
         saved = line ++ predict model_input) /\
    (forall c0 c1 rest,
       Transform.process_line args predict (c0 :: c1 :: rest) =
       Some (rest, c0 :: c1 :: rest ++ predict rest)) /\
    (forall cu pu ou ce pe oe ct pt ot features_names,
       let header := Athena.select_distinct
                       (Athena.batch_query cu pu ou ce pe oe ct pt ot features_names) in
       nth_error header 0 = Some ou /\
       Transform.apply_path (Transform.From 2) header = tl features_names).
Proof.
  intros dest predict args. do 6 (split; [reflexivity|]).
  split; [|split].
  - intros line. exists (skipn 2 line), (line ++ predict (skipn 2 line)).
    split; [reflexivity|]. split; [|reflexivity].
    intros i. apply nth_error_skipn.
  - intros c0 c1 rest. reflexivity.
  - intros cu pu ou ce pe oe ct pt ot features header. subst header.
    split; [reflexivity|]. destruct features; reflexivity.
Qed.

(** C7.  The orders feature group of the Iceberg notebook is created with
    table format ICEBERG, record identifier order_id, event-time feature
    event_time, the online store enabled and the offline store at
    s3://{bucket}/{prefix}: the request carries an online store block and an
    S3 offline store block, and the table format sits in the offline block;
    another table format would leave the online block as it is. *)
Theorem orders_feature_group_create_settings :
  forall (s3_bucket_name role : string),
    let args := Iceberg.orders_create_call s3_bucket_name role in
    Iceberg.table_format args = Some Iceberg.ICEBERG /\
    Iceberg.record_identifier_name args = "order_id"%string /\
    Iceberg.event_time_feature_name args = "event_time"%string /\
    Iceberg.enable_online_store args = true /\
    Iceberg.s3_uri args = ("s3://" ++ s3_bucket_name ++ "/sagemaker-feature-store")%string /\
    Iceberg.stores_of args =
      Iceberg.mkStores
        (Some true)
        (Some (Iceberg.mkOffline
                 ("s3://" ++ s3_bucket_name ++ "/sagemaker-feature-store")%string
                 (Some Iceberg.ICEBERG))) /\
    (forall fmt,
       Iceberg.OnlineStoreConfig
         (Iceberg.stores_of
            (Iceberg.mkCreate (Iceberg.s3_uri args) (Iceberg.record_identifier_name args)
               (Iceberg.event_time_feature_name args) (Iceberg.role_arn args)
               (Iceberg.enable_online_store args) fmt))
       = Iceberg.OnlineStoreConfig (Iceberg.stores_of args)).
Proof.
  intros bucket role args. repeat split.
Qed.

End CallFacts.

(** * Facts about the customers frame *)

Module UpdateFacts.
Import Pandas PandasFacts UpdateFeatureGroup.
#[local] Open Scope list_scope.

Lemma cell_at_cons (c' : string) (cols : list string) (x : cell) (row : list cell)
    (label : string) :
  cell_at (c' :: cols) (x :: row) label =
  if String.eqb label c' then x else cell_at cols row label.
Proof.
  unfold cell_at. simpl. destruct (String.eqb label c'); [reflexivity|].
  destruct (position label cols); reflexivity.
Qed.

Lemma position_In (label : string) (cols : list string) :
  In label cols -> exists i, position label cols = Some i.
Proof.
  induction cols as [|c cols IH]; simpl; [intros []|].
  intros H. destruct (String.eqb_spec label c) as [->|Hne]; [eexists; reflexivity|].
  destruct H as [H|H]; [congruence|].
  destruct (IH H) as [i ->]. eexists; reflexivity.
Qed.

(** The cells of a column that exists, read row by row. *)
Lemma column_values_cells (label : string) (df : DataFrame) :
  In label (columns df) ->
  column_values label df =
  Some (map (fun row => cell_at (columns df) row label) (rows df)).
Proof.
  intros H. unfold column_values, cell_at.
  destruct (position_In label (columns df) H) as [i ->]. reflexivity.
Qed.

(** Appending a column keeps the cells under the old labels... *)
Lemma cell_at_app_old (cols : list string) (row : list cell) (l c : string) (v : cell) :
  List.length row = List.length cols ->
  In c cols ->
  cell_at (cols ++ [l]) (row ++ [v]) c = cell_at cols row c.
Proof.
  revert row. induction cols as [|c' cols IH]; intros row Hlen Hin; [destruct Hin|].
  destruct row as [|x row]; [discriminate|]. simpl app.
  rewrite !cell_at_cons. destruct (String.eqb_spec c c') as [->|Hne]; [reflexivity|].
  apply IH; [simpl in Hlen; lia|]. destruct Hin as [H|H]; [congruence | exact H].
Qed.

(** ... and puts the new cell under the new label. *)
Lemma cell_at_app_new (cols : list string) (row : list cell) (l : string) (v : cell) :
  List.length row = List.length cols ->
  ~ In l cols ->
  cell_at (cols ++ [l]) (row ++ [v]) l = v.
Proof.
  revert row. induction cols as [|c' cols IH]; intros row Hlen Hnin.
  - destruct row; [|discriminate]. simpl. rewrite cell_at_cons, String.eqb_refl.
    reflexivity.
  - destruct row as [|x row]; [discriminate|]. simpl app. rewrite cell_at_cons.
    destruct (String.eqb_spec l c') as [->|Hne]; [exfalso; apply Hnin; left; reflexivity|].
    apply IH; [simpl in Hlen; lia|]. intros H. apply Hnin. right. exact H.
Qed.

(** Dropping a label keeps the cells under the other labels. *)
Lemma cell_at_drop (cols : list string) (row : list cell) (e c : string) :
  List.length row = List.length cols ->
  c <> e ->
  cell_at (filter (fun x => negb (String.eqb x e)) cols)
          (select_by (map (fun x => negb (String.eqb x e)) cols) row) c
  = cell_at cols row c.
Proof.
  revert row. induction cols as [|c' cols IH]; intros row Hlen Hne.
  - destruct row; reflexivity.
  - destruct row as [|x row]; [discriminate|]. simpl.
    destruct (String.eqb_spec c' e) as [->|Hne']; simpl.
    + rewrite cell_at_cons. destruct (String.eqb_spec c e); [congruence|].
      apply IH; [simpl in Hlen; lia | exact Hne].
    + rewrite !cell_at_cons. destruct (String.eqb c c'); [reflexivity|].
      apply IH; [simpl in Hlen; lia | exact Hne].
Qed.

Lemma select_by_length (cols : list string) (row : list cell) (e : string) :
  List.length row = List.length cols ->
  List.length (select_by (map (fun x => negb (String.eqb x e)) cols) row) =
  List.length (filter (fun x => negb (String.eqb x e)) cols).
Proof.
  revert row. induction cols as [|c' cols IH]; intros row Hlen.
  - destruct row; reflexivity.
  - destruct row as [|x row]; [discriminate|]. simpl.
    destruct (negb (String.eqb c' e)); simpl; rewrite IH; simpl in Hlen; lia.
Qed.

(** Assigning a new column of the right length to a frame. *)
Lemma setitem_new (label : string) (values : list cell) (df : DataFrame) :
  List.length values = nrows df ->
  ~ In label (columns df) ->
  setitem label values df =
  inr (mkFrame (columns df ++ [label])
               (map (fun rv => fst rv ++ [snd rv]) (combine (rows df) values))).
Proof.
  intros Hlen Hnin. unfold setitem.
  assert (Hbase : (if (nrows df =? 0)%nat
                   then map (fun _ => map (fun _ => @None json) (columns df)) values
                   else rows df) = rows df).
  { destruct (Nat.eqb_spec (nrows df) 0) as [E|E]; [|reflexivity].
    unfold nrows in *. rewrite E in Hlen.
    destruct values; [|discriminate]. destruct (rows df); [reflexivity|discriminate]. }
  rewrite Hbase. unfold nrows in Hlen. rewrite Hlen, Nat.eqb_refl. cbn [negb].
  apply mem_not_In in Hnin. rewrite Hnin. reflexivity.
Qed.

(** Two maps over rows paired with two lists of new cells agree when they
    agree on every row. *)
Lemma map_combine_ext {A B C D} (f g : A * B * C -> D) (la : list A) :
  forall (lb : list B) (lc : list C),
    (forall a b c, In a la -> f (a, b, c) = g (a, b, c)) ->
    map f (combine (combine la lb) lc) = map g (combine (combine la lb) lc).
Proof.
  induction la as [|a la IH]; intros lb lc H; [reflexivity|].
  destruct lb as [|b lb]; [reflexivity|]. destruct lc as [|c lc]; [reflexivity|].
  simpl. rewrite (H a b c (or_introl eq_refl)). f_equal.
  apply IH. intros a' b' c' Ha. apply H. right. exact Ha.
Qed.

Lemma map_fst_combine {A B} (la : list A) (lb : list B) :
  List.length lb = List.length la -> map fst (combine la lb) = la.
Proof.
  revert lb. induction la as [|a la IH]; intros lb H; [reflexivity|].
  destruct lb; [discriminate|]. simpl. f_equal. apply IH. simpl in H. lia.
Qed.

Lemma map_snd_combine {A B} (la : list A) (lb : list B) :
  List.length lb = List.length la -> map snd (combine la lb) = lb.
Proof.
  revert lb. induction la as [|a la IH]; intros lb H.
  - destruct lb; [reflexivity|discriminate].
  - destruct lb; [discriminate|]. simpl. f_equal. apply IH. simpl in H. lia.
Qed.

Lemma randint_length (raw : nat -> Z) (low high : Z) (size : nat) :
  List.length (randint raw low high size) = size.
Proof. unfold randint. rewrite length_map, length_seq. reflexivity. Qed.

Lemma randint_range (raw : nat -> Z) (low high : Z) (size : nat) :
  (low < high)%Z ->
  Forall (fun z => (low <= z < high)%Z) (randint raw low high size).
Proof.
  intros H. unfold randint. apply Forall_forall. intros z Hz.
  apply in_map_iff in Hz as [i [<- _]].
  pose proof (Z.mod_pos_bound (raw i) (high - low)). lia.
Qed.

Lemma combine3_fst {A B C} (la : list A) (lb : list B) (lc : list C) :
  List.length lb = List.length la -> List.length lc = List.length la ->
  map (fun x => fst (fst x)) (combine (combine la lb) lc) = la.
Proof.
  intros Hb Hc. rewrite <- (map_map fst fst).
  rewrite map_fst_combine; [apply map_fst_combine; exact Hb|].
  rewrite length_combine. lia.
Qed.

Lemma combine3_mid {A B C} (la : list A) (lb : list B) (lc : list C) :
  List.length lb = List.length la -> List.length lc = List.length la ->
  map (fun x => snd (fst x)) (combine (combine la lb) lc) = lb.
Proof.
  intros Hb Hc. rewrite <- (map_map fst snd).
  rewrite map_fst_combine; [apply map_snd_combine; exact Hb|].
  rewrite length_combine. lia.
Qed.

Lemma combine3_snd {A B C} (la : list A) (lb : list B) (lc : list C) :
  List.length lb = List.length la -> List.length lc = List.length la ->
  map snd (combine (combine la lb) lc) = lc.
Proof.
  intros Hb Hc. apply map_snd_combine. rewrite length_combine. lia.
Qed.

Section Prepared.

Variable raw : nat -> Z.
Variable clock : nat -> string.
Variable df : DataFrame.

Hypothesis rectangular :
  Forall (fun row => List.length row = List.length (columns df)) (rows df).
Hypothesis has_event_time : In "event_time"%string (columns df).
Hypothesis no_has_kids : ~ In "has_kids"%string (columns df).

Lemma kids_length : List.length (kids raw df) = nrows df.
Proof. unfold kids. rewrite length_map. apply randint_length. Qed.

Lemma stamps_length : List.length (stamps clock df) = nrows df.
Proof. unfold stamps. rewrite !length_map. apply length_seq. Qed.

Lemma event_time_not_kept : ~ In "event_time"%string (kept_columns df).
Proof.
  unfold kept_columns, keep. intros H. apply filter_In in H as [_ H].
  rewrite String.eqb_refl in H. discriminate.
Qed.

Lemma prepare_customers_frame :
  prepare_customers raw clock df = inr (prepared raw clock df).
Proof.
  unfold prepare_customers, prepared. fold (kids raw df).
  rewrite (setitem_new "has_kids" (kids raw df) df kids_length no_has_kids). cbn [bind].
  rewrite drop_one. cbn [columns rows].
  assert (Hmem : Py.mem "event_time" (columns df ++ ["has_kids"%string]) = true)
    by (apply mem_In, in_app_iff; left; exact has_event_time).
  rewrite Hmem. cbn [bind]. fold keep. fold (kept_columns df).
  assert (Hn : nrows (mkFrame (kept_columns df)
                 (map (select_by (map keep (columns df ++ ["has_kids"%string])))
                      (map (fun rv => fst rv ++ [snd rv]) (combine (rows df) (kids raw df)))))
               = nrows df).
  { unfold nrows. cbn [rows]. rewrite !length_map, length_combine.
    fold (nrows df). rewrite kids_length. apply Nat.min_id. }
  rewrite Hn. fold (stamps clock df).
  rewrite setitem_new; [| rewrite Hn; apply stamps_length | exact event_time_not_kept].
  cbn [columns rows]. f_equal. f_equal.
  generalize (kids raw df) (stamps clock df). generalize (rows df). intros rws.
  induction rws as [|row rws IH]; intros ks ts; [reflexivity|].
  destruct ks as [|k ks]; [reflexivity|]. destruct ts as [|t ts]; [reflexivity|].
  cbn [combine map fst snd]. rewrite IH. reflexivity.
Qed.

Lemma final_row_old (row : list cell) (k t : cell) (c : string) :
  List.length row = List.length (columns df) ->
  In c (columns df) -> c <> "event_time"%string ->
  cell_at ((kept_columns df) ++ ["event_time"%string]) ((final_row df) row k t) c =
  cell_at (columns df) row c.
Proof.
  intros Hlen Hin Hne. unfold final_row, kept_columns.
  rewrite cell_at_app_old.
  - unfold keep. rewrite cell_at_drop; [| rewrite !length_app; simpl; lia | exact Hne].
    apply cell_at_app_old; assumption.
  - unfold keep. apply select_by_length. rewrite !length_app. simpl. lia.
  - apply filter_In. split; [apply in_app_iff; left; exact Hin|].
    unfold keep. destruct (String.eqb_spec c "event_time"); [contradiction|reflexivity].
Qed.

Lemma final_row_kids (row : list cell) (k t : cell) :
  List.length row = List.length (columns df) ->
  cell_at ((kept_columns df) ++ ["event_time"%string]) ((final_row df) row k t) "has_kids" = k.
Proof.
  intros Hlen. unfold final_row, kept_columns.
  rewrite cell_at_app_old.
  - unfold keep. rewrite cell_at_drop; [| rewrite !length_app; simpl; lia | discriminate].
    apply cell_at_app_new; assumption.
  - unfold keep. apply select_by_length. rewrite !length_app. simpl. lia.
  - apply filter_In. split; [apply in_app_iff; right; left; reflexivity | reflexivity].
Qed.

Lemma final_row_stamp (row : list cell) (k t : cell) :
  List.length row = List.length (columns df) ->
  cell_at ((kept_columns df) ++ ["event_time"%string]) ((final_row df) row k t) "event_time" = t.
Proof.
  intros Hlen. unfold final_row, kept_columns. apply cell_at_app_new.
  - unfold keep. apply select_by_length. rewrite !length_app. simpl. lia.
  - exact event_time_not_kept.
Qed.

Lemma prepared_column (c : string) (g : list cell * cell * cell -> cell) :
  In c ((kept_columns df) ++ ["event_time"%string]) ->
  (forall row k t,
     List.length row = List.length (columns df) ->
     cell_at ((kept_columns df) ++ ["event_time"%string]) ((final_row df) row k t) c = g (row, k, t)) ->
  column_values c (prepared raw clock df) = Some (map g (combine (combine (rows df) (kids raw df)) (stamps clock df))).
Proof.
  intros Hin Hcell. rewrite column_values_cells by exact Hin.
  unfold prepared. cbn [columns rows]. rewrite map_map. f_equal.
  apply map_combine_ext. intros row k t Hrow. cbn [fst snd].
  apply Hcell. rewrite Forall_forall in rectangular. apply rectangular. exact Hrow.
Qed.

Lemma prepared_old_column (c : string) :
  In c (columns df) -> c <> "event_time"%string ->
  column_values c (prepared raw clock df) = column_values c df.
Proof.
  intros Hin Hne.
  rewrite (prepared_column c (fun x => cell_at (columns df) (fst (fst x)) c)).
  - rewrite (column_values_cells c df Hin).
    rewrite <- (map_map (fun x => fst (fst x)) (fun row => cell_at (columns df) row c)).
    rewrite combine3_fst; [reflexivity | apply kids_length | apply stamps_length].
  - apply in_app_iff. left. apply filter_In. split; [apply in_app_iff; left; exact Hin|].
    unfold keep. destruct (String.eqb_spec c "event_time"); [contradiction|reflexivity].
  - intros row k t Hlen. apply final_row_old; assumption.
Qed.

Lemma prepared_kids_column : column_values "has_kids" (prepared raw clock df) = Some (kids raw df).
Proof.
  rewrite (prepared_column "has_kids" (fun x => snd (fst x))).
  - rewrite combine3_mid; [reflexivity | apply kids_length | apply stamps_length].
  - apply in_app_iff. left. apply filter_In.
    split; [apply in_app_iff; right; left; reflexivity | reflexivity].
  - intros row k t Hlen. apply final_row_kids. exact Hlen.
Qed.

Lemma prepared_stamp_column : column_values "event_time" (prepared raw clock df) = Some (stamps clock df).
Proof.
  rewrite (prepared_column "event_time" snd).
  - rewrite combine3_snd; [reflexivity | apply kids_length | apply stamps_length].
  - apply in_app_iff. right. left. reflexivity.
  - intros row k t Hlen. apply final_row_stamp. exact Hlen.
Qed.

Lemma prepared_shape :
  columns (prepared raw clock df) =
    filter (fun c => negb (String.eqb c "event_time")) (columns df)
    ++ ["has_kids"%string; "event_time"%string] /\
  nrows (prepared raw clock df) = nrows df.
Proof.
  split.
  - unfold prepared, kept_columns, keep. cbn [columns].
    rewrite filter_app. cbn [filter]. cbn. rewrite <- app_assoc. reflexivity.
  - unfold prepared, nrows. cbn [rows].
    rewrite length_map, !length_combine. fold (nrows df).
    rewrite kids_length, stamps_length. lia.
Qed.

End Prepared.

(** C6.  On a frame that has an event_time column and no has_kids column,
    the preparation succeeds and changes exactly two columns: has_kids is
    new, with one value per row, each 0 or 1; event_time is dropped and put
    back with one freshly generated timestamp per row, made from that row's
    own reading of the clock: for a reading in UTC, a date and time followed
    by the offset +00:00, the cell is the text of the same date and time
    followed by Z.  Every other column keeps its cells and the number of rows
    is the same. *)
Theorem prepare_customers_changes_two_columns :
  forall (raw : nat -> Z) (clock : nat -> string) (df : DataFrame),
    Forall (fun row => List.length row = List.length (columns df)) (rows df) ->
    In "event_time"%string (columns df) ->
    ~ In "has_kids"%string (columns df) ->
    exists df',
      prepare_customers raw clock df = inr df' /\
      columns df' =
        filter (fun c => negb (String.eqb c "event_time")) (columns df)
        ++ ["has_kids"%string; "event_time"%string] /\
      nrows df' = nrows df /\
      (forall c, In c (columns df) -> c <> "event_time"%string ->
                 column_values c df' = column_values c df) /\
      (exists ks,
         column_values "has_kids" df' = Some (map (fun z => Some (JNum z)) ks) /\
         List.length ks = nrows df /\
         Forall (fun z => z = 0%Z \/ z = 1%Z) ks) /\
      column_values "event_time" df' =
        Some (map (fun i => Some (JStr (generate_event_timestamp (clock i))))
                  (seq 0 (nrows df))) /\
      (forall body : nat -> string,
         (forall i, i < nrows df ->
            clock i = (body i ++ "+00:00")%string /\
            ~ In "+"%char (list_ascii_of_string (body i))) ->
         column_values "event_time" df' =
           Some (map (fun i => Some (JStr (body i ++ "Z"))) (seq 0 (nrows df)))).
Proof.
  intros raw clock df Hrect Het Hkids.
  exists (prepared raw clock df).
  split; [apply prepare_customers_frame; assumption|].
  split; [apply prepared_shape|]. split; [apply prepared_shape|].
  split; [intros c Hc Hne; apply prepared_old_column; assumption|]. split.
  - exists (randint raw 0 2 (nrows df)).
    split; [apply prepared_kids_column; assumption|].
    split; [apply randint_length|].
    eapply Forall_impl; [|apply (randint_range raw 0 2 (nrows df)); lia].
    intros z Hz. cbv beta in Hz. lia.
  - split.
    + rewrite prepared_stamp_column by assumption. unfold stamps.
      rewrite map_map. reflexivity.
    + intros body Hclock. rewrite prepared_stamp_column by assumption.
      unfold stamps. rewrite map_map. f_equal. apply map_ext_in. intros i Hi.
      apply in_seq in Hi. destruct (Hclock i) as [Hreading Hplus]; [lia|].
      rewrite Hreading. unfold generate_event_timestamp.
      rewrite (StringFacts.replace_suffix "+" "00:00" "Z" (body i) Hplus).
      reflexivity.
Qed.

(** The theorem at the sample of the customers file. *)
Lemma prepare_customers_changes_two_columns_witness :
  Forall (fun row => List.length row = List.length (columns sample_customers))
         (rows sample_customers) /\
  In "event_time"%string (columns sample_customers) /\
  ~ In "has_kids"%string (columns sample_customers) /\
  exists df', prepare_customers sample_raw sample_clock sample_customers = inr df' /\
              nrows df' = nrows sample_customers /\
              column_values "event_time" df' =
                Some [ Some (JStr "2023-05-04T12:00:00.123Z");
                       Some (JStr "2023-05-04T12:00:00.123Z");
                       Some (JStr "2023-05-04T12:00:00.123Z") ].
Proof.
  assert (H1 : Forall (fun row => List.length row = List.length (columns sample_customers))
                      (rows sample_customers))
    by (repeat constructor).
  assert (H2 : In "event_time"%string (columns sample_customers))
    by (right; right; left; reflexivity).
  assert (H3 : ~ In "has_kids"%string (columns sample_customers)).
  { intros [H|[H|[H|[]]]]; discriminate H. }
  split; [exact H1|]. split; [exact H2|]. split; [exact H3|].
  destruct (prepare_customers_changes_two_columns
              sample_raw sample_clock sample_customers H1 H2 H3)
    as [df' [Hrun [_ [Hrows [_ [_ [_ Hstamps]]]]]]].
  exists df'. split; [exact Hrun|]. split; [exact Hrows|].
  apply (Hstamps (fun _ => "2023-05-04T12:00:00.123"%string)).
  intros i _. split; [reflexivity|].
  cbn. intuition discriminate.
Defined.

End UpdateFacts.

(** * Facts about generate_fsets *)

Module FeatureSetFacts.
Import Pandas PandasFacts FeatureSets.
#[local] Open Scope list_scope.

Lemma record_columns_definitions (l : list FeatureDefinition) :
  fold_left add_keys (map definition_dict l) definition_columns = definition_columns.
Proof. induction l as [|fd l IH]; [reflexivity | exact IH]. Qed.

Lemma from_records_definitions (fd : FeatureDefinition) (l : list FeatureDefinition) :
  from_records (map definition_dict (fd :: l)) =
  mkFrame definition_columns (map definition_row (fd :: l)).
Proof.
  unfold from_records, record_columns.
  assert (E : fold_left add_keys (map definition_dict (fd :: l)) [] = definition_columns)
    by apply (record_columns_definitions l).
  rewrite E. f_equal. rewrite map_map. reflexivity.
Qed.

Lemma select_by_definitions (f : FeatureDefinition -> bool) (l : list FeatureDefinition)
    (mask : list bool) :
  mask = map f l ->
  select_by mask (map definition_row l) = map definition_row (filter f l).
Proof.
  intros ->. induction l as [|fd l IH]; simpl; [reflexivity|].
  destruct (f fd); simpl; rewrite IH; reflexivity.
Qed.

Lemma holds_empty_frame (l : list FeatureDefinition) : holds empty_frame l -> l = [].
Proof. intros [[_ H]|H]; [exact H | discriminate H]. Qed.

(** Adding the columns of a frame that holds definitions to the definition
    columns changes nothing. *)
Lemma union_columns_from_definitions (objs : list DataFrame)
    (ls : list (list FeatureDefinition)) :
  Forall2 holds objs ls ->
  fold_left (fun acc df =>
               fold_left (fun acc c => if Py.mem c acc then acc else acc ++ [c])
                         (columns df) acc)
            objs definition_columns
  = definition_columns.
Proof.
  induction 1 as [|df l objs ls Hdf Hrest IH]; [reflexivity|].
  cbn [fold_left]. destruct Hdf as [[-> _]| ->]; exact IH.
Qed.

(** The union of the columns of frames that hold definitions is the pair of
    definition columns, unless every frame is the frame without columns. *)
Lemma union_columns_holds (objs : list DataFrame) (ls : list (list FeatureDefinition)) :
  Forall2 holds objs ls ->
  union_columns objs = definition_columns \/
  (union_columns objs = [] /\ Forall (fun df => df = empty_frame) objs).
Proof.
  unfold union_columns.
  induction 1 as [|df l objs ls Hdf Hrest IH].
  - right. split; [reflexivity | constructor].
  - cbn [fold_left]. destruct Hdf as [[-> _]| ->].
    + destruct IH as [H|[H Hall]]; [left; exact H|].
      right. split; [exact H | constructor; [reflexivity | exact Hall]].
    + left. exact (union_columns_from_definitions objs ls Hrest).
Qed.

Lemma stacked_rows (objs : list DataFrame) (ls : list (list FeatureDefinition)) :
  Forall2 holds objs ls ->
  flat_map (fun df => map (fun row => map (cell_at (columns df) row) definition_columns)
                          (rows df))
           objs
  = map definition_row (List.concat ls).
Proof.
  induction 1 as [|df l objs ls Hdf Hrest IH]; [reflexivity|].
  cbn [flat_map List.concat]. rewrite IH, map_app. f_equal.
  destruct Hdf as [[-> ->]| ->]; [reflexivity|].
  cbn [columns rows]. rewrite map_map. reflexivity.
Qed.

Lemma concat_holds (objs : list DataFrame) (ls : list (list FeatureDefinition)) :
  Forall2 holds objs ls ->
  objs <> [] ->
  exists df, concat objs = inr df /\
             to_dict_records df = map definition_record (List.concat ls).
Proof.
  intros Hall Hne.
  assert (E : concat objs =
              inr (mkFrame (union_columns objs)
                     (flat_map (fun df => map (fun row => map (cell_at (columns df) row)
                                                              (union_columns objs))
                                              (rows df))
                               objs)))
    by (destruct objs; [contradiction | reflexivity]).
  rewrite E. eexists. split; [reflexivity|].
  unfold to_dict_records. cbn [columns rows].
  destruct (union_columns_holds objs ls Hall) as [Hc|[Hc Hempty]]; rewrite Hc.
  - rewrite (stacked_rows objs ls Hall), map_map. reflexivity.
  - assert (Hls : List.concat ls = []).
    { clear - Hall Hempty.
      induction Hall as [|df l objs' ls' Hdf Hrest IH]; [reflexivity|].
      inversion Hempty; subst. simpl. rewrite (holds_empty_frame l Hdf). apply IH.
      assumption. }
    rewrite Hls. simpl.
    assert (Hrows : forall f : DataFrame -> list (list cell),
               (forall df, df = empty_frame -> f df = []) -> flat_map f objs = []).
    { intros f Hf. clear - Hempty Hf.
      induction Hempty as [|df objs' Hd _ IH]; [reflexivity|].
      simpl. rewrite (Hf df Hd), IH. reflexivity. }
    rewrite Hrows; [reflexivity|]. intros df ->. reflexivity.
Qed.

Section Groups.

Variable describe_feature_group : string -> FeatureGroupDescription.
Variable exclude_fsets : option (list string).

Lemma kept_all :
  truthy exclude_fsets = false -> forall l, filter (kept exclude_fsets) l = l.
Proof.
  intros H l. induction l as [|fd l IH]; [reflexivity|]. simpl. rewrite IH.
  assert (E : kept exclude_fsets fd = true).
  { unfold kept, excluded.
    destruct exclude_fsets as [[|x e]|]; [reflexivity | discriminate | reflexivity]. }
  rewrite E. reflexivity.
Qed.

Lemma group_frame_holds (fg : FeatureGroupDescription) :
  (truthy exclude_fsets = true -> definitions_of describe_feature_group fg <> []) ->
  exists df,
    group_frame describe_feature_group exclude_fsets fg = inr df /\
    holds df (filter (kept exclude_fsets) (definitions_of describe_feature_group fg)).
Proof.
  intros Hne. unfold group_frame. fold (definitions_of describe_feature_group fg).
  destruct (definitions_of describe_feature_group fg) as [|fd l] eqn:E.
  - destruct exclude_fsets as [[|x e]|].
    + exists empty_frame. split; [reflexivity | left; split; reflexivity].
    + exfalso. apply Hne; reflexivity.
    + exists empty_frame. split; [reflexivity | left; split; reflexivity].
  - rewrite from_records_definitions.
    destruct (truthy exclude_fsets) eqn:T.
    + destruct exclude_fsets as [[|x e]|]; try discriminate.
      unfold getattr, column_values. cbn [columns rows definition_columns position].
      cbn [String.eqb Ascii.eqb Bool.eqb]. cbn [bind].
      eexists. split; [reflexivity|]. right. unfold filter_rows. cbn [columns rows].
      f_equal. apply select_by_definitions. rewrite !map_map. reflexivity.
    + rewrite (kept_all T).
      exists (mkFrame definition_columns (map definition_row (fd :: l))).
      split; [|right; reflexivity].
      destruct exclude_fsets as [[|x e]|]; try discriminate; reflexivity.
Qed.

Lemma for_each_group_frame (fg_list : list FeatureGroupDescription) :
  (truthy exclude_fsets = true ->
   Forall (fun fg => definitions_of describe_feature_group fg <> []) fg_list) ->
  exists objs,
    for_each (group_frame describe_feature_group exclude_fsets) fg_list = inr objs /\
    Forall2 holds objs
      (map (fun fg => filter (kept exclude_fsets)
                             (definitions_of describe_feature_group fg))
           fg_list).
Proof.
  induction fg_list as [|fg fg_list IH]; intros Hne.
  - exists []. split; [reflexivity | constructor].
  - destruct (group_frame_holds fg) as [df [Hdf Hholds]].
    { intros T. specialize (Hne T). inversion Hne; assumption. }
    destruct IH as [objs [Hobjs Hall]].
    { intros T. specialize (Hne T). inversion Hne; assumption. }
    exists (df :: objs). split.
    + simpl. rewrite Hdf. cbn [bind]. rewrite Hobjs. reflexivity.
    + constructor; assumption.
Qed.

Lemma kept_flat_map (fg_list : list FeatureGroupDescription) :
  List.concat (map (fun fg => filter (kept exclude_fsets)
                                     (definitions_of describe_feature_group fg))
                   fg_list)
  = filter (kept exclude_fsets) (all_definitions describe_feature_group fg_list).
Proof.
  unfold all_definitions. induction fg_list as [|fg fg_list IH]; [reflexivity|].
  simpl. rewrite filter_app, IH. reflexivity.
Qed.

End Groups.

Lemma definition_record_injective (a b : FeatureDefinition) :
  definition_record a = definition_record b -> a = b.
Proof.
  destruct a, b. unfold definition_record. simpl. intros H.
  injection H as -> ->. reflexivity.
Qed.

(** C10, as amended.  For every list of feature groups that is not empty,
    with at least one feature definition in every group when an exclusion
    list is given, the function returns a frame whose records are the
    definitions of the groups, in the order the groups are given, without
    those whose name is in the exclusion list: no excluded name is left, the
    others keep their relative order, and nothing is removed when the
    exclusion list is None or empty. *)
Theorem generate_fsets_keeps_unexcluded_definitions :
  forall (describe_feature_group : string -> FeatureGroupDescription)
         (fg_list : list FeatureGroupDescription)
         (exclude_fsets : option (list string)),
    fg_list <> [] ->
    (truthy exclude_fsets = true ->
     Forall (fun fg => definitions_of describe_feature_group fg <> []) fg_list) ->
    exists df,
      generate_fsets describe_feature_group fg_list exclude_fsets = inr df /\
      to_dict_records df =
        map definition_record
            (filter (fun fd => negb (excluded exclude_fsets fd))
                    (all_definitions describe_feature_group fg_list)) /\
      (forall fd, In (definition_record fd) (to_dict_records df) ->
                  excluded exclude_fsets fd = false) /\
      (truthy exclude_fsets = false ->
       to_dict_records df =
         map definition_record (all_definitions describe_feature_group fg_list)).
Proof.
  intros describe fg_list exclude Hne Hdefs.
  destruct (for_each_group_frame describe exclude fg_list Hdefs) as [objs [Hobjs Hall]].
  assert (Hobjs_ne : objs <> []).
  { intros ->. destruct fg_list; [contradiction | inversion Hall]. }
  destruct (concat_holds objs _ Hall Hobjs_ne) as [df [Hdf Hrec]].
  rewrite kept_flat_map in Hrec. fold (kept exclude) in *.
  exists df. split; [|split; [|split]].
  - unfold generate_fsets. rewrite Hobjs. cbn [bind]. exact Hdf.
  - exact Hrec.
  - intros fd Hin. rewrite Hrec in Hin. apply in_map_iff in Hin as [fd' [Heq Hin]].
    apply definition_record_injective in Heq. subst fd'.
    apply filter_In in Hin as [_ Hk]. unfold kept in Hk.
    destruct (excluded exclude fd); [discriminate | reflexivity].
  - intros T. rewrite Hrec, (kept_all exclude T). reflexivity.
Qed.

(** The theorem at the call of the notebook, on the sample service. *)
Lemma generate_fsets_keeps_unexcluded_definitions_witness :
  exists df,
    generate_fsets sample_describe
      [sample_describe "orders"; sample_describe "customers"; sample_describe "products"]
      (Some ["customer_id"; "product_id"; "order_id"; "event_time";
             "purchase_amount"; "n_days_since_last_purchase"]%string)
    = inr df /\
    to_dict_records df =
      map definition_record
          [mkFeature "is_reordered" "Integral"; mkFeature "age_18-29" "Integral";
           mkFeature "category_baby" "Integral"].
Proof.
  destruct (generate_fsets_keeps_unexcluded_definitions sample_describe
              [sample_describe "orders"; sample_describe "customers";
               sample_describe "products"]
              (Some ["customer_id"; "product_id"; "order_id"; "event_time";
                     "purchase_amount"; "n_days_since_last_purchase"]%string))
    as [df [Hrun [Hrec _]]].
  - discriminate.
  - intros _. repeat constructor; discriminate.
  - exists df. split; [exact Hrun | exact Hrec].
Defined.

(** C10 as stated fails in two places: with no feature group there is
    nothing to concatenate and the function raises ValueError; and a group
    without feature definitions gives a frame without a FeatureName column,
    on which a non-empty exclusion list raises AttributeError. *)
Lemma generate_fsets_raises :
  generate_fsets sample_describe [] None
    = inl (ValueError "No objects to concatenate") /\
  generate_fsets sample_describe [sample_describe "empty"] (Some ["order_id"%string])
    = inl (AttributeError "FeatureName") /\
  ~ (forall (fg_list : list FeatureGroupDescription)
            (exclude_fsets : option (list string)),
       exists df,
         generate_fsets sample_describe fg_list exclude_fsets = inr df /\
         to_dict_records df =
           map definition_record
               (filter (fun fd => negb (excluded exclude_fsets fd))
                       (all_definitions sample_describe fg_list))).
Proof.
  split; [reflexivity|]. split; [reflexivity|].
  intros H. destruct (H [] None) as [df [Hrun _]]. discriminate Hrun.
Qed.

End FeatureSetFacts.

(** * Facts about decimal numerals and [int] *)

Module DecimalFacts.
Import Decimal.

Lemma digit_bounds (c : ascii) :
  Py.is_digit c = true <-> 48 <= nat_of_ascii c <= 57.
Proof.
  unfold Py.is_digit. cbv zeta. rewrite andb_true_iff, !Nat.leb_le. reflexivity.
Qed.

Lemma digit_not_space (c : ascii) : Py.is_digit c = true -> Py.is_space c = false.
Proof.
  intros H. apply digit_bounds in H. unfold Py.is_space. cbv zeta.
  destruct (Nat.eqb_spec (nat_of_ascii c) 32); [lia|].
  destruct (Nat.leb_spec 9 (nat_of_ascii c)), (Nat.leb_spec (nat_of_ascii c) 13),
    (Nat.leb_spec 28 (nat_of_ascii c)), (Nat.leb_spec (nat_of_ascii c) 31);
    simpl; try reflexivity; lia.
Qed.

Lemma digit_not_char (c d : ascii) :
  Py.is_digit c = true -> (nat_of_ascii d < 48 \/ 57 < nat_of_ascii d) ->
  Ascii.eqb c d = false.
Proof.
  intros H Hd. apply digit_bounds in H.
  destruct (Ascii.eqb_spec c d) as [->|]; [lia | reflexivity].
Qed.

Lemma digit_value_bounds (c : ascii) :
  Py.is_digit c = true ->
  (0 <= Py.digit_value c <= 9)%Z /\
  Py.digit_value c = (Z.of_nat (nat_of_ascii c) - 48)%Z.
Proof.
  intros H. apply digit_bounds in H. unfold Py.digit_value. lia.
Qed.

Lemma all_digits_list (s : string) :
  all_digits s = true <->
  Forall (fun c => Py.is_digit c = true) (list_ascii_of_string s).
Proof.
  induction s as [|c s IH]; simpl.
  - split; [constructor | reflexivity].
  - rewrite andb_true_iff, IH. split.
    + intros [H1 H2]. constructor; assumption.
    + intros H. inversion H; subst. split; assumption.
Qed.

Lemma rev_string_involutive (s : string) : Py.rev_string (Py.rev_string s) = s.
Proof.
  unfold Py.rev_string.
  rewrite list_ascii_of_string_of_list_ascii, rev_involutive.
  apply string_of_list_ascii_of_string.
Qed.

Lemma all_digits_rev (s : string) :
  all_digits s = true -> all_digits (Py.rev_string s) = true.
Proof.
  rewrite !all_digits_list. unfold Py.rev_string.
  rewrite list_ascii_of_string_of_list_ascii. apply Forall_rev.
Qed.

Lemma lstrip_digits (s : string) : all_digits s = true -> Py.lstrip s = s.
Proof.
  destruct s as [|c s]; [reflexivity|]. simpl. intros H.
  apply andb_prop in H as [H _]. rewrite (digit_not_space c H). reflexivity.
Qed.

Lemma strip_digits (s : string) : all_digits s = true -> Py.strip s = s.
Proof.
  intros H. unfold Py.strip.
  rewrite (lstrip_digits s H), (lstrip_digits _ (all_digits_rev s H)).
  apply rev_string_involutive.
Qed.

Lemma digits_value (s : string) :
  all_digits s = true ->
  forall acc seen, (s <> EmptyString \/ seen = true) ->
  Py.digits acc seen s = Some (value_from acc s).
Proof.
  induction s as [|c s IH]; intros H acc seen Hne.
  - destruct Hne as [Hne| ->]; [contradiction | reflexivity].
  - simpl in H. apply andb_prop in H as [Hc Hs]. simpl. rewrite Hc.
    apply IH; [exact Hs | right; reflexivity].
Qed.

(** A digit is neither sign. *)
Lemma int_unsigned (c : ascii) (d : string) :
  Py.is_digit c = true ->
  Py.strip (String c d) = String c d ->
  Py.int (String c d) =
  match Py.digits 0 false (String c d) with
  | Some z => inr z
  | None => inl (ValueError ("invalid literal for int() with base 10: " ++ String c d))
  end.
Proof.
  intros Hc Hstrip. unfold Py.int. rewrite Hstrip.
  destruct c as [[] [] [] [] [] [] [] []];
    try (vm_compute in Hc; discriminate Hc); reflexivity.
Qed.

(** [int] of a non-empty string of digits is the number it denotes. *)
Lemma int_digits (s : string) :
  all_digits s = true -> s <> EmptyString -> Py.int s = inr (value s).
Proof.
  intros H Hne. destruct s as [|c d]; [contradiction|].
  pose proof H as H'. simpl in H'. apply andb_prop in H' as [Hc _].
  rewrite (int_unsigned c d Hc (strip_digits _ H)).
  rewrite (digits_value _ H 0%Z false (or_introl Hne)). reflexivity.
Qed.

End DecimalFacts.

(** * More facts about the version gates *)

Module GateFacts.
Import Versions Decimal DecimalFacts.
#[local] Open Scope list_scope.

Lemma dot_is_no_digit : nat_of_ascii "."%char < 48 \/ 57 < nat_of_ascii "."%char.
Proof. left. vm_compute. repeat constructor. Qed.

Lemma split_digits (p : string) : all_digits p = true -> Py.split "." p = [p].
Proof.
  induction p as [|c p IH]; [reflexivity|]. simpl. intros H.
  apply andb_prop in H as [Hc Hp].
  rewrite (digit_not_char c "." Hc dot_is_no_digit), (IH Hp). reflexivity.
Qed.

(** Splitting a dotted version whose first piece is a digit string. *)
Lemma split_digits_dot (p rest : string) :
  all_digits p = true ->
  Py.split "." (p ++ String "." rest) = p :: Py.split "." rest.
Proof.
  induction p as [|c p IH]; [reflexivity|]. simpl. intros H.
  apply andb_prop in H as [Hc Hp].
  rewrite (digit_not_char c "." Hc dot_is_no_digit), (IH Hp). reflexivity.
Qed.

(** The components of a version made of three digit strings. *)
Lemma components_three (a b c : string) :
  all_digits a = true -> a <> EmptyString ->
  all_digits b = true -> b <> EmptyString ->
  all_digits c = true -> c <> EmptyString ->
  Py.split "." (a ++ String "." (b ++ String "." c)) = [a; b; c] /\
  components (a ++ String "." (b ++ String "." c)) = Some [value a; value b; value c].
Proof.
  intros Ha Ha' Hb Hb' Hc Hc'.
  assert (E : Py.split "." (a ++ String "." (b ++ String "." c)) = [a; b; c])
    by (rewrite (split_digits_dot a _ Ha), (split_digits_dot b _ Hb), (split_digits c Hc);
        reflexivity).
  split; [exact E|]. unfold components. rewrite E. cbn [fold_right].
  rewrite (int_digits a Ha Ha'), (int_digits b Hb Hb'), (int_digits c Hc Hc').
  reflexivity.
Qed.



(** Where the gate of the Iceberg notebook is right.  On a version of three
    integer pieces with a patch that is not negative, "the gate installs
    2.125.0" and "the version is numerically older than 2.125.0" agree, except
    when the major piece is above 2 and the minor piece below 125. *)
Theorem iceberg_gate_right_unless_major_above_two :
  forall (sm_version major minor patch : string) (ma mi pa : Z),
    Py.split "." sm_version = [major; minor; patch] ->
    Py.int major = inr ma -> Py.int minor = inr mi -> Py.int patch = inr pa ->
    (0 <= pa)%Z ->
    ((iceberg_gate sm_version = inr (PipInstall "sagemaker==2.125.0") <->
      numerically_lt [ma; mi; pa] [2; 125; 0]%Z = true)
     <-> ~ (2 < ma /\ mi < 125)%Z).
Proof.
  intros v major minor patch ma mi pa Hsplit Hma Hmi Hpa Hpos.
  assert (G : iceberg_gate v = inr (PipInstall "sagemaker==2.125.0") <->
              (ma < 2 \/ mi < 125)%Z).
  { unfold iceberg_gate. rewrite Hsplit, Hma, Hmi.
    destruct (Z.ltb_spec ma 2) as [A|A]; [split; [left; exact A | reflexivity]|].
    destruct (Z.ltb_spec mi 125) as [B|B]; [split; [right; exact B | reflexivity]|].
    split; [discriminate | lia]. }
  assert (O : numerically_lt [ma; mi; pa] [2; 125; 0]%Z = true <->
              (ma < 2 \/ (ma = 2 /\ mi < 125))%Z).
  { cbn [numerically_lt].
    destruct (Z.ltb_spec ma 2) as [A|A]; [split; [left; exact A | reflexivity]|].
    destruct (Z.ltb_spec 2 ma) as [B|B]; [split; [discriminate | lia]|].
    destruct (Z.ltb_spec mi 125) as [C|C]; [split; [right; lia | reflexivity]|].
    destruct (Z.ltb_spec 125 mi) as [D|D]; [split; [discriminate | lia]|].
    destruct (Z.ltb_spec pa 0) as [E|E]; [lia|].
    destruct (Z.ltb_spec 0 pa) as [F|F]; split; try discriminate; lia. }
  rewrite G, O. lia.
Qed.

(** The theorem at version 2.124.9. *)
Lemma iceberg_gate_right_unless_major_above_two_witness :
  (iceberg_gate "2.124.9" = inr (PipInstall "sagemaker==2.125.0") <->
   numerically_lt [2; 124; 9]%Z [2; 125; 0]%Z = true)
  <-> ~ (2 < 2 /\ 124 < 125)%Z.
Proof.
  apply (iceberg_gate_right_unless_major_above_two "2.124.9" "2" "124" "9");
    try reflexivity. lia.
Defined.

(** The text comparison of a version of the shape d.dd.d with the pin
    2.48.1, spelled out on character codes. *)
Lemma str_lt_pin_shape (a b1 b2 c : ascii) :
  Py.str_lt (String a (String "." (String b1 (String b2 (String "." (String c ""))))))
            "2.48.1"
  = (let na := nat_of_ascii a in
     let nb1 := nat_of_ascii b1 in
     let nb2 := nat_of_ascii b2 in
     let nc := nat_of_ascii c in
     if (na <? 50)%nat then true else if (50 <? na)%nat then false
     else if (nb1 <? 52)%nat then true else if (52 <? nb1)%nat then false
     else if (nb2 <? 56)%nat then true else if (56 <? nb2)%nat then false
     else if (nc <? 49)%nat then true else false).
Proof.
  cbn [Py.str_lt].
  change (nat_of_ascii "2") with 50. change (nat_of_ascii "4") with 52.
  change (nat_of_ascii "8") with 56. change (nat_of_ascii "1") with 49.
  change (nat_of_ascii ".") with 46. change (46 <? 46)%nat with false.
  cbv zeta iota.
  destruct (nat_of_ascii a <? 50)%nat; [reflexivity|].
  destruct (50 <? nat_of_ascii a)%nat; [reflexivity|].
  destruct (nat_of_ascii b1 <? 52)%nat; [reflexivity|].
  destruct (52 <? nat_of_ascii b1)%nat; [reflexivity|].
  destruct (nat_of_ascii b2 <? 56)%nat; [reflexivity|].
  destruct (56 <? nat_of_ascii b2)%nat; [reflexivity|].
  destruct (nat_of_ascii c <? 49)%nat; [reflexivity|].
  destruct (49 <? nat_of_ascii c)%nat; reflexivity.
Qed.

(** Where the text gate is right.  On every version of the shape of the pin,
    one digit, two digits, one digit, the comparison of texts
    [sagemaker.__version__ < '2.48.1'] decides as the comparison of the
    numbers does: sagemaker==2.48.1 is installed exactly over the versions
    that are numerically older. *)
Theorem sagemaker_gate_right_on_pin_shape :
  forall a b1 b2 c : ascii,
    Py.is_digit a = true -> Py.is_digit b1 = true ->
    Py.is_digit b2 = true -> Py.is_digit c = true ->
    let version :=
      String a (String "." (String b1 (String b2 (String "." (String c ""))))) in
    exists ma mi pa,
      components version = Some [ma; mi; pa] /\
      (sagemaker_gate version = PipInstall "sagemaker==2.48.1" <->
       numerically_lt [ma; mi; pa] [2; 48; 1]%Z = true).
Proof.
  intros a b1 b2 c Ha Hb1 Hb2 Hc version.
  destruct (components_three (String a "") (String b1 (String b2 "")) (String c ""))
    as [_ Hcomp]; try discriminate;
    try (simpl; rewrite ?Ha, ?Hb1, ?Hb2, ?Hc; reflexivity).
  exists (value (String a "")), (value (String b1 (String b2 ""))), (value (String c "")).
  split; [exact Hcomp|].
  unfold sagemaker_gate, version. rewrite str_lt_pin_shape. cbv zeta.
  unfold value. cbn [value_from numerically_lt].
  destruct (digit_value_bounds a Ha) as [_ Ea], (digit_value_bounds b1 Hb1) as [_ Eb1],
    (digit_value_bounds b2 Hb2) as [_ Eb2], (digit_value_bounds c Hc) as [_ Ec].
  rewrite Ea, Eb1, Eb2, Ec.
  apply digit_bounds in Ha, Hb1, Hb2, Hc.
  destruct (Nat.ltb_spec (nat_of_ascii a) 50) as [A1|A1];
    [destruct (Z.ltb_spec (10 * 0 + (Z.of_nat (nat_of_ascii a) - 48)) 2);
       [split; reflexivity | lia]|].
  destruct (Z.ltb_spec (10 * 0 + (Z.of_nat (nat_of_ascii a) - 48)) 2) as [Z1|Z1]; [lia|].
  destruct (Nat.ltb_spec 50 (nat_of_ascii a)) as [A2|A2];
    [destruct (Z.ltb_spec 2 (10 * 0 + (Z.of_nat (nat_of_ascii a) - 48)));
       [split; discriminate | lia]|].
  destruct (Z.ltb_spec 2 (10 * 0 + (Z.of_nat (nat_of_ascii a) - 48))) as [Z2|Z2]; [lia|].
  set (mi := (10 * (10 * 0 + (Z.of_nat (nat_of_ascii b1) - 48))
              + (Z.of_nat (nat_of_ascii b2) - 48))%Z).
  set (pa := (10 * 0 + (Z.of_nat (nat_of_ascii c) - 48))%Z).
  assert (Emi : mi = (10 * (Z.of_nat (nat_of_ascii b1) - 48)
                      + (Z.of_nat (nat_of_ascii b2) - 48))%Z) by (unfold mi; lia).
  assert (Epa : pa = (Z.of_nat (nat_of_ascii c) - 48)%Z) by (unfold pa; lia).
  clearbody mi pa.
  destruct (Nat.ltb_spec (nat_of_ascii b1) 52) as [B1|B1];
    [destruct (Z.ltb_spec mi 48); [split; reflexivity | lia]|].
  destruct (Nat.ltb_spec 52 (nat_of_ascii b1)) as [B2|B2];
    [destruct (Z.ltb_spec mi 48); [lia|];
     destruct (Z.ltb_spec 48 mi); [split; discriminate | lia]|].
  destruct (Nat.ltb_spec (nat_of_ascii b2) 56) as [C1|C1];
    [destruct (Z.ltb_spec mi 48); [split; reflexivity | lia]|].
  destruct (Nat.ltb_spec 56 (nat_of_ascii b2)) as [C2|C2];
    [destruct (Z.ltb_spec mi 48); [lia|];
     destruct (Z.ltb_spec 48 mi); [split; discriminate | lia]|].
  destruct (Z.ltb_spec mi 48); [lia|]. destruct (Z.ltb_spec 48 mi); [lia|].
  destruct (Nat.ltb_spec (nat_of_ascii c) 49) as [D1|D1];
    [destruct (Z.ltb_spec pa 1); [split; reflexivity | lia]|].
  destruct (Z.ltb_spec pa 1); [lia|].
  destruct (Z.ltb_spec 1 pa); split; discriminate.
Qed.

(** The theorem at version 2.47.9. *)
Lemma sagemaker_gate_right_on_pin_shape_witness :
  exists ma mi pa,
    components "2.47.9" = Some [ma; mi; pa] /\
    (sagemaker_gate "2.47.9" = PipInstall "sagemaker==2.48.1" <->
     numerically_lt [ma; mi; pa] [2; 48; 1]%Z = true).
Proof.
  apply (sagemaker_gate_right_on_pin_shape "2" "4" "7" "9"); reflexivity.
Defined.

(** Where the boto3 gate leaves an old version in place.  Every version
    1.d.p with a one-digit minor piece d from 3 to 9 is numerically older
    than 1.24.23, yet [boto3.__version__ < '1.24.23'] does not hold for it,
    so nothing is installed. *)
Theorem boto3_gate_keeps_older_versions :
  forall (d : ascii) (p : string),
    Py.is_digit d = true -> (3 <= Py.digit_value d)%Z ->
    all_digits p = true -> p <> EmptyString ->
    let version := ("1." ++ String d (String "." p))%string in
    boto3_gate version = Keep /\
    exists pa, components version = Some [1%Z; Py.digit_value d; pa] /\
               numerically_lt [1%Z; Py.digit_value d; pa] [1; 24; 23]%Z = true.
Proof.
  intros d p Hd Hge Hp Hne version. split.
  - unfold boto3_gate, version. cbn [append Py.str_lt].
    change (nat_of_ascii "1") with 49. change (nat_of_ascii ".") with 46.
    change (nat_of_ascii "2") with 50. change (49 <? 49)%nat with false.
    change (46 <? 46)%nat with false. cbv iota.
    destruct (digit_value_bounds d Hd) as [_ Ed]. rewrite Ed in Hge.
    destruct (Nat.ltb_spec (nat_of_ascii d) 50) as [A|A]; [lia|].
    destruct (Nat.ltb_spec 50 (nat_of_ascii d)) as [B|B]; [reflexivity | lia].
  - exists (value p).
    destruct (components_three "1" (String d "") p) as [_ Hcomp];
      try discriminate; try assumption; try reflexivity.
    { simpl. rewrite Hd. reflexivity. }
    split.
    + unfold version. cbn [append] in *. rewrite Hcomp. unfold value.
      cbn [value_from]. change (Py.digit_value "1") with 1%Z.
      replace (10 * 0 + Py.digit_value d)%Z with (Py.digit_value d) by lia.
      reflexivity.
    + cbn [numerically_lt]. cbn.
      destruct (digit_value_bounds d Hd) as [[_ Hhi] _].
      destruct (Z.ltb_spec (Py.digit_value d) 24); [reflexivity | lia].
Qed.

(** The theorem at version 1.9.42. *)
Lemma boto3_gate_keeps_older_versions_witness :
  boto3_gate "1.9.42" = Keep /\
  exists pa, components "1.9.42" = Some [1%Z; 9%Z; pa] /\
             numerically_lt [1%Z; 9%Z; pa] [1; 24; 23]%Z = true.
Proof.
  apply (boto3_gate_keeps_older_versions "9" "42"); try reflexivity.
  - vm_compute. discriminate.
  - discriminate.
Defined.

End GateFacts.

(** * What the polling function costs *)

Module PollingCostFacts.
Import Polling PollingCost.
#[local] Open Scope list_scope.

Lemma describes_app (a b : list event) :
  describes (a ++ b) = describes a + describes b.
Proof.
  induction a as [|e a IH]; [reflexivity|]. destruct e; simpl; rewrite IH; reflexivity.
Qed.

Lemma slept_app (a b : list event) : slept (a ++ b) = (slept a + slept b)%Z.
Proof.
  induction a as [|e a IH]; [reflexivity|]. destruct e; simpl; rewrite IH; lia.
Qed.

(** The loop only adds events, one describe() and five seconds of sleep per
    pass. *)
Lemma while_creating_cost (describe_status : nat -> status) (name : string)
    (fuel : nat) :
  forall st w st' w',
    while_creating describe_status name fuel st w = Some (st', w') ->
    exists new,
      trace w' = trace w ++ new /\
      calls w' = calls w + describes new /\
      slept new = (5 * Z.of_nat (describes new))%Z.
Proof.
  induction fuel as [|fuel IH]; intros st w st' w' H; simpl in H.
  - destruct (status_is st "Creating"); [discriminate|].
    injection H as <- <-. exists []. rewrite app_nil_r. simpl. split; [reflexivity|].
    split; [lia | reflexivity].
  - destruct (status_is st "Creating").
    + unfold loop_body, bind, emit, describe in H. simpl in H.
      apply IH in H as [new [Ht [Hc Hs]]]. simpl in Ht, Hc.
      exists ([LogInfo ("Waiting for feature group: " ++ name ++ " to be created ...")%string;
               Sleep 5; Describe] ++ new).
      rewrite Ht, <- !app_assoc. split; [reflexivity|].
      rewrite describes_app, slept_app. simpl describes. simpl slept.
      split; lia.
    + injection H as <- <-. exists []. rewrite app_nil_r. simpl.
      split; [reflexivity|]. split; [lia | reflexivity].
Qed.

(** A run that returns or raises SystemExit, started in any world, leaves
    the earlier events in place and only appends to them; it has made at
    least one describe() call, has advanced the call counter by the number
    of its describe() calls, and has slept five seconds for every describe()
    call after the first. *)
Theorem wait_for_creation_cost :
  forall (describe_status : nat -> status) (name : string) (fuel : nat)
         (w w' : world) (outcome : exn + unit),
    wait_for_feature_group_creation_complete describe_status name fuel w
      = Some (outcome, w') ->
    exists new,
      trace w' = trace w ++ new /\
      1 <= describes new /\
      calls w' = calls w + describes new /\
      slept new = (5 * (Z.of_nat (describes new) - 1))%Z.
Proof.
  intros ds name fuel w w' outcome H.
  unfold wait_for_feature_group_creation_complete, describe, emit in H. simpl in H.
  destruct (while_creating ds name fuel (ds (calls w)) _) as [[st w3]|] eqn:E;
    [|discriminate].
  apply while_creating_cost in E as [new [Ht [Hc Hs]]]. simpl in Ht, Hc.
  unfold finish in H.
  destruct (negb (status_is st "Created")).
  - unfold ret in H. injection H as <- <-.
    exists ([Describe; Print ("Initial status: " ++ fmt_status (ds (calls w)))%string]
            ++ new).
    rewrite Ht, <- !app_assoc. split; [reflexivity|].
    rewrite describes_app, slept_app. simpl describes. simpl slept.
    split; [lia|]. split; lia.
  - unfold bind, emit, ret in H. simpl in H. injection H as <- <-.
    cbn [calls trace].
    exists ([Describe; Print ("Initial status: " ++ fmt_status (ds (calls w)))%string]
            ++ new
            ++ [LogInfo ("FeatureGroup " ++ name ++ " was successfully created.")%string]).
    rewrite Ht, <- !app_assoc. split; [reflexivity|].
    rewrite !describes_app, !slept_app. simpl describes. simpl slept.
    split; [lia|]. split; lia.
Qed.

(** The theorem at the service that answers 'Created' at the third call. *)
Lemma wait_for_creation_cost_witness :
  exists new,
    [Describe; Print "Initial status: Creating"] ++ passes "orders" 2 ++
      [LogInfo "FeatureGroup orders was successfully created."] = [] ++ new /\
    1 <= describes new /\
    3 = 0 + describes new /\
    slept new = (5 * (Z.of_nat (describes new) - 1))%Z.
Proof.
  exact (wait_for_creation_cost created_at_third_call "orders" 5 init
           (mkWorld 3
              ([Describe; Print "Initial status: Creating"] ++ passes "orders" 2 ++
               [LogInfo "FeatureGroup orders was successfully created."]))
           (inr tt) eq_refl).
Defined.

End PollingCostFacts.

(** * Facts about the name of the Iceberg feature group *)

Module GroupNameFacts.
Import Decimal GroupName.

Lemma digit_char_injective (a b : nat) :
  a < 10 -> b < 10 -> digit_char a = digit_char b -> a = b.
Proof.
  intros Ha Hb H. unfold digit_char in H.
  apply (f_equal nat_of_ascii) in H.
  rewrite !nat_ascii_embedding in H by lia. lia.
Qed.

Lemma two_digits_injective (n m : nat) :
  n < 100 -> m < 100 -> two_digits n = two_digits m -> n = m.
Proof.
  intros Hn Hm H. unfold two_digits in H.
  assert (H1 : digit_char (n / 10) = digit_char (m / 10)).
  { revert H. generalize (digit_char (n / 10)) (digit_char (m / 10))
      (digit_char (n mod 10)) (digit_char (m mod 10)).
    intros c1 c2 c3 c4 H. injection H as -> _. reflexivity. }
  assert (H2 : digit_char (n mod 10) = digit_char (m mod 10)).
  { revert H. generalize (digit_char (n / 10)) (digit_char (m / 10))
      (digit_char (n mod 10)) (digit_char (m mod 10)).
    intros c1 c2 c3 c4 H. injection H as _ ->. reflexivity. }
  apply digit_char_injective in H1;
    [| apply Nat.Div0.div_lt_upper_bound; lia | apply Nat.Div0.div_lt_upper_bound; lia].
  apply digit_char_injective in H2;
    [| apply Nat.mod_upper_bound; lia | apply Nat.mod_upper_bound; lia].
  rewrite (Nat.div_mod_eq n 10), (Nat.div_mod_eq m 10). lia.
Qed.

Lemma two_digits_app_injective (a b : nat) (x y : string) :
  two_digits a ++ x = two_digits b ++ y -> two_digits a = two_digits b /\ x = y.
Proof.
  unfold two_digits. cbn [append].
  generalize (digit_char (a / 10)) (digit_char (b / 10))
    (digit_char (a mod 10)) (digit_char (b mod 10)).
  intros c1 c2 c3 c4 H. injection H as -> -> ->. split; reflexivity.
Qed.

Lemma append_injective_l (p x y : string) : p ++ x = p ++ y -> x = y.
Proof.
  induction p as [|c p IH]; simpl; [trivial|]. intros H. injection H as H. auto.
Qed.

Lemma digit_char_name_char (a : nat) : a < 10 -> name_char (digit_char a) = true.
Proof.
  intros Ha. unfold name_char, digit_char. cbv zeta.
  rewrite nat_ascii_embedding by lia.
  destruct (Nat.leb_spec 48 (48 + a)); [|lia].
  destruct (Nat.leb_spec (48 + a) 57); [reflexivity | lia].
Qed.

Lemma two_digits_name_chars (n : nat) (rest : string) :
  n < 100 ->
  all_name_chars (two_digits n ++ rest) = all_name_chars rest.
Proof.
  intros Hn. unfold two_digits. cbn [append all_name_chars].
  rewrite !digit_char_name_char;
    [reflexivity | apply Nat.mod_upper_bound; lia | apply Nat.Div0.div_lt_upper_bound; lia].
Qed.

(** The name is always 40 characters long, well under the 64 a feature
    group name may have, and for a time that [gmtime()] can return it is
    made of letters, digits and hyphens only. *)
Theorem iceberg_name_is_well_formed :
  forall now : struct_time,
    String.length (orders_feature_group_iceberg_name now) = 40 /\
    (valid_time now -> all_name_chars (orders_feature_group_iceberg_name now) = true).
Proof.
  intros now. split; [reflexivity|].
  intros [_ [Hd [Hh [Hm Hs]]]].
  unfold orders_feature_group_iceberg_name, strftime_d_H_M_S.
  cbn [append all_name_chars].
  change (name_char "o") with true. change (name_char "r") with true.
  change (name_char "d") with true. change (name_char "e") with true.
  change (name_char "s") with true. change (name_char "-") with true.
  change (name_char "f") with true. change (name_char "a") with true.
  change (name_char "t") with true. change (name_char "u") with true.
  change (name_char "g") with true. change (name_char "p") with true.
  change (name_char "i") with true. change (name_char "c") with true.
  change (name_char "b") with true. cbn [andb].
  rewrite two_digits_name_chars by lia. cbn [append all_name_chars].
  change (name_char "-") with true. cbn [andb].
  rewrite two_digits_name_chars by lia. cbn [append all_name_chars].
  change (name_char "-") with true. cbn [andb].
  rewrite two_digits_name_chars by lia. cbn [append all_name_chars].
  change (name_char "-") with true. cbn [andb].
  rewrite <- (StringFacts.append_empty_r (two_digits (tm_sec now))).
  rewrite two_digits_name_chars by lia. reflexivity.
Qed.

(** The theorem at 4 May 2023, 07:30:09. *)
Lemma iceberg_name_is_well_formed_witness :
  valid_time (mkTime 2023 5 4 7 30 9) /\
  all_name_chars (orders_feature_group_iceberg_name (mkTime 2023 5 4 7 30 9)) = true.
Proof.
  assert (H : valid_time (mkTime 2023 5 4 7 30 9)) by (unfold valid_time; simpl; lia).
  split; [exact H|].
  apply (proj2 (iceberg_name_is_well_formed (mkTime 2023 5 4 7 30 9)) H).
Defined.

(** Two times that [gmtime()] can return give the same name exactly when
    they agree on the day of the month, the hour, the minute and the second:
    the name tells creations of one month apart, and repeats from one month
    or year to the next. *)
Theorem iceberg_name_collides_across_months :
  forall t1 t2 : struct_time,
    valid_time t1 -> valid_time t2 ->
    (orders_feature_group_iceberg_name t1 = orders_feature_group_iceberg_name t2 <->
     tm_mday t1 = tm_mday t2 /\ tm_hour t1 = tm_hour t2 /\
     tm_min t1 = tm_min t2 /\ tm_sec t1 = tm_sec t2).
Proof.
  intros t1 t2 [_ [Hd1 [Hh1 [Hm1 Hs1]]]] [_ [Hd2 [Hh2 [Hm2 Hs2]]]]. split.
  - intros H. unfold orders_feature_group_iceberg_name, strftime_d_H_M_S in H.
    apply append_injective_l in H.
    apply two_digits_app_injective in H as [D H]. apply (append_injective_l "-") in H.
    apply two_digits_app_injective in H as [Hh H]. apply (append_injective_l "-") in H.
    apply two_digits_app_injective in H as [Hm H]. apply (append_injective_l "-") in H.
    repeat split; apply two_digits_injective; try lia; assumption.
  - intros [Hd [Hh [Hm Hs]]].
    unfold orders_feature_group_iceberg_name, strftime_d_H_M_S.
    rewrite Hd, Hh, Hm, Hs. reflexivity.
Qed.

(** The theorem at the same day, hour, minute and second of May and June. *)
Lemma iceberg_name_collides_across_months_witness :
  orders_feature_group_iceberg_name (mkTime 2023 5 4 7 30 9) =
  orders_feature_group_iceberg_name (mkTime 2023 6 4 7 30 9).
Proof.
  apply (proj2 (iceberg_name_collides_across_months
                  (mkTime 2023 5 4 7 30 9) (mkTime 2023 6 4 7 30 9)
                  ltac:(unfold valid_time; simpl; lia)
                  ltac:(unfold valid_time; simpl; lia))).
  repeat split.
Defined.

End GroupNameFacts.

(** * Facts about list_s3_files *)

Module S3ListingFacts.
Import S3Listing.
#[local] Open Scope list_scope.

Lemma prefix_empty (s : string) : String.prefix "" s = true.
Proof. destruct s; reflexivity. Qed.

Lemma prefix_append (p s : string) :
  String.prefix p s = true <-> exists suffix, s = (p ++ suffix)%string.
Proof.
  revert s. induction p as [|c p IH]; intros s.
  - split; [intros _; exists s; reflexivity | intros _; apply prefix_empty].
  - destruct s as [|c' s]; simpl.
    + split; [discriminate | intros [x Hx]; discriminate Hx].
    + destruct (Ascii.ascii_dec c c') as [->|Hne].
      * rewrite IH. split; intros [x Hx]; exists x; congruence.
      * split; [discriminate | intros [x Hx]; congruence].
Qed.

Section Listing.

Variable urlparse : string -> parse_result.
Variable bucket_keys : string -> list string.

Lemma list_s3_files_keys (s3uri : string) :
  list_s3_files urlparse bucket_keys s3uri =
  map (mkFile (netloc (urlparse s3uri)))
      (filter (String.prefix (from_second (path (urlparse s3uri))))
              (bucket_keys (netloc (urlparse s3uri)))).
Proof.
  unfold list_s3_files, objects_filter. cbv zeta. rewrite map_map. reflexivity.
Qed.

End Listing.

(** What is listed.  A file is in the listing exactly when it belongs to the
    bucket named by the URI's network location and its key is a key of that
    bucket that begins with the URI's path without its first character:
    whatever follows the prefix, a slash or not.  The keys come in the
    bucket's listing order. *)
Theorem list_s3_files_lists_keys_with_prefix :
  forall (urlparse : string -> parse_result) (bucket_keys : string -> list string)
         (s3uri : string),
    let bucket := netloc (urlparse s3uri) in
    let prefix := from_second (path (urlparse s3uri)) in
    (forall f,
       In f (list_s3_files urlparse bucket_keys s3uri) <->
       bucket_name f = bucket /\ In (key f) (bucket_keys bucket) /\
       exists suffix, key f = (prefix ++ suffix)%string) /\
    map key (list_s3_files urlparse bucket_keys s3uri) =
      filter (String.prefix prefix) (bucket_keys bucket).
Proof.
  intros urlparse bucket_keys s3uri bucket prefix.
  rewrite list_s3_files_keys. fold bucket. fold prefix. split.
  - intros f. rewrite in_map_iff. split.
    + intros [k [<- Hk]]. apply filter_In in Hk as [Hin Hp].
      apply prefix_append in Hp. simpl. auto.
    + intros [Hb [Hin Hs]]. exists (key f). split.
      * destruct f as [b k]. simpl in *. subst b. reflexivity.
      * apply filter_In. split; [exact Hin | apply prefix_append; exact Hs].
  - rewrite map_map. simpl. apply map_id.
Qed.

(** The edges of the listing.  A URI whose path is empty or a single
    character (a bare [s3://bucket] or [s3://bucket/]) lists every object of
    the bucket; and when no key has the prefix the listing is empty, so taking
    its first element raises IndexError. *)
Theorem list_s3_files_edges :
  forall (urlparse : string -> parse_result) (bucket_keys : string -> list string)
         (s3uri : string),
    let bucket := netloc (urlparse s3uri) in
    let prefix := from_second (path (urlparse s3uri)) in
    (String.length (path (urlparse s3uri)) <= 1 ->
     map key (list_s3_files urlparse bucket_keys s3uri) = bucket_keys bucket) /\
    ((forall k, In k (bucket_keys bucket) -> String.prefix prefix k = false) <->
     first_output_file urlparse bucket_keys s3uri = inl IndexError).
Proof.
  intros urlparse bucket_keys s3uri bucket prefix. split.
  - intros Hlen.
    rewrite list_s3_files_keys, map_map. simpl. rewrite map_id.
    assert (E : from_second (path (urlparse s3uri)) = EmptyString).
    { destruct (path (urlparse s3uri)) as [|c [|c' p]]; simpl in *; try reflexivity; lia. }
    rewrite E. fold bucket. induction (bucket_keys bucket) as [|k l IH]; [reflexivity|].
    simpl. rewrite prefix_empty, IH. reflexivity.
  - unfold first_output_file, Py.index. rewrite list_s3_files_keys.
    fold bucket. fold prefix. split.
    + intros Hnone.
      assert (E : filter (String.prefix prefix) (bucket_keys bucket) = []).
      { induction (bucket_keys bucket) as [|k l IH]; [reflexivity|]. simpl.
        rewrite (Hnone k (or_introl eq_refl)). apply IH.
        intros k' Hk'. apply Hnone. right. exact Hk'. }
      rewrite E. reflexivity.
    + intros H k Hk.
      destruct (String.prefix prefix k) eqn:E; [|reflexivity].
      assert (Hin : In k (filter (String.prefix prefix) (bucket_keys bucket)))
        by (apply filter_In; auto).
      destruct (filter (String.prefix prefix) (bucket_keys bucket)); [destruct Hin|].
      discriminate H.
Qed.

(** The theorem at a bare bucket URI, on the sample bucket. *)
Lemma list_s3_files_edges_witness :
  String.length (path (sample_urlparse "s3://workshop")) <= 1 /\
  map key (list_s3_files sample_urlparse sample_bucket_keys "s3://workshop")
    = sample_bucket_keys "workshop".
Proof.
  assert (H : String.length (path (sample_urlparse "s3://workshop")) <= 1)
    by (vm_compute; repeat constructor).
  split; [exact H|].
  apply (proj1 (list_s3_files_edges sample_urlparse sample_bucket_keys "s3://workshop") H).
Defined.

End S3ListingFacts.

(** * Facts about the cells from the feature groups to the query *)

Module PipelineFacts.
Import Pandas PandasFacts FeatureSets FeatureSetFacts Pipeline.
#[local] Open Scope list_scope.

Section Groups.

Variable describe_feature_group : string -> FeatureGroupDescription.
Variable exclude_fsets : option (list string).

Lemma frame_of_definitions_holds (definitions : list FeatureDefinition) :
  holds (frame_of_definitions exclude_fsets definitions)
        (filter (kept exclude_fsets) definitions).
Proof.
  destruct definitions as [|fd l]; [left; split; reflexivity | right; reflexivity].
Qed.

Lemma group_frame_exact (fg : FeatureGroupDescription) :
  (truthy exclude_fsets = true -> definitions_of describe_feature_group fg <> []) ->
  group_frame describe_feature_group exclude_fsets fg =
  inr (frame_of_definitions exclude_fsets (definitions_of describe_feature_group fg)).
Proof.
  intros Hne. unfold group_frame. fold (definitions_of describe_feature_group fg).
  destruct (definitions_of describe_feature_group fg) as [|fd l] eqn:E.
  - destruct exclude_fsets as [[|x e]|]; [reflexivity | | reflexivity].
    exfalso. apply Hne; reflexivity.
  - rewrite from_records_definitions. unfold frame_of_definitions.
    destruct (truthy exclude_fsets) eqn:T.
    + destruct exclude_fsets as [[|x e]|]; try discriminate.
      unfold getattr, column_values. cbn [columns rows definition_columns position].
      cbn [String.eqb Ascii.eqb Bool.eqb]. cbn [bind].
      unfold filter_rows. cbn [columns rows]. f_equal. f_equal.
      apply select_by_definitions. rewrite !map_map. reflexivity.
    + rewrite (kept_all exclude_fsets T).
      destruct exclude_fsets as [[|x e]|]; try discriminate; reflexivity.
Qed.

Lemma for_each_group_frame_exact (fg_list : list FeatureGroupDescription) :
  (truthy exclude_fsets = true ->
   Forall (fun fg => definitions_of describe_feature_group fg <> []) fg_list) ->
  for_each (group_frame describe_feature_group exclude_fsets) fg_list =
  inr (map (fun fg => frame_of_definitions exclude_fsets
                        (definitions_of describe_feature_group fg))
           fg_list).
Proof.
  induction fg_list as [|fg fg_list IH]; intros Hne; [reflexivity|].
  simpl. rewrite group_frame_exact, IH; [reflexivity | |].
  - intros T. specialize (Hne T). inversion Hne; assumption.
  - intros T. specialize (Hne T). inversion Hne; assumption.
Qed.

Lemma frames_hold (fg_list : list FeatureGroupDescription) :
  Forall2 holds
    (map (fun fg => frame_of_definitions exclude_fsets
                      (definitions_of describe_feature_group fg))
         fg_list)
    (map (fun fg => filter (kept exclude_fsets)
                           (definitions_of describe_feature_group fg))
         fg_list).
Proof.
  induction fg_list as [|fg fg_list IH]; simpl; constructor;
    [apply frame_of_definitions_holds | exact IH].
Qed.

Lemma all_frames_empty (fg_list : list FeatureGroupDescription) :
  Forall (fun df => df = empty_frame)
         (map (fun fg => frame_of_definitions exclude_fsets
                           (definitions_of describe_feature_group fg))
              fg_list) ->
  all_definitions describe_feature_group fg_list = [].
Proof.
  unfold all_definitions. induction fg_list as [|fg fg_list IH]; [reflexivity|].
  simpl. intros H. inversion H as [|? ? Hfg Hrest]; subst.
  rewrite (IH Hrest), app_nil_r.
  destruct (definitions_of describe_feature_group fg); [reflexivity | discriminate Hfg].
Qed.

Lemma no_definitions_no_columns (fg_list : list FeatureGroupDescription) :
  all_definitions describe_feature_group fg_list = [] ->
  union_columns
    (map (fun fg => frame_of_definitions exclude_fsets
                      (definitions_of describe_feature_group fg))
         fg_list) = [].
Proof.
  unfold all_definitions, union_columns.
  induction fg_list as [|fg fg_list IH]; [reflexivity|].
  simpl. intros H. apply app_eq_nil in H as [H1 H2]. rewrite H1. simpl.
  apply IH. exact H2.
Qed.

(** The frame [generate_fsets] returns when some group has a definition. *)
Lemma generate_fsets_frame (fg_list : list FeatureGroupDescription) :
  (truthy exclude_fsets = true ->
   Forall (fun fg => definitions_of describe_feature_group fg <> []) fg_list) ->
  all_definitions describe_feature_group fg_list <> [] ->
  generate_fsets describe_feature_group fg_list exclude_fsets =
  inr (mkFrame definition_columns
         (map definition_row
              (filter (kept exclude_fsets)
                      (all_definitions describe_feature_group fg_list)))).
Proof.
  intros Hne Hsome. unfold generate_fsets.
  rewrite (for_each_group_frame_exact fg_list Hne). cbn [bind].
  set (objs := map _ fg_list).
  assert (E : concat objs =
              inr (mkFrame (union_columns objs)
                     (flat_map (fun df => map (fun row => map (cell_at (columns df) row)
                                                              (union_columns objs))
                                              (rows df))
                               objs))).
  { destruct fg_list; [exfalso; apply Hsome; reflexivity | reflexivity]. }
  rewrite E.
  destruct (union_columns_holds objs _ (frames_hold fg_list)) as [Hc|[_ Hempty]].
  - rewrite Hc, (stacked_rows objs _ (frames_hold fg_list)), kept_flat_map.
    reflexivity.
  - exfalso. apply Hsome. apply all_frames_empty. exact Hempty.
Qed.

End Groups.

Lemma feature_name_cells (l : list FeatureDefinition) :
  getattr "FeatureName" (mkFrame definition_columns (map definition_row l)) =
  inr (map (fun fd => Some (JStr (FeatureName fd))) l).
Proof.
  unfold getattr, column_values. cbn. rewrite map_map. reflexivity.
Qed.

(** The feature names the notebook reads back.  When some group has a
    feature definition, [features_names] are the names of the definitions
    of the orders, customers and products groups, in this order, without the
    excluded ones (possibly none at all).  When no group has one, the frame
    has no FeatureName column and the cell raises AttributeError. *)
Theorem features_names_are_the_kept_names :
  forall (describe_feature_group : string -> FeatureGroupDescription)
         (customers_fg products_fg orders_fg : feature_group)
         (exclude_fsets : option (list string)),
    let fg_list :=
      [description orders_fg; description customers_fg; description products_fg] in
    ((truthy exclude_fsets = true ->
      Forall (fun fg => definitions_of describe_feature_group fg <> []) fg_list) ->
     all_definitions describe_feature_group fg_list <> [] ->
     features_names describe_feature_group customers_fg products_fg orders_fg
                    exclude_fsets
     = inr (map (fun fd => Some (JStr (FeatureName fd)))
                (filter (kept exclude_fsets)
                        (all_definitions describe_feature_group fg_list)))) /\
    (all_definitions describe_feature_group fg_list = [] ->
     features_names describe_feature_group customers_fg products_fg orders_fg
                    exclude_fsets
     = inl (AttributeError "FeatureName")).
Proof.
  intros describe customers products orders exclude fg_list. split.
  - intros Hne Hsome. unfold features_names. fold fg_list.
    rewrite (generate_fsets_frame describe exclude fg_list Hne Hsome). cbn [bind].
    apply feature_name_cells.
  - intros Hnone. unfold all_definitions, fg_list in Hnone. simpl in Hnone.
    apply app_eq_nil in Hnone as [H1 Hnone]. apply app_eq_nil in Hnone as [H2 Hnone].
    rewrite app_nil_r in Hnone. unfold definitions_of in H1, H2, Hnone.
    unfold features_names, generate_fsets, group_frame. cbn [for_each].
    rewrite H1, H2, Hnone.
    destruct exclude as [[|x e]|]; reflexivity.
Qed.

(** The theorem at the sample service and the exclusion list of the
    notebook. *)
Lemma features_names_are_the_kept_names_witness :
  features_names sample_describe
    (sample_group "customers" "customer_id" "customers-1")
    (sample_group "products" "product_id" "products-1")
    (sample_group "orders" "order_id" "orders-1")
    (Some ["customer_id"; "product_id"; "order_id"; "event_time";
           "purchase_amount"; "n_days_since_last_purchase"]%string)
  = inr [Some (JStr "is_reordered"); Some (JStr "age_18-29");
         Some (JStr "category_baby")].
Proof.
  apply (proj1 (features_names_are_the_kept_names sample_describe
                  (sample_group "customers" "customer_id" "customers-1")
                  (sample_group "products" "product_id" "products-1")
                  (sample_group "orders" "order_id" "orders-1")
                  (Some ["customer_id"; "product_id"; "order_id"; "event_time";
                         "purchase_amount"; "n_days_since_last_purchase"]%string))).
  - intros _. repeat constructor; discriminate.
  - discriminate.
Defined.

(** From the feature groups to the query.  When at least one feature
    definition survives the exclusion, the query text the notebook builds is
    the text of the batch query whose select list is the orders record
    identifier followed by the surviving feature names, in the order orders,
    customers, products. *)
Theorem notebook_query_selects_the_kept_names :
  forall (describe_feature_group : string -> FeatureGroupDescription)
         (str : cell -> string)
         (customers_fg products_fg orders_fg : feature_group)
         (exclude_fsets : option (list string)),
    let fg_list :=
      [description orders_fg; description customers_fg; description products_fg] in
    let names :=
      map FeatureName
          (filter (kept exclude_fsets)
                  (all_definitions describe_feature_group fg_list)) in
    (forall s, str (Some (JStr s)) = s) ->
    (truthy exclude_fsets = true ->
     Forall (fun fg => definitions_of describe_feature_group fg <> []) fg_list) ->
    names <> [] ->
    notebook_query describe_feature_group str customers_fg products_fg orders_fg
                   exclude_fsets
    = inr (Athena.render
             (Athena.batch_query
                (RecordIdentifierFeatureName customers_fg)
                (RecordIdentifierFeatureName products_fg)
                (RecordIdentifierFeatureName orders_fg)
                (EventTimeFeatureName customers_fg)
                (EventTimeFeatureName products_fg)
                (EventTimeFeatureName orders_fg)
                (TableName customers_fg) (TableName products_fg) (TableName orders_fg)
                names)).
Proof.
  intros describe str customers products orders exclude fg_list names Hstr Hne Hnames.
  assert (Hsome : all_definitions describe fg_list <> []).
  { intros E. apply Hnames. unfold names. rewrite E. reflexivity. }
  unfold notebook_query, features_names. fold fg_list.
  rewrite (generate_fsets_frame describe exclude fg_list Hne Hsome). cbn [bind].
  rewrite feature_name_cells. cbn [bind]. f_equal.
  rewrite map_map.
  assert (E : map (fun fd => str (Some (JStr (FeatureName fd))))
                  (filter (kept exclude) (all_definitions describe fg_list)) = names).
  { unfold names. apply map_ext. intros fd. apply Hstr. }
  rewrite E. destruct names as [|f rest]; [contradiction|].
  apply AthenaFacts.query_string_render_cons.
Qed.

(** The theorem at the sample service and the exclusion list of the
    notebook. *)
Lemma notebook_query_selects_the_kept_names_witness :
  notebook_query sample_describe sample_str
    (sample_group "customers" "customer_id" "customers-1")
    (sample_group "products" "product_id" "products-1")
    (sample_group "orders" "order_id" "orders-1")
    (Some ["customer_id"; "product_id"; "order_id"; "event_time"]%string)
  = inr (Athena.render
           (Athena.batch_query "customer_id" "product_id" "order_id"
              "event_time" "event_time" "event_time"
              "customers-1" "products-1" "orders-1"
              ["is_reordered"; "age_18-29"; "category_baby"]%string)).
Proof.
  apply (notebook_query_selects_the_kept_names sample_describe sample_str
           (sample_group "customers" "customer_id" "customers-1")
           (sample_group "products" "product_id" "products-1")
           (sample_group "orders" "order_id" "orders-1")
           (Some ["customer_id"; "product_id"; "order_id"; "event_time"]%string)).
  - reflexivity.
  - intros _. repeat constructor; discriminate.
  - discriminate.
Defined.

End PipelineFacts.

(** * Facts about the frame for retraining *)

Module RetrainFacts.
Import Pandas PandasFacts UpdateFacts Retrain.
#[local] Open Scope list_scope.

(** Dropping labels that are all there. *)
Lemma drop_present (labels : list string) (df : DataFrame) :
  (forall l, In l labels -> In l (columns df)) ->
  drop labels df =
  inr (mkFrame (filter (fun c => negb (Py.mem c labels)) (columns df))
               (map (select_by (map (fun c => negb (Py.mem c labels)) (columns df)))
                    (rows df))).
Proof.
  intros Hall. unfold drop.
  assert (E : filter (fun l => negb (Py.mem l (columns df))) labels = []).
  { induction labels as [|l labels IH]; [reflexivity|]. simpl.
    assert (Hl : Py.mem l (columns df) = true)
      by (apply mem_In, Hall; left; reflexivity).
    rewrite Hl. apply IH. intros l' Hl'. apply Hall. right. exact Hl'. }
  rewrite E, select_by_map. reflexivity.
Qed.

(** Dropping with a label that is not there raises KeyError for one. *)
Lemma drop_missing (labels : list string) (df : DataFrame) :
  (exists l, In l labels /\ ~ In l (columns df)) ->
  exists l, In l labels /\ ~ In l (columns df) /\ drop labels df = inl (KeyError l).
Proof.
  intros [l [Hl Hnot]]. unfold drop.
  destruct (filter (fun l => negb (Py.mem l (columns df))) labels) as [|m rest] eqn:E.
  - exfalso. assert (Hin : In l (filter (fun l => negb (Py.mem l (columns df))) labels)).
    { apply filter_In. split; [exact Hl|]. apply mem_not_In in Hnot. rewrite Hnot.
      reflexivity. }
    rewrite E in Hin. exact Hin.
  - assert (Hin : In m (filter (fun l => negb (Py.mem l (columns df))) labels))
      by (rewrite E; left; reflexivity).
    apply filter_In in Hin as [Hm Hmem]. exists m. split; [exact Hm|].
    split; [|reflexivity]. apply mem_not_In.
    destruct (Py.mem m (columns df)); [discriminate | reflexivity].
Qed.

(** Keeping the cells under the labels that pass a test keeps the cell
    under each such label. *)
Lemma cell_at_filter (kp : string -> bool) (cols : list string) (row : list cell)
    (c : string) :
  List.length row = List.length cols ->
  kp c = true ->
  cell_at (filter kp cols) (select_by (map kp cols) row) c = cell_at cols row c.
Proof.
  revert row. induction cols as [|c' cols IH]; intros row Hlen Hc.
  - destruct row; reflexivity.
  - destruct row as [|x row]; [discriminate|]. simpl.
    destruct (kp c') eqn:E.
    + rewrite !cell_at_cons. destruct (String.eqb c c'); [reflexivity|].
      apply IH; [simpl in Hlen; lia | exact Hc].
    + rewrite cell_at_cons. destruct (String.eqb_spec c c') as [->|Hne]; [congruence|].
      apply IH; [simpl in Hlen; lia | exact Hc].
Qed.

Lemma select_by_nil {A} (mask : list bool) : select_by mask (@nil A) = [].
Proof. destruct mask as [|[] mask]; reflexivity. Qed.

Lemma select_by_twice {A} (k1 k2 : string -> bool) (cols : list string) (row : list A) :
  select_by (map k2 (filter k1 cols)) (select_by (map k1 cols) row) =
  select_by (map (fun c => k1 c && k2 c) cols) row.
Proof.
  revert row. induction cols as [|c cols IH]; intros row; [destruct row; reflexivity|].
  destruct row as [|x row].
  - rewrite !select_by_nil. reflexivity.
  - simpl. destruct (k1 c); simpl; [destruct (k2 c)|]; rewrite IH; reflexivity.
Qed.

Lemma filter_twice (k1 k2 : string -> bool) (cols : list string) :
  filter k2 (filter k1 cols) = filter (fun c => k1 c && k2 c) cols.
Proof.
  induction cols as [|c cols IH]; [reflexivity|]. simpl.
  destruct (k1 c); simpl; [destruct (k2 c)|]; rewrite IH; reflexivity.
Qed.

Lemma select_by_row_length (kp : string -> bool) (cols : list string) (row : list cell) :
  List.length row = List.length cols ->
  List.length (select_by (map kp cols) row) = List.length (filter kp cols).
Proof.
  revert row. induction cols as [|c cols IH]; intros row Hlen.
  - destruct row; reflexivity.
  - destruct row as [|x row]; [discriminate|]. simpl.
    destruct (kp c); simpl; rewrite IH; simpl in Hlen; lia.
Qed.

(** A label that occurs once has one position. *)
Lemma positions_single (label : string) (cols : list string) :
  NoDup cols -> In label cols ->
  forall k, exists i, position label cols = Some i /\
                      positions_from k label cols = [k + i].
Proof.
  induction cols as [|c cols IH]; intros Hnd Hin k; [destruct Hin|].
  inversion Hnd as [|? ? Hnotin Hnd']; subst. simpl.
  destruct (String.eqb_spec label c) as [->|Hne].
  - exists 0. split; [reflexivity|]. rewrite Nat.add_0_r. f_equal.
    clear - Hnotin. revert k. induction cols as [|c' cols IH]; intros k; [reflexivity|].
    simpl. destruct (String.eqb_spec c c') as [->|Hne];
      [exfalso; apply Hnotin; left; reflexivity|].
    apply IH. intros H. apply Hnotin. right. exact H.
  - destruct Hin as [Hin|Hin]; [congruence|].
    destruct (IH Hnd' Hin (S k)) as [i [Hp Hps]]. exists (S i). rewrite Hp, Hps.
    split; [reflexivity|]. f_equal. lia.
Qed.

Lemma positions_none (label : string) (cols : list string) :
  ~ In label cols -> forall k, positions_from k label cols = [].
Proof.
  induction cols as [|c cols IH]; intros Hnot k; [reflexivity|]. simpl.
  destruct (String.eqb_spec label c) as [->|Hne];
    [exfalso; apply Hnot; left; reflexivity|].
  apply IH. intros H. apply Hnot. right. exact H.
Qed.

Lemma combine_maps {A B C} (f : A -> B) (g : A -> C) (l : list A) :
  combine (map f l) (map g l) = map (fun x => (f x, g x)) l.
Proof. induction l as [|x l IH]; [reflexivity|]. simpl. rewrite IH. reflexivity. Qed.

Lemma insert_front (label : string) (v : list cell) (df : DataFrame) :
  ~ In label (columns df) ->
  List.length v = nrows df ->
  insert 0 label [v] df =
  inr (mkFrame (label :: columns df)
               (map (fun rv => snd rv :: fst rv) (combine (rows df) v))).
Proof.
  intros Hnot Hlen. unfold insert. apply mem_not_In in Hnot. rewrite Hnot.
  assert (Hbase : (if (nrows df =? 0)%nat
                   then map (fun _ => map (fun _ => @None json) (columns df)) v
                   else rows df) = rows df).
  { destruct (Nat.eqb_spec (nrows df) 0) as [E|E]; [|reflexivity].
    unfold nrows in *. rewrite E in Hlen.
    destruct v; [|discriminate]. destruct (rows df); [reflexivity | discriminate]. }
  rewrite Hbase. unfold nrows in Hlen. rewrite Hlen, Nat.eqb_refl. reflexivity.
Qed.

Section Joined.

Variable joined_df : DataFrame.

Hypothesis rectangular :
  Forall (fun row => List.length row = List.length (columns joined_df))
         (rows joined_df).
Hypothesis distinct_columns : NoDup (columns joined_df).
Hypothesis dropped_present :
  forall l, In l dropped_columns -> In l (columns joined_df).
Hypothesis target_present : In "is_reordered"%string (columns joined_df).

Lemma model_df_frame :
  model_df_of joined_df =
  inr (mkFrame ("is_reordered"%string :: filter feature_column (columns joined_df))
               (map (model_row (columns joined_df)) (rows joined_df))).
Proof.
  unfold model_df_of. rewrite (drop_present _ _ dropped_present). cbn [bind].
  set (k1 := fun c => negb (Py.mem c dropped_columns)).
  set (k2 := fun c => negb (String.eqb c "is_reordered")).
  set (cols := columns joined_df). set (cols1 := filter k1 cols).
  set (rows1 := map (select_by (map k1 cols)) (rows joined_df)).
  assert (Hin1 : In "is_reordered"%string cols1)
    by (apply filter_In; split; [exact target_present | reflexivity]).
  assert (Hnd1 : NoDup cols1) by (apply NoDup_filter; exact distinct_columns).
  destruct (positions_single "is_reordered" cols1 Hnd1 Hin1 0) as [i [Hpos Hposs]].
  unfold pop, columns_named. cbn [columns rows]. rewrite Hposs. cbn [map bind fst snd].
  rewrite select_by_map.
  rewrite insert_front.
  - cbn [columns rows]. f_equal. f_equal.
    + f_equal. unfold cols1. fold k2. rewrite filter_twice. reflexivity.
    + fold k2. rewrite combine_maps, map_map. unfold rows1. rewrite map_map.
      apply map_ext_in. intros row Hrow. cbn [fst snd]. unfold model_row. f_equal.
      * rewrite Forall_forall in rectangular.
        rewrite <- (cell_at_filter k1 cols row "is_reordered" (rectangular row Hrow) eq_refl).
        fold cols1. unfold cell_at. rewrite Hpos. reflexivity.
      * apply select_by_twice.
  - cbn [columns]. intros H. apply filter_In in H as [_ H].
    rewrite String.eqb_refl in H. discriminate H.
  - unfold nrows. cbn [rows]. rewrite !length_map. reflexivity.
Qed.

End Joined.

(** The frame for retraining.  On a joined frame with distinct column
    labels that has the nineteen columns to drop and the target
    is_reordered, the cells succeed: the target becomes the first column, the
    other columns that are not dropped follow in their old order, none of the
    dropped labels is left, every column that is left keeps its cells, and
    the number of rows is the same.  Every row of the result comes from a
    row of the joined frame: its first cell is that row's target and its
    [X[1:]] are that row's feature cells. *)
Theorem model_df_moves_target_to_front :
  forall joined_df : DataFrame,
    Forall (fun row => List.length row = List.length (columns joined_df))
           (rows joined_df) ->
    NoDup (columns joined_df) ->
    (forall l, In l dropped_columns -> In l (columns joined_df)) ->
    In "is_reordered"%string (columns joined_df) ->
    exists model_df,
      model_df_of joined_df = inr model_df /\
      columns model_df =
        "is_reordered"%string :: filter feature_column (columns joined_df) /\
      (forall l, In l dropped_columns -> ~ In l (columns model_df)) /\
      nrows model_df = nrows joined_df /\
      (forall c, In c (columns model_df) ->
                 column_values c model_df = column_values c joined_df) /\
      (forall record, In record (rows model_df) ->
         exists row,
           In row (rows joined_df) /\
           nth_error record 0 = Some (cell_at (columns joined_df) row "is_reordered") /\
           payload (mkFrame (columns model_df) [record])
           = inr (select_by (map feature_column (columns joined_df)) row)).
Proof.
  intros joined Hrect Hnd Hdrop Htarget.
  exists (mkFrame ("is_reordered"%string :: filter feature_column (columns joined))
                  (map (model_row (columns joined)) (rows joined))).
  split; [apply model_df_frame; assumption|]. cbn [columns rows].
  split; [reflexivity|]. split; [|split; [|split]].
  - intros l Hl [Heq|Hin].
    + subst l. revert Hl. vm_compute. intuition discriminate.
    + apply filter_In in Hin as [_ Hf]. unfold feature_column in Hf.
      apply andb_prop in Hf as [Hf _]. apply mem_In in Hl. rewrite Hl in Hf.
      discriminate Hf.
  - unfold nrows. cbn [rows]. apply length_map.
  - intros c Hc.
    assert (Hc' : In c (columns joined)).
    { destruct Hc as [<-|Hc]; [exact Htarget|]. apply filter_In in Hc as [Hc _].
      exact Hc. }
    rewrite (column_values_cells c joined Hc').
    rewrite column_values_cells by exact Hc. cbn [columns rows].
    rewrite map_map. f_equal. apply map_ext_in. intros row Hrow.
    unfold model_row. rewrite cell_at_cons.
    destruct (String.eqb_spec c "is_reordered") as [->|Hne]; [reflexivity|].
    rewrite Forall_forall in Hrect. apply cell_at_filter; [apply Hrect; exact Hrow|].
    destruct Hc as [Heq|Hc]; [congruence|]. apply filter_In in Hc as [_ Hc]. exact Hc.
  - intros record Hrecord. apply in_map_iff in Hrecord as [row [<- Hrow]].
    exists row. split; [exact Hrow|]. split; reflexivity.
Qed.

(** The theorem at the sample of the joined frame. *)
Lemma model_df_moves_target_to_front_witness :
  exists model_df,
    model_df_of sample_joined = inr model_df /\
    columns model_df = ["is_reordered"; "age_18-29"; "has_kids"]%string.
Proof.
  destruct (model_df_moves_target_to_front sample_joined) as [df [Hrun [Hcols _]]].
  - repeat constructor.
  - apply (NoDup_count_occ' string_dec). intros x Hx.
    repeat (destruct Hx as [<-|Hx]; [vm_compute; reflexivity|]). destruct Hx.
  - intros l Hl. apply in_or_app. left. exact Hl.
  - apply in_or_app. right. right. left. reflexivity.
  - exists df. split; [exact Hrun | exact Hcols].
Defined.

(** What the cells need.  When one of the nineteen labels is not a column
    of the joined frame, the drop raises KeyError for a label that is
    missing; when they are all there but is_reordered is not, the pop raises
    KeyError for is_reordered. *)
Theorem model_df_raises_on_missing_columns :
  forall joined_df : DataFrame,
    ((exists l, In l dropped_columns /\ ~ In l (columns joined_df)) ->
     exists l, In l dropped_columns /\ ~ In l (columns joined_df) /\
               model_df_of joined_df = inl (KeyError l)) /\
    ((forall l, In l dropped_columns -> In l (columns joined_df)) ->
     ~ In "is_reordered"%string (columns joined_df) ->
     model_df_of joined_df = inl (KeyError "is_reordered")).
Proof.
  intros joined. split.
  - intros Hmiss. destruct (drop_missing dropped_columns joined Hmiss) as [l [Hl [Hn Hd]]].
    exists l. split; [exact Hl|]. split; [exact Hn|].
    unfold model_df_of. rewrite Hd. reflexivity.
  - intros Hall Hnot. unfold model_df_of. rewrite (drop_present _ _ Hall). cbn [bind].
    unfold pop, columns_named. cbn [columns rows].
    rewrite positions_none; [reflexivity|].
    intros H. apply filter_In in H as [H _]. contradiction.
Qed.

(** The theorem at a frame that has the target column only, and at one
    that has the nineteen columns only. *)
Lemma model_df_raises_on_missing_columns_witness :
  (exists l, In l dropped_columns /\
             model_df_of (mkFrame ["is_reordered"%string] [[Some (JNum 1)]])
             = inl (KeyError l)) /\
  model_df_of (mkFrame dropped_columns []) = inl (KeyError "is_reordered").
Proof.
  split.
  - destruct (proj1 (model_df_raises_on_missing_columns
                       (mkFrame ["is_reordered"%string] [[Some (JNum 1)]])))
      as [l [Hl [_ Hrun]]].
    + exists "order_id"%string. split; [left; reflexivity|].
      intros [H|[]]. discriminate H.
    + exists l. split; [exact Hl | exact Hrun].
  - apply (proj2 (model_df_raises_on_missing_columns (mkFrame dropped_columns []))).
    + intros l Hl. exact Hl.
    + vm_compute. intuition discriminate.
Defined.

End RetrainFacts.

(** * Facts about generate_event_timestamp *)

Module TimestampFacts.
Import UpdateFeatureGroup.

(** Of an ISO-8601 text in UTC, that is a date and time followed by the
    offset [+00:00], the function makes the same date and time followed by
    [Z], as long as the date and time part has no plus sign of its own. *)
Theorem generate_event_timestamp_ends_in_Z :
  forall body : string,
    ~ In "+"%char (list_ascii_of_string body) ->
    generate_event_timestamp (body ++ "+00:00") = body ++ "Z".
Proof.
  unfold generate_event_timestamp, Py.replace.
  induction body as [|c body IH]; intros Hplus; [reflexivity|].
  cbn [append Py.replace_from].
  assert (Hc : c <> "+"%char) by (intros ->; apply Hplus; left; reflexivity).
  assert (Hp : String.prefix "+00:00" (String c (body ++ "+00:00")) = false).
  { cbn [String.prefix]. destruct (ascii_dec "+" c) as [E|E]; [congruence | reflexivity]. }
  rewrite Hp. f_equal. apply IH. intros H. apply Hplus. right. exact H.
Qed.

(** The theorem at a timestamp with milliseconds. *)
Lemma generate_event_timestamp_ends_in_Z_witness :
  generate_event_timestamp "2023-05-04T12:00:00.123+00:00" = "2023-05-04T12:00:00.123Z".
Proof.
  apply (generate_event_timestamp_ends_in_Z "2023-05-04T12:00:00.123").
  vm_compute. intuition discriminate.
Defined.

End TimestampFacts.

(** * Facts about the string columns of the orders frame *)

Module OrderDataFacts.
Import Pandas PandasFacts UpdateFacts OrderData.
#[local] Open Scope list_scope.

Lemma store_length (cols : list string) (label : string) (v : cell) (row : list cell) :
  List.length (store cols label v row) = List.length row.
Proof.
  revert row. induction cols as [|c cols IH]; intros row; [reflexivity|].
  destruct row as [|x row]; [reflexivity|]. simpl. rewrite IH. reflexivity.
Qed.

Lemma cell_at_store_same (cols : list string) (label : string) (v : cell)
    (row : list cell) :
  List.length row = List.length cols -> In label cols ->
  cell_at cols (store cols label v row) label = v.
Proof.
  revert row. induction cols as [|c cols IH]; intros row Hlen Hin; [destruct Hin|].
  destruct row as [|x row]; [discriminate|]. simpl store. rewrite cell_at_cons.
  destruct (String.eqb_spec label c) as [->|Hne]; [reflexivity|].
  apply IH; [simpl in Hlen; lia|]. destruct Hin as [H|H]; [congruence | exact H].
Qed.

Lemma cell_at_store_other (cols : list string) (label c : string) (v : cell)
    (row : list cell) :
  c <> label ->
  cell_at cols (store cols label v row) c = cell_at cols row c.
Proof.
  intros Hne. revert row. induction cols as [|c' cols IH]; intros row; [reflexivity|].
  destruct row as [|x row]; [reflexivity|]. simpl store. rewrite !cell_at_cons.
  destruct (String.eqb_spec c c') as [E|Hne'].
  - destruct (String.eqb_spec label c'); [congruence | reflexivity].
  - apply IH.
Qed.

Lemma combine_with_map {A B} (g : A -> B) (l : list A) :
  combine l (map g l) = map (fun x => (x, g x)) l.
Proof. induction l as [|x l IH]; [reflexivity|]. simpl. rewrite IH. reflexivity. Qed.

(** Rows of equal length that agree under every label are equal, when the
    labels are distinct. *)
Lemma row_ext (cols : list string) :
  NoDup cols ->
  forall r1 r2 : list cell,
    List.length r1 = List.length cols -> List.length r2 = List.length cols ->
    (forall c, In c cols -> cell_at cols r1 c = cell_at cols r2 c) ->
    r1 = r2.
Proof.
  induction 1 as [|c cols Hnotin Hnd IH]; intros r1 r2 H1 H2 Hcells.
  - destruct r1, r2; try discriminate. reflexivity.
  - destruct r1 as [|x1 r1], r2 as [|x2 r2]; try discriminate.
    pose proof (Hcells c (or_introl eq_refl)) as Hx.
    rewrite !cell_at_cons, String.eqb_refl in Hx. subst x2. f_equal.
    apply IH; [simpl in H1; lia | simpl in H2; lia |].
    intros c' Hc'. specialize (Hcells c' (or_intror Hc')).
    rewrite !cell_at_cons in Hcells.
    destruct (String.eqb_spec c' c) as [E|Hne]; [|exact Hcells].
    exfalso. apply Hnotin. rewrite <- E. exact Hc'.
Qed.

Section Convert.

Variable as_string : cell -> cell.

Lemma convert_column_frame (label : string) (df : DataFrame) :
  In label (columns df) ->
  convert_column as_string label df =
  inr (mkFrame (columns df)
               (map (converted_row as_string (columns df) label) (rows df))).
Proof.
  intros Hin. unfold convert_column, getitem.
  rewrite (column_values_cells label df Hin). cbn [bind].
  unfold setitem.
  assert (Hbase : (if (nrows df =? 0)%nat
                   then map (fun _ => map (fun _ => @None json) (columns df))
                            (map as_string
                                 (map (fun row => cell_at (columns df) row label)
                                      (rows df)))
                   else rows df) = rows df).
  { destruct (Nat.eqb_spec (nrows df) 0) as [E|E]; [|reflexivity].
    unfold nrows in E. destruct (rows df); [reflexivity | discriminate]. }
  rewrite Hbase, !length_map, Nat.eqb_refl. cbn [negb].
  apply mem_In in Hin. rewrite Hin. f_equal. f_equal.
  rewrite map_map, combine_with_map, map_map. reflexivity.
Qed.

Lemma convert_column_missing (label : string) (df : DataFrame) :
  ~ In label (columns df) ->
  convert_column as_string label df = inl (KeyError label).
Proof.
  intros Hnot. unfold convert_column, getitem, column_values.
  assert (E : position label (columns df) = None).
  { induction (columns df) as [|c cols IH]; [reflexivity|]. simpl.
    destruct (String.eqb_spec label c) as [->|Hne];
      [exfalso; apply Hnot; left; reflexivity|].
    rewrite IH; [reflexivity|]. intros H. apply Hnot. right. exact H. }
  rewrite E. reflexivity.
Qed.

Lemma convert_columns_frame (labels : list string) :
  forall df,
    (forall l, In l labels -> In l (columns df)) ->
    convert_columns as_string labels df =
    inr (mkFrame (columns df)
                 (map (converted_rows as_string (columns df) labels) (rows df))).
Proof.
  induction labels as [|l labels IH]; intros df Hall.
  - simpl. unfold converted_rows. simpl. rewrite map_id. destruct df; reflexivity.
  - simpl. rewrite (convert_column_frame l df (Hall l (or_introl eq_refl))).
    cbn [bind]. rewrite IH; cbn [columns rows].
    + rewrite map_map. reflexivity.
    + intros l' Hl'. apply Hall. right. exact Hl'.
Qed.

Lemma convert_columns_missing (labels : list string) :
  forall df,
    (exists l, In l labels /\ ~ In l (columns df)) ->
    exists l, In l labels /\ ~ In l (columns df) /\
              convert_columns as_string labels df = inl (KeyError l).
Proof.
  induction labels as [|l labels IH]; intros df [m [Hm Hnot]]; [destruct Hm|].
  destruct (in_dec string_dec l (columns df)) as [Hin|Hout].
  - destruct Hm as [->|Hm]; [contradiction|].
    destruct (IH (mkFrame (columns df)
                          (map (converted_row as_string (columns df) l) (rows df))))
      as [l' [Hl' [Hn' Hrun]]].
    { exists m. split; [exact Hm | exact Hnot]. }
    exists l'. split; [right; exact Hl'|]. split; [exact Hn'|].
    simpl. rewrite (convert_column_frame l df Hin). exact Hrun.
  - exists l. split; [left; reflexivity|]. split; [exact Hout|].
    simpl. rewrite (convert_column_missing l df Hout). reflexivity.
Qed.

Lemma convert_order_data_columns (order_data : DataFrame) :
  convert_order_data as_string order_data =
  convert_columns as_string string_columns order_data.
Proof.
  unfold convert_order_data, string_columns. simpl.
  destruct (convert_column as_string "order_id" order_data) as [e|d1]; [reflexivity|].
  cbn [bind].
  destruct (convert_column as_string "event_time" d1) as [e|d2]; [reflexivity|].
  cbn [bind].
  destruct (convert_column as_string "customer_id" d2) as [e|d3]; [reflexivity|].
  cbn [bind].
  destruct (convert_column as_string "product_id" d3) as [e|d4]; reflexivity.
Qed.

Lemma converted_rows_length (cols labels : list string) (row : list cell) :
  List.length (converted_rows as_string cols labels row) = List.length row.
Proof.
  unfold converted_rows. revert row.
  induction labels as [|l labels IH]; intros row; [reflexivity|].
  simpl. rewrite IH. apply store_length.
Qed.

(** A cell of a converted row: converted under the listed labels, the old
    cell under the others. *)
Lemma converted_rows_cell (cols labels : list string) :
  NoDup labels -> (forall l, In l labels -> In l cols) ->
  forall (row : list cell) (c : string),
    List.length row = List.length cols ->
    cell_at cols (converted_rows as_string cols labels row) c =
    if Py.mem c labels then as_string (cell_at cols row c) else cell_at cols row c.
Proof.
  unfold converted_rows.
  induction 1 as [|l labels Hnotin Hnd IH]; intros Hall row c Hlen; [reflexivity|].
  cbn [fold_left].
  rewrite IH; [| intros l' Hl'; apply Hall; right; exact Hl'
               | unfold converted_row; rewrite store_length; exact Hlen].
  unfold Py.mem at 2. cbn [existsb]. fold (Py.mem c labels).
  destruct (String.eqb_spec c l) as [->|Hne].
  - apply mem_not_In in Hnotin. rewrite Hnotin. cbn [orb].
    unfold converted_row. apply cell_at_store_same; [exact Hlen|].
    apply Hall. left. reflexivity.
  - cbn [orb]. unfold converted_row. rewrite (cell_at_store_other cols l c _ row Hne).
    reflexivity.
Qed.

End Convert.

Lemma string_columns_distinct : NoDup string_columns.
Proof.
  apply (NoDup_count_occ' string_dec). intros x Hx.
  repeat (destruct Hx as [<-|Hx]; [vm_compute; reflexivity|]). destruct Hx.
Qed.

(** The conversion of the orders frame.  When the frame has distinct
    column labels, as a frame read from a CSV file has, and the four columns
    order_id, event_time, customer_id and product_id are among them, the cell
    succeeds, keeps the column labels in their order and the number of rows,
    converts every cell of those four columns, and leaves every other column
    as it was.  When one of the four is missing, it raises KeyError for a
    missing one. *)
Theorem convert_order_data_converts_four_columns :
  forall (as_string : cell -> cell) (order_data : DataFrame),
    Forall (fun row => List.length row = List.length (columns order_data))
           (rows order_data) ->
    (NoDup (columns order_data) ->
     (forall l, In l string_columns -> In l (columns order_data)) ->
     exists df',
       convert_order_data as_string order_data = inr df' /\
       columns df' = columns order_data /\
       nrows df' = nrows order_data /\
       (forall c, In c (columns order_data) ->
          column_values c df' =
          if Py.mem c string_columns
          then option_map (map as_string) (column_values c order_data)
          else column_values c order_data)) /\
    ((exists l, In l string_columns /\ ~ In l (columns order_data)) ->
     exists l, In l string_columns /\ ~ In l (columns order_data) /\
               convert_order_data as_string order_data = inl (KeyError l)).
Proof.
  intros as_string df Hrect. split.
  - intros _ Hall.
    exists (mkFrame (columns df)
                    (map (converted_rows as_string (columns df) string_columns)
                         (rows df))).
    split; [rewrite convert_order_data_columns; apply convert_columns_frame; exact Hall|].
    cbn [columns]. split; [reflexivity|].
    split; [unfold nrows; cbn [rows]; apply length_map|].
    intros c Hc. rewrite (column_values_cells c df Hc).
    rewrite column_values_cells by exact Hc. cbn [columns rows].
    rewrite map_map.
    assert (E : forall row, In row (rows df) ->
                  cell_at (columns df)
                          (converted_rows as_string (columns df) string_columns row) c
                  = if Py.mem c string_columns
                    then as_string (cell_at (columns df) row c)
                    else cell_at (columns df) row c).
    { intros row Hrow. rewrite Forall_forall in Hrect.
      apply converted_rows_cell;
        [exact string_columns_distinct | exact Hall | apply Hrect; exact Hrow]. }
    rewrite (map_ext_in _ _ _ E).
    destruct (Py.mem c string_columns); cbn [option_map];
      [rewrite map_map|]; reflexivity.
  - intros Hmiss. rewrite convert_order_data_columns.
    apply convert_columns_missing. exact Hmiss.
Qed.

(** The theorem at the sample of the orders file. *)
Lemma convert_order_data_converts_four_columns_witness :
  exists df',
    convert_order_data sample_as_string sample_orders = inr df' /\
    columns df' = columns sample_orders.
Proof.
  destruct (proj1 (convert_order_data_converts_four_columns sample_as_string
                     sample_orders ltac:(repeat constructor)))
    as [df' [Hrun [Hcols _]]].
  - apply (NoDup_count_occ' string_dec). intros x Hx.
    repeat (destruct Hx as [<-|Hx]; [vm_compute; reflexivity|]). destruct Hx.
  - intros l Hl. repeat (destruct Hl as [<-|Hl]; [vm_compute; tauto|]). destruct Hl.
  - exists df'. split; [exact Hrun | exact Hcols].
Defined.

(** Running the cell again changes nothing, as long as converting a
    converted cell gives the same cell: on a frame with distinct labels the
    second run returns the frame the first run returned. *)
Theorem convert_order_data_twice :
  forall (as_string : cell -> cell) (order_data df' : DataFrame),
    (forall c, as_string (as_string c) = as_string c) ->
    Forall (fun row => List.length row = List.length (columns order_data))
           (rows order_data) ->
    NoDup (columns order_data) ->
    (forall l, In l string_columns -> In l (columns order_data)) ->
    convert_order_data as_string order_data = inr df' ->
    convert_order_data as_string df' = inr df'.
Proof.
  intros as_string df df' Hidem Hrect Hnd Hall Hrun.
  rewrite convert_order_data_columns in *.
  rewrite (convert_columns_frame as_string string_columns df Hall) in Hrun.
  injection Hrun as <-.
  rewrite convert_columns_frame by exact Hall. cbn [columns rows].
  f_equal. f_equal. rewrite map_map. apply map_ext_in. intros row Hrow.
  rewrite Forall_forall in Hrect. specialize (Hrect row Hrow).
  apply (row_ext (columns df) Hnd).
  - rewrite !converted_rows_length. exact Hrect.
  - rewrite converted_rows_length. exact Hrect.
  - intros c Hc.
    rewrite (converted_rows_cell as_string (columns df) string_columns
               string_columns_distinct Hall _ c)
      by (rewrite converted_rows_length; exact Hrect).
    rewrite (converted_rows_cell as_string (columns df) string_columns
               string_columns_distinct Hall row c Hrect).
    destruct (Py.mem c string_columns); [apply Hidem | reflexivity].
Qed.

(** The theorem at the sample of the orders file. *)
Lemma convert_order_data_twice_witness :
  convert_order_data sample_as_string
    (mkFrame (columns sample_orders)
             (map (converted_rows sample_as_string (columns sample_orders) string_columns)
                  (rows sample_orders)))
  = inr (mkFrame (columns sample_orders)
                 (map (converted_rows sample_as_string (columns sample_orders)
                                      string_columns)
                      (rows sample_orders))).
Proof.
  apply (convert_order_data_twice sample_as_string sample_orders).
  - intros [[| | [| |]| | |]|]; reflexivity.
  - repeat constructor.
  - apply (NoDup_count_occ' string_dec). intros x Hx.
    repeat (destruct Hx as [<-|Hx]; [vm_compute; reflexivity|]). destruct Hx.
  - intros l Hl. repeat (destruct Hl as [<-|Hl]; [vm_compute; tauto|]). destruct Hl.
  - reflexivity.
Defined.

End OrderDataFacts.

(** * Facts about the table search_features_using_string returns *)

Module SearchTableFacts.
Import Pandas PandasFacts Search SearchFacts SearchTable.
#[local] Open Scope list_scope.

Lemma dict_get_set (k k' : string) (v : json) (d : dict) :
  dict_get k (dict_set k' v d) = if String.eqb k k' then Some v else dict_get k d.
Proof.
  induction d as [|[k0 v0] d IH]; simpl.
  - reflexivity.
  - destruct (String.eqb_spec k' k0) as [->|Hne]; simpl.
    + destruct (String.eqb k k0); reflexivity.
    + rewrite IH. destruct (String.eqb_spec k k0) as [->|Hne'].
      * destruct (String.eqb_spec k0 k'); [congruence | reflexivity].
      * reflexivity.
Qed.

Lemma dict_get_absent (k : string) (d : dict) :
  ~ In k (map fst d) -> dict_get k d = None.
Proof.
  induction d as [|[k0 v0] d IH]; simpl; [reflexivity|]. intros Hnot.
  destruct (String.eqb_spec k k0) as [->|Hne]; [exfalso; apply Hnot; left; reflexivity|].
  apply IH. intros H. apply Hnot. right. exact H.
Qed.

(** Looking a key up after an update with a dict of distinct keys. *)
Lemma dict_get_update (other : dict) :
  NoDup (map fst other) ->
  forall (d : dict) (k : string),
    dict_get k (dict_update d other) =
    match dict_get k other with
    | Some v => Some v
    | None => dict_get k d
    end.
Proof.
  unfold dict_update.
  induction other as [|[k0 v0] other IH]; intros Hnd d k; [reflexivity|].
  simpl in Hnd. inversion Hnd as [|? ? Hnotin Hnd']; subst.
  cbn [fold_left fst snd]. rewrite (IH Hnd'). simpl. rewrite dict_get_set.
  destruct (String.eqb_spec k k0) as [->|Hne]; [|reflexivity].
  rewrite (dict_get_absent k0 other Hnotin). reflexivity.
Qed.

Lemma append_injective (p x y : string) : (p ++ x = p ++ y)%string -> x = y.
Proof.
  induction p as [|c p IH]; simpl; [trivial|]. intros H. injection H as H. auto.
Qed.

Lemma dict_get_flatten (prefix k : string) (meta : dict) :
  dict_get (prefix ++ "." ++ k)%string (flatten_nested prefix meta) = dict_get k meta.
Proof.
  unfold flatten_nested. induction meta as [|[k0 v0] meta IH]; [reflexivity|].
  cbn [map dict_get fst snd]. rewrite IH.
  destruct (String.eqb_spec k k0) as [->|Hne].
  - rewrite String.eqb_refl. reflexivity.
  - destruct (String.eqb_spec (prefix ++ "." ++ k)%string (prefix ++ "." ++ k0)%string)
      as [E|_]; [|reflexivity].
    apply append_injective in E. apply (append_injective ".") in E. congruence.
Qed.

Lemma flatten_keys_distinct (prefix : string) (meta : dict) :
  NoDup (map fst meta) -> NoDup (map fst (flatten_nested prefix meta)).
Proof.
  unfold flatten_nested. rewrite map_map. cbn [fst].
  induction meta as [|[k0 v0] meta IH]; intros Hnd; [constructor|].
  simpl in *. inversion Hnd as [|? ? Hnotin Hnd']; subst. constructor; [|apply IH; exact Hnd'].
  intros H. apply in_map_iff in H as [[k1 v1] [E Hin]]. cbn [fst] in E.
  apply append_injective in E. apply (append_injective ".") in E. subst k1.
  apply Hnotin. apply in_map_iff. exists (k0, v1). split; [reflexivity | exact Hin].
Qed.

(** A result of the API's shape is its metadata under the one key. *)
Lemma metadata_shape (r : dict) :
  metadata_result r = true ->
  r = [("FeatureMetadata"%string, JDict (metadata_of r))] /\
  forallb (fun kv => dotless (fst kv)) (metadata_of r) = true.
Proof.
  unfold metadata_result, metadata_of.
  destruct r as [|[top v] r']; try discriminate.
  destruct v; try discriminate. destruct r'; try discriminate.
  intros H. apply andb_prop in H as [H Hdot]. apply andb_prop in H as [Htop _].
  apply String.eqb_eq in Htop. subst top. split; [reflexivity | exact Hdot].
Qed.

(** The flattened record of such a result holds, under
    [FeatureMetadata.k], what the metadata holds under [k]. *)
Lemma nested_metadata_get (r : dict) (k : string) :
  metadata_result r = true ->
  NoDup (map fst (metadata_of r)) ->
  dict_get ("FeatureMetadata." ++ k)%string (nested_to_record r)
  = dict_get k (metadata_of r).
Proof.
  intros Hshape Hnd. destruct (metadata_shape r Hshape) as [Hr _].
  rewrite Hr at 1. unfold nested_to_record. cbn [fold_left fst snd].
  rewrite (dict_get_update _ (flatten_keys_distinct "FeatureMetadata" _ Hnd)).
  change ("FeatureMetadata." ++ k)%string with ("FeatureMetadata" ++ "." ++ k)%string.
  rewrite dict_get_flatten. cbn.
  destruct (dict_get k (metadata_of r)); reflexivity.
Qed.

Lemma nested_metadata_keys (r : dict) (c : string) :
  metadata_result r = true ->
  (In c (map fst (nested_to_record r)) <->
   exists k, In k (map fst (metadata_of r)) /\ c = ("FeatureMetadata." ++ k)%string).
Proof.
  intros Hshape. destruct (metadata_shape r Hshape) as [Hr _].
  rewrite Hr at 1. unfold nested_to_record. cbn [fold_left fst snd].
  rewrite dict_update_keys. unfold flatten_nested. rewrite map_map. cbn. split.
  - intros [[]|H]. apply in_map_iff in H as [[k v] [<- Hin]]. exists k.
    split; [apply in_map_iff; exists (k, v); auto | reflexivity].
  - intros [k [Hk ->]]. right. apply in_map_iff in Hk as [[k' v] [E Hin]].
    cbn [fst] in E. subst k'. apply in_map_iff. exists (k, v). auto.
Qed.

Lemma normalized_columns_In (results : list dict) (c : string) :
  In c (columns (json_normalize results)) <->
  exists r, In r results /\ In c (map fst (nested_to_record r)).
Proof.
  destruct results as [|r0 rs].
  - simpl. split; [intros [] | intros [r [[] _]]].
  - unfold json_normalize, from_records. cbn [columns].
    rewrite record_columns_In. split.
    + intros [d [Hd Hc]]. apply in_map_iff in Hd as [r [<- Hr]]. exists r. auto.
    + intros [r [Hr Hc]]. exists (nested_to_record r).
      split; [apply in_map; exact Hr | exact Hc].
Qed.

Lemma normalized_rows_cells (results : list dict) :
  rows (json_normalize results) =
  map (fun d => map (fun c => dict_get c d) (columns (json_normalize results)))
      (map nested_to_record results).
Proof. destruct results; reflexivity. Qed.

Lemma add_keys_distinct (d : dict) (cols : list string) :
  NoDup cols -> NoDup (add_keys cols d).
Proof.
  unfold add_keys. revert cols. induction d as [|[k v] d IH]; intros cols Hnd; [exact Hnd|].
  simpl. apply IH. destruct (Py.mem k cols) eqn:E; [exact Hnd|].
  apply mem_not_In in E. apply NoDup_app; [exact Hnd | repeat constructor; intros [] |].
  intros x Hx [<-|[]]. contradiction.
Qed.

Lemma normalized_columns_distinct (results : list dict) :
  NoDup (columns (json_normalize results)).
Proof.
  destruct results as [|r0 rs]; [constructor|].
  unfold json_normalize, from_records, record_columns. cbn [columns].
  generalize (map nested_to_record (r0 :: rs)). intros recs.
  assert (G : forall acc, NoDup acc -> NoDup (fold_left add_keys recs acc)).
  { induction recs as [|d recs IH]; intros acc Hacc; [exact Hacc|].
    simpl. apply IH. apply add_keys_distinct. exact Hacc. }
  apply G. constructor.
Qed.

Lemma after_first_dot_metadata (k : string) :
  dotless k = true -> after_first_dot ("FeatureMetadata." ++ k) = k.
Proof.
  intros H. unfold after_first_dot. rewrite (metadata_column_split k H). reflexivity.
Qed.

(** The cell under [k] of a normalized row whose labels were renamed. *)
Lemma cell_at_renamed (cols : list string) (d : dict) (k : string) :
  (forall c, In c cols -> exists k', dotless k' = true /\
                                     c = ("FeatureMetadata." ++ k')%string) ->
  In k (map after_first_dot cols) ->
  cell_at (map after_first_dot cols) (map (fun c => dict_get c d) cols) k
  = dict_get ("FeatureMetadata." ++ k)%string d.
Proof.
  induction cols as [|c cols IH]; intros Hshape Hin; [destruct Hin|].
  cbn [map]. rewrite UpdateFacts.cell_at_cons.
  destruct (Hshape c (or_introl eq_refl)) as [k' [Hk' Hc]].
  rewrite Hc at 1. rewrite (after_first_dot_metadata k' Hk').
  destruct (String.eqb_spec k k') as [->|Hne]; [rewrite Hc; reflexivity|].
  apply IH.
  - intros c' Hc'. apply Hshape. right. exact Hc'.
  - destruct Hin as [Hin|Hin]; [|exact Hin].
    rewrite Hc, (after_first_dot_metadata k' Hk') in Hin. congruence.
Qed.

(** On a non-empty response of the API's shape the function returns the
    normalized response with the labels renamed and FeatureGroupArn left
    out. *)
Lemma api_response_frame (search : search_request -> list dict) (s : string) :
  let norm := json_normalize (search (search_request_for s)) in
  search (search_request_for s) <> [] ->
  forallb metadata_result (search (search_request_for s)) = true ->
  search_features_using_string search s =
  inr (mkFrame
         (filter (fun c => negb (String.eqb c "FeatureGroupArn"))
                 (map after_first_dot (columns norm)))
         (map (select_by (map (fun c => negb (String.eqb c "FeatureGroupArn"))
                              (map after_first_dot (columns norm))))
              (rows norm))).
Proof.
  intros norm Hne Hshape. rewrite search_outcome. cbv zeta. fold norm.
  destruct (metadata_columns _ Hshape) as [Hcols Harn]. fold norm in Hcols, Harn.
  assert (E1 : existsb dotless (columns norm) = false).
  { destruct (existsb dotless (columns norm)) eqn:E; [|reflexivity].
    apply existsb_exists in E as [c [Hc Hd]].
    destruct (Hcols c Hc) as [k [Hk ->]].
    unfold dotless in Hd. rewrite (metadata_column_split k Hk) in Hd. discriminate. }
  assert (E2 : Py.mem "FeatureGroupArn" (map after_first_dot (columns norm)) = true).
  { apply mem_In. apply in_map_iff.
    exists "FeatureMetadata.FeatureGroupArn"%string.
    split; [reflexivity | exact (Harn Hne)]. }
  rewrite E1, E2. reflexivity.
Qed.

(** The renamed labels are the metadata keys that some result has. *)
Lemma renamed_members (results : list dict) :
  forallb metadata_result results = true ->
  forall k,
    In k (map after_first_dot (columns (json_normalize results))) <->
    exists r, In r results /\ In k (map fst (metadata_of r)).
Proof.
  intros Hshape k. destruct (metadata_columns results Hshape) as [Hcols _].
  pose proof Hshape as Hall. rewrite forallb_forall in Hall.
  rewrite in_map_iff. split.
  - intros [c [Hk Hc]]. destruct (Hcols c Hc) as [k' [Hk' ->]].
    rewrite (after_first_dot_metadata k' Hk') in Hk. subst k'.
    apply normalized_columns_In in Hc as [r [Hr Hc]].
    apply (nested_metadata_keys r _ (Hall r Hr)) in Hc as [k0 [Hk0 E]].
    apply append_injective in E. subst k0. exists r. auto.
  - intros [r [Hr Hk]]. exists ("FeatureMetadata." ++ k)%string.
    assert (Hdot : dotless k = true).
    { destruct (metadata_shape r (Hall r Hr)) as [_ Hd].
      rewrite forallb_forall in Hd. apply in_map_iff in Hk as [[k0 v] [E Hin]].
      cbn [fst] in E. subst k0. apply (Hd (k, v) Hin). }
    split; [apply after_first_dot_metadata; exact Hdot|].
    apply normalized_columns_In. exists r. split; [exact Hr|].
    apply (nested_metadata_keys r _ (Hall r Hr)). exists k. auto.
Qed.

(** The renaming gives no label twice. *)
Lemma renamed_distinct (results : list dict) :
  forallb metadata_result results = true ->
  NoDup (map after_first_dot (columns (json_normalize results))).
Proof.
  intros Hshape. destruct (metadata_columns results Hshape) as [Hcols _].
  pose proof (normalized_columns_distinct results) as Hnd.
  revert Hcols Hnd. generalize (columns (json_normalize results)). intros cols Hcols Hnd.
  induction Hnd as [|c cols Hnotin Hnd IH]; [constructor|].
  cbn [map]. constructor.
  - intros H. apply in_map_iff in H as [c' [E Hc']].
    destruct (Hcols c (or_introl eq_refl)) as [k [Hk ->]].
    destruct (Hcols c' (or_intror Hc')) as [k' [Hk' ->]].
    rewrite !after_first_dot_metadata in E by assumption. subst k'.
    contradiction.
  - apply IH. intros c' Hc'. apply Hcols. right. exact Hc'.
Qed.

(** The cell of a result under a label that is left: what the metadata of
    the result has under that key. *)
Lemma renamed_cell (results : list dict) (r : dict) (k : string) :
  forallb metadata_result results = true ->
  In r results -> NoDup (map fst (metadata_of r)) ->
  In k (map after_first_dot (columns (json_normalize results))) ->
  negb (String.eqb k "FeatureGroupArn") = true ->
  cell_at
    (filter (fun c => negb (String.eqb c "FeatureGroupArn"))
            (map after_first_dot (columns (json_normalize results))))
    (select_by (map (fun c => negb (String.eqb c "FeatureGroupArn"))
                    (map after_first_dot (columns (json_normalize results))))
               (map (fun c => dict_get c (nested_to_record r))
                    (columns (json_normalize results))))
    k
  = dict_get k (metadata_of r).
Proof.
  intros Hshape Hr Hkeys Hk Hkp.
  destruct (metadata_columns results Hshape) as [Hcols _].
  rewrite forallb_forall in Hshape.
  rewrite RetrainFacts.cell_at_filter;
    [| rewrite !length_map; reflexivity | exact Hkp].
  rewrite (cell_at_renamed _ (nested_to_record r) k Hcols Hk).
  apply nested_metadata_get; [apply Hshape; exact Hr | exact Hkeys].
Qed.

(** The table of a search.  On a non-empty response of the API's shape
    whose metadata dicts have distinct keys, the function returns a frame
    with distinct column labels: the metadata keys that some result has, all
    but FeatureGroupArn.  The column under a key holds, for every result in
    the order of the response, the value its metadata has under that key, and
    a missing cell where it has none. *)
Theorem search_table_shows_the_metadata :
  forall (search : search_request -> list dict) (s : string),
    let results := search (search_request_for s) in
    results <> [] ->
    forallb metadata_result results = true ->
    Forall (fun r => NoDup (map fst (metadata_of r))) results ->
    exists df,
      search_features_using_string search s = inr df /\
      NoDup (columns df) /\
      (forall k, In k (columns df) <->
                 k <> "FeatureGroupArn"%string /\
                 exists r, In r results /\ In k (map fst (metadata_of r))) /\
      (forall k, In k (columns df) ->
                 column_values k df
                 = Some (map (fun r => dict_get k (metadata_of r)) results)).
Proof.
  intros search s results Hne Hshape Hkeys.
  eexists. split; [apply api_response_frame; assumption|].
  fold results. cbn [columns rows]. split; [|split].
  - apply NoDup_filter. apply renamed_distinct. exact Hshape.
  - intros k. rewrite filter_In, (renamed_members results Hshape). split.
    + intros [H Hk]. split; [|exact H].
      destruct (String.eqb_spec k "FeatureGroupArn"); [discriminate | assumption].
    + intros [Hk H]. split; [exact H|].
      destruct (String.eqb_spec k "FeatureGroupArn"); [contradiction | reflexivity].
  - intros k Hk. rewrite UpdateFacts.column_values_cells by exact Hk.
    cbn [columns rows]. f_equal. apply filter_In in Hk as [Hk Hkp].
    rewrite normalized_rows_cells, !map_map. apply map_ext_in. intros r Hr.
    rewrite <- (map_map after_first_dot
                        (fun c => negb (String.eqb c "FeatureGroupArn"))).
    rewrite Forall_forall in Hkeys.
    apply (renamed_cell results r k Hshape Hr (Hkeys r Hr) Hk Hkp).
Qed.

(** The theorem at a service that answers with the two sample features. *)
Lemma search_table_shows_the_metadata_witness :
  exists df,
    search_features_using_string (fun _ => sample_results) "married" = inr df /\
    column_values "Description" df
    = Some [Some (JStr "boolean value whether the customer is married or not"); None].
Proof.
  destruct (search_table_shows_the_metadata (fun _ => sample_results) "married")
    as [df [Hrun [_ [Hcols Hcells]]]].
  - discriminate.
  - reflexivity.
  - repeat constructor; simpl; intuition discriminate.
  - exists df. split; [exact Hrun|].
    rewrite Hcells; [reflexivity|]. apply Hcols. split; [discriminate|].
    exists (hd [] sample_results). split; [left; reflexivity|].
    simpl. intuition.
Defined.


(** C4.  For every search string the function sends one request: resource
    FeatureMetadata, exactly the three Contains filters on FeatureName,
    Description and AllParameters with the search string as value, under
    operator Or; its outcome depends on the service through the answer to
    that request only.  Under the service's reading of such an expression a
    feature is asked for as soon as one of the three properties contains the
    string.  Whenever the function returns, its frame is the normalized
    response with every column renamed to the part after the first dot and
    the FeatureGroupArn column removed, one row per result.  And it does
    return when the response has at least one result and is of the API's
    shape: the columns of the frame are then the metadata keys of the
    results without FeatureGroupArn, each once, and the column under a key
    holds the value every result has under that key, in the order of the
    response. *)
Theorem search_features_request_and_result :
  forall (search : search_request -> list dict) (s : string),
    let request := search_request_for s in
    let results := search request in
    let norm := json_normalize results in
    (Resource request = "FeatureMetadata"%string /\
     Filters (SearchExpression request) =
       [ mkFilter "FeatureName" "Contains" s;
         mkFilter "Description" "Contains" s;
         mkFilter "AllParameters" "Contains" s ] /\
     ExprOperator (SearchExpression request) = "Or"%string) /\
    (forall search' : search_request -> list dict,
       search' request = search request ->
       search_features_using_string search' s = search_features_using_string search s) /\
    (forall f : feature,
       expression_holds f (SearchExpression request) =
       (match property "FeatureName" f with Some t => Py.contains s t | None => false end
        || match property "Description" f with Some t => Py.contains s t | None => false end
        || match property "AllParameters" f with Some t => Py.contains s t | None => false end)) /\
    (forall df,
       search_features_using_string search s = inr df ->
       df = mkFrame
              (filter (fun c => negb (String.eqb c "FeatureGroupArn"))
                      (map after_first_dot (columns norm)))
              (map (select_by (map (fun c => negb (String.eqb c "FeatureGroupArn"))
                                   (map after_first_dot (columns norm))))
                   (rows norm)) /\
       ~ In "FeatureGroupArn"%string (columns df) /\
       nrows df = List.length results) /\
    (results <> [] ->
     forallb metadata_result results = true ->
     exists df,
       search_features_using_string search s = inr df /\
       NoDup (columns df) /\
       (forall k, In k (columns df) <->
                  k <> "FeatureGroupArn"%string /\
                  exists r, In r results /\ In k (map fst (metadata_of r))) /\
       (Forall (fun r => NoDup (map fst (metadata_of r))) results ->
        forall k, In k (columns df) ->
                  column_values k df
                  = Some (map (fun r => dict_get k (metadata_of r)) results))).
Proof.
  intros search s request results norm.
  split; [repeat split|]. split; [|split; [|split]].
  - intros search' Heq. unfold search_features_using_string.
    fold request. rewrite Heq. reflexivity.
  - intro f. apply request_holds.
  - intros df H. rewrite search_outcome in H. cbv zeta in H.
    fold request in H. fold results in H. fold norm in H.
    destruct (existsb dotless (columns norm)); [discriminate|].
    destruct (Py.mem "FeatureGroupArn" (map after_first_dot (columns norm)));
      [|discriminate].
    injection H as <-. split; [reflexivity|]. split.
    + cbn [columns]. intros Hin. apply filter_In in Hin as [_ Hin].
      rewrite String.eqb_refl in Hin. discriminate.
    + unfold nrows. cbn [rows]. rewrite length_map.
      apply (normalized_rows results).
  - intros Hne Hshape.
    exists (mkFrame
              (filter (fun c => negb (String.eqb c "FeatureGroupArn"))
                      (map after_first_dot (columns norm)))
              (map (select_by (map (fun c => negb (String.eqb c "FeatureGroupArn"))
                                   (map after_first_dot (columns norm))))
                   (rows norm))).
    split; [apply api_response_frame; assumption|].
    cbn [columns rows]. split; [|split].
    + apply NoDup_filter. apply renamed_distinct. exact Hshape.
    + intros k. rewrite filter_In. unfold norm.
      rewrite (renamed_members results Hshape).
      destruct (String.eqb_spec k "FeatureGroupArn") as [->|Hk]; cbn [negb].
      * split; [intros [_ H]; discriminate H | intros [H _]; contradiction].
      * split; [intros [H _]; split; [exact Hk | exact H]
               | intros [_ H]; split; [exact H | reflexivity]].
    + intros Hkeys k Hk. rewrite UpdateFacts.column_values_cells by exact Hk.
      cbn [columns rows]. f_equal. apply filter_In in Hk as [Hk Hkp].
      unfold norm at 3. rewrite normalized_rows_cells, !map_map.
      apply map_ext_in. intros r Hr.
      rewrite <- (map_map after_first_dot
                          (fun c => negb (String.eqb c "FeatureGroupArn"))).
      rewrite Forall_forall in Hkeys.
      apply (renamed_cell results r k Hshape Hr (Hkeys r Hr) Hk Hkp).
Qed.

(** The theorem at a service that answers with the two sample features. *)
Lemma search_features_request_and_result_witness :
  sample_results <> [] /\
  forallb metadata_result sample_results = true /\
  exists df,
    search_features_using_string (fun _ => sample_results) "married" = inr df /\
    columns df = ["FeatureGroupName"; "FeatureName"; "FeatureType"; "Description";
                  "Parameters"]%string /\
    column_values "FeatureName" df
    = Some [Some (JStr "is_married"); Some (JStr "married_since")].
Proof.
  assert (H1 : sample_results <> []) by discriminate.
  assert (H2 : forallb metadata_result sample_results = true) by reflexivity.
  split; [exact H1|]. split; [exact H2|].
  destruct (proj2 (proj2 (proj2 (proj2
             (search_features_request_and_result (fun _ => sample_results) "married"))))
             H1 H2) as [df [Hrun _]].
  exists df. split; [exact Hrun|].
  destruct (proj1 (proj2 (proj2 (proj2
             (search_features_request_and_result (fun _ => sample_results) "married"))))
             df Hrun) as [-> _].
  split; reflexivity.
Defined.

(** C4 as stated fails for a search without a hit: the response has no
    result, the normalized frame has no column, and the drop of
    FeatureGroupArn raises KeyError, so no frame is returned. *)
Lemma search_features_no_hit :
  search_features_using_string (fun _ => []) "married"
    = inl (KeyError "FeatureGroupArn") /\
  ~ (forall (search : search_request -> list dict) (s : string),
       exists df, search_features_using_string search s = inr df).
Proof.
  split; [reflexivity|].
  intros H. destruct (H (fun _ => []) "married") as [df Hrun]. discriminate Hrun.
Qed.

End SearchTableFacts.

(** * The customers frame at the edges *)

Module UpdateEdgeFacts.
Import Pandas PandasFacts UpdateFacts UpdateFeatureGroup UpdateAgain.
#[local] Open Scope list_scope.

(** Assigning a list that is as long as the index. *)
Lemma setitem_fits (label : string) (values : list cell) (df : DataFrame) :
  List.length values = nrows df ->
  setitem label values df =
  inr (if Py.mem label (columns df)
       then mkFrame (columns df)
                    (map (fun rv => store (columns df) label (snd rv) (fst rv))
                         (combine (rows df) values))
       else mkFrame (columns df ++ [label])
                    (map (fun rv => fst rv ++ [snd rv]) (combine (rows df) values))).
Proof.
  intros Hlen. unfold setitem.
  assert (Hbase : (if (nrows df =? 0)%nat
                   then map (fun _ => map (fun _ => @None json) (columns df)) values
                   else rows df) = rows df).
  { destruct (Nat.eqb_spec (nrows df) 0) as [E|E]; [|reflexivity].
    unfold nrows in *. rewrite E in Hlen.
    destruct values; [|discriminate]. destruct (rows df); [reflexivity|discriminate]. }
  rewrite Hbase. unfold nrows in Hlen. rewrite Hlen, Nat.eqb_refl. cbn [negb].
  destruct (Py.mem label (columns df)); reflexivity.
Qed.

Section Overwrite.

Variable raw : nat -> Z.
Variable clock : nat -> string.
Variable df : DataFrame.

Hypothesis has_event_time : In "event_time"%string (columns df).
Hypothesis has_has_kids : In "has_kids"%string (columns df).

Lemma event_time_dropped : ~ In "event_time"%string (filter keep (columns df)).
Proof.
  unfold keep. intros H. apply filter_In in H as [_ H].
  rewrite String.eqb_refl in H. discriminate.
Qed.

Lemma overwritten_frame :
  prepare_customers raw clock df = inr (overwritten raw clock df).
Proof.
  unfold prepare_customers, overwritten. fold (kids raw df).
  rewrite (setitem_fits _ _ _ (kids_length raw df)).
  pose proof has_has_kids as Hk. apply mem_In in Hk. rewrite Hk. cbn [bind].
  rewrite drop_one. cbn [columns rows].
  pose proof has_event_time as He. apply mem_In in He. rewrite He. cbn [bind].
  fold keep.
  assert (Hn : nrows (mkFrame (filter keep (columns df))
                 (map (select_by (map keep (columns df)))
                      (map (fun rv => store (columns df) "has_kids" (snd rv) (fst rv))
                           (combine (rows df) (kids raw df)))))
               = nrows df).
  { unfold nrows at 1. cbn [rows]. rewrite !length_map, length_combine.
    rewrite kids_length. fold (nrows df). apply Nat.min_id. }
  rewrite Hn. fold (stamps clock df).
  rewrite setitem_new; [| rewrite Hn; apply stamps_length | exact event_time_dropped].
  cbn [columns rows]. f_equal. f_equal.
  generalize (kids raw df) (stamps clock df). generalize (rows df). intros rws.
  induction rws as [|row rws IH]; intros ks ts; [reflexivity|].
  destruct ks as [|k ks]; [reflexivity|]. destruct ts as [|t ts]; [reflexivity|].
  cbn [combine map fst snd]. rewrite IH. reflexivity.
Qed.

Lemma overwritten_row_kept (row : list cell) (k t : cell) (c : string) :
  List.length row = List.length (columns df) ->
  In c (columns df) -> c <> "event_time"%string ->
  cell_at (filter keep (columns df) ++ ["event_time"%string])
          (overwritten_row (columns df) row k t) c
  = cell_at (columns df) (store (columns df) "has_kids" k row) c.
Proof.
  intros Hlen Hin Hne. unfold overwritten_row. rewrite cell_at_app_old.
  - unfold keep. apply cell_at_drop; [|exact Hne].
    rewrite OrderDataFacts.store_length. exact Hlen.
  - unfold keep. apply select_by_length.
    rewrite OrderDataFacts.store_length. exact Hlen.
  - apply filter_In. split; [exact Hin|]. unfold keep.
    destruct (String.eqb_spec c "event_time"); [contradiction | reflexivity].
Qed.

Lemma overwritten_row_stamp (row : list cell) (k t : cell) :
  List.length row = List.length (columns df) ->
  cell_at (filter keep (columns df) ++ ["event_time"%string])
          (overwritten_row (columns df) row k t) "event_time" = t.
Proof.
  intros Hlen. unfold overwritten_row. apply cell_at_app_new.
  - unfold keep. apply select_by_length.
    rewrite OrderDataFacts.store_length. exact Hlen.
  - exact event_time_dropped.
Qed.

Hypothesis rectangular :
  Forall (fun row => List.length row = List.length (columns df)) (rows df).

Lemma overwritten_column (c : string) (g : list cell * cell * cell -> cell) :
  In c (filter keep (columns df) ++ ["event_time"%string]) ->
  (forall row k t,
     List.length row = List.length (columns df) ->
     cell_at (filter keep (columns df) ++ ["event_time"%string])
             (overwritten_row (columns df) row k t) c = g (row, k, t)) ->
  column_values c (overwritten raw clock df)
  = Some (map g (combine (combine (rows df) (kids raw df)) (stamps clock df))).
Proof.
  intros Hin Hcell. rewrite column_values_cells by exact Hin.
  unfold overwritten. cbn [columns rows]. rewrite map_map. f_equal.
  apply map_combine_ext. intros row k t Hrow. cbn [fst snd].
  apply Hcell. rewrite Forall_forall in rectangular. apply rectangular. exact Hrow.
Qed.

Lemma kept_label (c : string) :
  In c (columns df) -> c <> "event_time"%string ->
  In c (filter keep (columns df) ++ ["event_time"%string]).
Proof.
  intros Hin Hne. apply in_app_iff. left. apply filter_In. split; [exact Hin|].
  unfold keep. destruct (String.eqb_spec c "event_time"); [contradiction | reflexivity].
Qed.

Lemma overwritten_kids_column :
  column_values "has_kids" (overwritten raw clock df) = Some (kids raw df).
Proof.
  rewrite (overwritten_column "has_kids" (fun x => snd (fst x))).
  - rewrite combine3_mid; [reflexivity | apply kids_length | apply stamps_length].
  - apply kept_label; [exact has_has_kids | discriminate].
  - intros row k t Hlen.
    rewrite overwritten_row_kept; [| exact Hlen | exact has_has_kids | discriminate].
    apply OrderDataFacts.cell_at_store_same; [exact Hlen | exact has_has_kids].
Qed.

Lemma overwritten_stamp_column :
  column_values "event_time" (overwritten raw clock df) = Some (stamps clock df).
Proof.
  rewrite (overwritten_column "event_time" snd).
  - rewrite combine3_snd; [reflexivity | apply kids_length | apply stamps_length].
  - apply in_app_iff. right. left. reflexivity.
  - intros row k t Hlen. apply overwritten_row_stamp. exact Hlen.
Qed.

Lemma overwritten_old_column (c : string) :
  In c (columns df) -> c <> "event_time"%string -> c <> "has_kids"%string ->
  column_values c (overwritten raw clock df) = column_values c df.
Proof.
  intros Hin Hne Hnk.
  rewrite (overwritten_column c (fun x => cell_at (columns df) (fst (fst x)) c)).
  - rewrite (column_values_cells c df Hin).
    rewrite <- (map_map (fun x => fst (fst x)) (fun row => cell_at (columns df) row c)).
    rewrite combine3_fst; [reflexivity | apply kids_length | apply stamps_length].
  - apply kept_label; assumption.
  - intros row k t Hlen. rewrite overwritten_row_kept by assumption.
    apply OrderDataFacts.cell_at_store_other. exact Hnk.
Qed.

End Overwrite.

(** The customers frame at the edges.  Without an event_time column the
    preparation raises KeyError at the drop.  With a has_kids column already
    there (and an event_time column), no column is added for it: the result
    has the old labels with event_time moved to the end and as many rows,
    and, the frame being rectangular, has_kids is overwritten where it
    stands with the new draws, each 0 or 1, event_time holds the new
    timestamps, and every other column keeps its cells. *)
Theorem prepare_customers_edges :
  forall (raw : nat -> Z) (clock : nat -> string) (df : DataFrame),
    (~ In "event_time"%string (columns df) ->
     prepare_customers raw clock df = inl (KeyError "event_time")) /\
    (In "event_time"%string (columns df) -> In "has_kids"%string (columns df) ->
     exists df',
       prepare_customers raw clock df = inr df' /\
       columns df' =
         filter (fun c => negb (String.eqb c "event_time")) (columns df)
         ++ ["event_time"%string] /\
       nrows df' = nrows df /\
       (Forall (fun row => List.length row = List.length (columns df)) (rows df) ->
        column_values "has_kids" df' =
          Some (map (fun z => Some (JNum z)) (randint raw 0 2 (nrows df))) /\
        Forall (fun z => z = 0%Z \/ z = 1%Z) (randint raw 0 2 (nrows df)) /\
        column_values "event_time" df' =
          Some (map (fun i => Some (JStr (generate_event_timestamp (clock i))))
                    (seq 0 (nrows df))) /\
        (forall c, In c (columns df) ->
                   c <> "event_time"%string -> c <> "has_kids"%string ->
                   column_values c df' = column_values c df))).
Proof.
  intros raw clock df.
  split.
  - intros Hnot. unfold prepare_customers.
    rewrite (setitem_fits _ _ _ (kids_length raw df)).
    destruct (Py.mem "has_kids" (columns df)); cbn [bind]; rewrite drop_one;
      cbn [columns].
    + apply mem_not_In in Hnot. rewrite Hnot. reflexivity.
    + assert (E : Py.mem "event_time" (columns df ++ ["has_kids"%string]) = false).
      { apply mem_not_In. intros H.
        apply in_app_iff in H as [H|[H|[]]]; [contradiction | discriminate H]. }
      rewrite E. reflexivity.
  - intros Het Hkids. exists (overwritten raw clock df).
    split; [apply overwritten_frame; assumption|].
    split; [reflexivity|]. split.
    + unfold overwritten, nrows. cbn [rows].
      rewrite length_map, !length_combine. fold (nrows df).
      rewrite kids_length, stamps_length. lia.
    + intros Hrect. split; [|split; [|split]].
      * apply overwritten_kids_column; assumption.
      * eapply Forall_impl; [|apply (randint_range raw 0 2 (nrows df)); lia].
        intros z Hz. cbv beta in Hz. lia.
      * rewrite overwritten_stamp_column by assumption. unfold stamps.
        rewrite map_map. reflexivity.
      * intros c Hc Hne Hnk. apply overwritten_old_column; assumption.
Qed.

(** The theorem at a frame without event_time and at one that has has_kids
    already. *)
Lemma prepare_customers_edges_witness :
  prepare_customers sample_raw sample_clock
    (mkFrame ["customer_id"%string] [[Some (JStr "C1")]])
  = inl (KeyError "event_time") /\
  exists df',
    prepare_customers sample_raw sample_clock sample_ingested = inr df' /\
    columns df' = ["has_kids"; "customer_id"; "event_time"]%string /\
    column_values "has_kids" df' = Some [Some (JNum 1)].
Proof.
  split.
  - apply (proj1 (prepare_customers_edges sample_raw sample_clock
                    (mkFrame ["customer_id"%string] [[Some (JStr "C1")]]))).
    intros [H|[]]. discriminate H.
  - destruct (proj2 (prepare_customers_edges sample_raw sample_clock sample_ingested))
      as [df' [Hrun [Hcols [_ Hcells]]]].
    + right. left. reflexivity.
    + left. reflexivity.
    + exists df'. split; [exact Hrun|]. split; [exact Hcols|].
      apply Hcells. repeat constructor.
Defined.

End UpdateEdgeFacts.
